(** * Usage and cost aggregation of the Claude usage tracker

    A shallow embedding of [anthropic_api.py]: the [UsageData] container and
    its addition, the time-window resolver [_get_date_range], the cost-window
    widening of [_fetch_cost], the aggregation [_combine_data] and the
    reset-time formatter [format_reset_time].

    Python [int] is modelled by [Z], Python [float] by the binary64 primitive
    floats of the kernel, [str] by [string], a JSON object by a record whose
    optional keys are [option] fields, and the insertion-ordered [defaultdict]
    of [_combine_data] by an association list in insertion order. *)

From Stdlib Require Import ZArith List String Ascii Bool Lia.
From Stdlib Require Import Permutation Sorted.
From Stdlib Require Import DecimalString.
From Stdlib Require Import Floats.
Import ListNotations.

Local Open Scope string_scope.
Local Open Scope Z_scope.

(** ** [UsageData] *)

Module Usage.

(** [@dataclass class UsageData]: four plain fields, no [__post_init__]. *)
Record UsageData : Type := mkUsageData {
  input_tokens : Z;
  output_tokens : Z;
  total_tokens : Z;
  cost_usd : float
}.

(** [UsageData()] : every field at its default. *)
Definition empty : UsageData := mkUsageData 0 0 0 0%float.

(** [UsageData.__add__] *)
Definition add (self other : UsageData) : UsageData :=
  mkUsageData
    (input_tokens self + input_tokens other)
    (output_tokens self + output_tokens other)
    (total_tokens self + total_tokens other)
    (cost_usd self + cost_usd other)%float.

(** The equality a dataclass generates: the field tuples compared with [==],
    which on floats is the IEEE comparison. *)
Definition eqb (a b : UsageData) : bool :=
  (input_tokens a =? input_tokens b) &&
  (output_tokens a =? output_tokens b) &&
  (total_tokens a =? total_tokens b) &&
  PrimFloat.eqb (cost_usd a) (cost_usd b).

(** The invariant the data model asks of every figure. *)
Definition consistent (u : UsageData) : Prop :=
  total_tokens u = input_tokens u + output_tokens u.

(** The three token fields, without the cost. *)
Definition tokens (u : UsageData) : Z * Z * Z :=
  (input_tokens u, output_tokens u, total_tokens u).

End Usage.

(** ** JSON payloads

    A key that may be missing from a JSON object is an [option] field;
    [dict.get(key, default)] is [get]. *)

Definition get {A : Type} (o : option A) (default : A) : A :=
  match o with
  | Some v => v
  | None => default
  end.

(** The [cache_creation] object of a usage row. *)
Module CacheCreation.
Record t : Type := mk {
  ephemeral_1h_input_tokens : option Z;
  ephemeral_5m_input_tokens : option Z
}.
Definition empty : t := mk None None.
End CacheCreation.

(** A result row of the usage report. *)
Module Item.
Record t : Type := mk {
  model : option string;
  api_key_id : option string;
  uncached_input_tokens : option Z;
  cache_read_input_tokens : option Z;
  cache_creation : option CacheCreation.t;
  output_tokens : option Z
}.
End Item.

(** A day bucket of the usage report. *)
Module Bucket.
Record t : Type := mk { results : option (list Item.t) }.
End Bucket.

(** A result row and a day bucket of the cost report; [amount] is the value
    [float(item.get("amount", 0))] converts, when the key is present. *)
Module CostItem.
Record t : Type := mk { amount : option float }.
End CostItem.

Module CostBucket.
Record t : Type := mk { results : option (list CostItem.t) }.
End CostBucket.

(** ** The report *)

Module ModelUsage.
Record t : Type := mk { model : string; usage : Usage.UsageData }.
End ModelUsage.

Module ApiKeyUsage.
Record t : Type := mk {
  key_id : string;
  key_hint : string;
  usage : Usage.UsageData
}.
End ApiKeyUsage.

(** The dict [_combine_data] returns. *)
Module Report.
Record t : Type := mk {
  total : Usage.UsageData;
  by_model : list ModelUsage.t;
  by_key : list ApiKeyUsage.t
}.
End Report.

(** ** Strings *)

(** [str.lower] on the ASCII letters. *)
Definition lower_ascii (c : ascii) : ascii :=
  let n := nat_of_ascii c in
  if (65 <=? n)%nat && (n <=? 90)%nat then ascii_of_nat (n + 32) else c.

Fixpoint lower (s : string) : string :=
  match s with
  | EmptyString => EmptyString
  | String c s' => String (lower_ascii c) (lower s')
  end.

(** [needle in hay] *)
Fixpoint contains (needle hay : string) : bool :=
  match hay with
  | EmptyString => prefix needle EmptyString
  | String _ hay' => prefix needle hay || contains needle hay'
  end.

(** [s[-n:]] for a positive [n]. *)
Definition last_chars (n : nat) (s : string) : string :=
  substring (String.length s - n) n s.

(** [_friendly_model_name] *)
Definition _friendly_model_name (model : string) : string :=
  if contains "opus" (lower model) then "Opus"
  else if contains "sonnet" (lower model) then "Sonnet"
  else if contains "haiku" (lower model) then "Haiku"
  else model.

(** ** The running totals

    [defaultdict(lambda: {"input": 0, "output": 0})] keeps its keys in the
    order of their first insertion, and the loops that read it back follow
    that order: an association list, a new key appended at the end. *)

Definition totals : Type := list (string * (Z * Z)).

(** [d[k]["input"] += i; d[k]["output"] += o] *)
Fixpoint bump (k : string) (i o : Z) (d : totals) : totals :=
  match d with
  | [] => [(k, (0 + i, 0 + o))]
  | (k', (a, b)) :: d' =>
      if String.eqb k' k then (k', (a + i, b + o)) :: d'
      else (k', (a, b)) :: bump k i o d'
  end.

Section Accumulate.

Variable key : Item.t -> string.
Variables inp out : Item.t -> Z.

(** The inner loop, over the rows of one bucket. *)
Definition accumulate_rows (rows : list Item.t) (d : totals) : totals :=
  fold_left (fun d item => bump (key item) (inp item) (out item) d) rows d.

(** The outer loop: [for bucket in ...: for item in bucket.get("results", [])]. *)
Definition accumulate (buckets : list Bucket.t) : totals :=
  fold_left (fun d bucket => accumulate_rows (get (Bucket.results bucket) []) d)
    buckets [].

End Accumulate.

(** Every row of every bucket, in the order the loops visit them. *)
Definition all_rows (buckets : list Bucket.t) : list Item.t :=
  flat_map (fun bucket => get (Bucket.results bucket) []) buckets.

(** ** Sorting

    [list.sort(key=..., reverse=True)] is stable also when reversed: elements
    with equal keys keep their order. A stable sort is determined by its
    input, here it is written as an insertion sort. *)

Section Sort.

Context {A : Type}.
Variable key : A -> Z.

Fixpoint insert_desc (x : A) (l : list A) : list A :=
  match l with
  | [] => [x]
  | y :: l' => if key x <? key y then y :: insert_desc x l' else x :: l
  end.

Definition sort_desc (l : list A) : list A :=
  fold_right insert_desc [] l.

End Sort.

(** ** [_combine_data] *)

(** Input tokens of a row in the aggregation by model. *)
Definition model_input_tokens (item : Item.t) : Z :=
  let input_tokens :=
    get (Item.uncached_input_tokens item) 0
    + get (Item.cache_read_input_tokens item) 0 in
  let cache_creation := get (Item.cache_creation item) CacheCreation.empty in
  let input_tokens :=
    input_tokens
    + get (CacheCreation.ephemeral_1h_input_tokens cache_creation) 0 in
  input_tokens + get (CacheCreation.ephemeral_5m_input_tokens cache_creation) 0.

(** Input tokens of a row in the aggregation by API key. *)
Definition key_input_tokens (item : Item.t) : Z :=
  get (Item.uncached_input_tokens item) 0
  + get (Item.cache_read_input_tokens item) 0.

Definition row_output_tokens (item : Item.t) : Z :=
  get (Item.output_tokens item) 0.

Definition row_friendly_name (item : Item.t) : string :=
  _friendly_model_name (get (Item.model item) "unknown").

(** [item.get("api_key_id") or "workbench"]: a missing key, [null] and the
    empty string all give ["workbench"]. *)
Definition row_key_id (item : Item.t) : string :=
  match Item.api_key_id item with
  | Some id => if String.eqb id "" then "workbench" else id
  | None => "workbench"
  end.

Definition model_totals (model_usage : list Bucket.t) : totals :=
  accumulate row_friendly_name model_input_tokens row_output_tokens model_usage.

Definition key_totals (key_usage : list Bucket.t) : totals :=
  accumulate row_key_id key_input_tokens row_output_tokens key_usage.

(** [UsageData(input_tokens=.., output_tokens=.., total_tokens=.. + ..)] *)
Definition usage_of (tokens : Z * Z) : Usage.UsageData :=
  Usage.mkUsageData (fst tokens) (snd tokens) (fst tokens + snd tokens) 0%float.

Definition model_entry (e : string * (Z * Z)) : ModelUsage.t :=
  ModelUsage.mk (fst e) (usage_of (snd e)).

Definition hint_of (key_id : string) : string :=
  if String.eqb key_id "workbench" then "Workbench"
  else if (6 <? String.length key_id)%nat then "..." ++ last_chars 6 key_id
  else key_id.

Definition key_entry (e : string * (Z * Z)) : ApiKeyUsage.t :=
  ApiKeyUsage.mk (fst e) (hint_of (fst e)) (usage_of (snd e)).

(** The list [by_model] before it is sorted, and the running [total]. *)
Definition models_unsorted (model_usage : list Bucket.t) : list ModelUsage.t :=
  map model_entry (model_totals model_usage).

Definition keys_unsorted (key_usage : list Bucket.t) : list ApiKeyUsage.t :=
  map key_entry (key_totals key_usage).

Definition sum_usage (l : list Usage.UsageData) : Usage.UsageData :=
  fold_left Usage.add l Usage.empty.

(** [total_cost]: the amounts of all cost rows, added from [0.0]. *)
Definition all_cost_rows (cost_data : list CostBucket.t) : list CostItem.t :=
  flat_map (fun bucket => get (CostBucket.results bucket) []) cost_data.

Definition total_cost (cost_data : list CostBucket.t) : float :=
  fold_left (fun acc item => (acc + get (CostItem.amount item) 0)%float)
    (all_cost_rows cost_data) 0%float.

Definition set_cost_usd (u : Usage.UsageData) (c : float) : Usage.UsageData :=
  Usage.mkUsageData (Usage.input_tokens u) (Usage.output_tokens u)
    (Usage.total_tokens u) c.

Definition _combine_data
    (model_usage key_usage : list Bucket.t) (cost_data : list CostBucket.t)
    : Report.t :=
  let by_model := models_unsorted model_usage in
  let total := sum_usage (map ModelUsage.usage by_model) in
  let by_model :=
    sort_desc (fun x => Usage.total_tokens (ModelUsage.usage x)) by_model in
  let by_key :=
    sort_desc (fun x => Usage.total_tokens (ApiKeyUsage.usage x))
      (keys_unsorted key_usage) in
  Report.mk (set_cost_usd total (total_cost cost_data)) by_model by_key.

(** ** The best-effort cost request *)

(** What [session.get] followed by [raise_for_status] and [json] gives: an
    exception, or a JSON object whose ["data"] key may be missing. *)
Inductive response (A : Type) : Type :=
  | Raised : response A
  | Body : option (list A) -> response A.
Arguments Raised {A}.
Arguments Body {A} _.

(** The [try] block of [_fetch_cost]. *)
Definition _fetch_cost_request (r : response CostBucket.t) : list CostBucket.t :=
  match r with
  | Body data => get data []
  | Raised => []
  end.

(** ** Dates and times

    [datetime] with the fields of the Python class; [tzinfo] is the UTC offset
    in seconds of an aware value and [None] for a naive one. *)

Record datetime : Type := mkdatetime {
  year : Z;
  month : Z;
  day : Z;
  hour : Z;
  minute : Z;
  second : Z;
  microsecond : Z;
  tzinfo : option Z
}.

Definition MINYEAR : Z := 1.
Definition MAXYEAR : Z := 9999.

Definition is_leap (y : Z) : bool :=
  (y mod 4 =? 0) && (negb (y mod 100 =? 0) || (y mod 400 =? 0)).

Definition days_in_month (y m : Z) : Z :=
  match m with
  | 1 => 31 | 2 => if is_leap y then 29 else 28 | 3 => 31 | 4 => 30
  | 5 => 31 | 6 => 30 | 7 => 31 | 8 => 31
  | 9 => 30 | 10 => 31 | 11 => 30 | 12 => 31
  | _ => 0
  end.

(** Days of the year before the first of month [m]. *)
Definition days_before_month (y m : Z) : Z :=
  let leap := if is_leap y then 1 else 0 in
  match m with
  | 1 => 0 | 2 => 31 | 3 => 59 + leap | 4 => 90 + leap
  | 5 => 120 + leap | 6 => 151 + leap | 7 => 181 + leap | 8 => 212 + leap
  | 9 => 243 + leap | 10 => 273 + leap | 11 => 304 + leap | 12 => 334 + leap
  | _ => 0
  end.

(** Days before January 1st of year [y]. *)
Definition days_before_year (y : Z) : Z :=
  let y' := y - 1 in y' * 365 + y' / 4 - y' / 100 + y' / 400.

(** [date.toordinal]: January 1st of year 1 is day 1. *)
Definition toordinal (d : datetime) : Z :=
  days_before_year (year d) + days_before_month (year d) (month d) + day d.

(** The values the constructor of [datetime] accepts. *)
Definition valid (d : datetime) : bool :=
  (MINYEAR <=? year d) && (year d <=? MAXYEAR)
  && (1 <=? month d) && (month d <=? 12)
  && (1 <=? day d) && (day d <=? days_in_month (year d) (month d))
  && (0 <=? hour d) && (hour d <? 24)
  && (0 <=? minute d) && (minute d <? 60)
  && (0 <=? second d) && (second d <? 60)
  && (0 <=? microsecond d) && (microsecond d <? 1000000).

Definition with_date (d : datetime) (y m dd : Z) : datetime :=
  mkdatetime y m dd (hour d) (minute d) (second d) (microsecond d) (tzinfo d).

(** [d.replace(hour=0, minute=0, second=0)]: the microsecond stays. *)
Definition replace_hms (d : datetime) (h m s : Z) : datetime :=
  mkdatetime (year d) (month d) (day d) h m s (microsecond d) (tzinfo d).

(** [d.replace(hour=0, minute=0, second=0, microsecond=0)] *)
Definition replace_hmsu (d : datetime) (h m s us : Z) : datetime :=
  mkdatetime (year d) (month d) (day d) h m s us (tzinfo d).

(** [d + timedelta(days=1)]; [None] is the [OverflowError] past year 9999. *)
Definition next_day (d : datetime) : option datetime :=
  if day d <? days_in_month (year d) (month d)
  then Some (with_date d (year d) (month d) (day d + 1))
  else if month d <? 12 then Some (with_date d (year d) (month d + 1) 1)
  else if year d <? MAXYEAR then Some (with_date d (year d + 1) 1 1)
  else None.

(** [d - timedelta(days=1)]; [None] is the [OverflowError] before year 1. *)
Definition prev_day (d : datetime) : option datetime :=
  if 1 <? day d then Some (with_date d (year d) (month d) (day d - 1))
  else if 1 <? month d
  then Some (with_date d (year d) (month d - 1)
               (days_in_month (year d) (month d - 1)))
  else if MINYEAR <? year d then Some (with_date d (year d - 1) 12 31)
  else None.

(** [d - timedelta(days=n)] *)
Fixpoint sub_days (n : nat) (d : datetime) : option datetime :=
  match n with
  | O => Some d
  | S n' => match prev_day d with
            | Some d' => sub_days n' d'
            | None => None
            end
  end.

(** Microseconds of the wall-clock time of [d] since the start of day 0. *)
Definition wall_us (d : datetime) : Z :=
  ((toordinal d * 86400 + hour d * 3600 + minute d * 60 + second d) * 1000000)
  + microsecond d.

(** ** Formatting numbers and dates *)

Definition digit (z : Z) : ascii := ascii_of_nat (48 + Z.to_nat (z mod 10)).

(** [%m], [%d], [%H], [%M], [%S]: two digits. *)
Definition pad2 (z : Z) : string :=
  String (digit (z / 10)) (String (digit z) EmptyString).

(** [%Y]: four digits. *)
Definition pad4 (z : Z) : string :=
  String (digit (z / 1000)) (String (digit (z / 100)) (pad2 z)).

(** [str(z)] and [f"{z}"] of an [int]. *)
Definition str (z : Z) : string := DecimalString.NilZero.string_of_int (Z.to_int z).

(** [d.strftime("%Y-%m-%dT%H:%M:%SZ")] *)
Definition strftime_iso (d : datetime) : string :=
  pad4 (year d) ++ "-" ++ pad2 (month d) ++ "-" ++ pad2 (day d) ++ "T"
  ++ pad2 (hour d) ++ ":" ++ pad2 (minute d) ++ ":" ++ pad2 (second d) ++ "Z".

(** [%b] in the C locale. *)
Definition month_abbr (m : Z) : string :=
  match m with
  | 1 => "Jan" | 2 => "Feb" | 3 => "Mar" | 4 => "Apr"
  | 5 => "May" | 6 => "Jun" | 7 => "Jul" | 8 => "Aug"
  | 9 => "Sep" | 10 => "Oct" | 11 => "Nov" | 12 => "Dec"
  | _ => ""
  end.

(** [d.strftime("%b %d")] *)
Definition strftime_b_d (d : datetime) : string :=
  month_abbr (month d) ++ " " ++ pad2 (day d).

(** ** [_get_date_range]

    [now] is what [datetime.utcnow()] returned; [None] stands for the
    [OverflowError] of a subtraction that leaves the range of [datetime]. *)

(** [start] and [end], before they are formatted. *)
Definition date_range (now : datetime) (timeframe : string)
    : option (datetime * datetime) :=
  let today_start := replace_hmsu now 0 0 0 0 in
  if String.eqb timeframe "today" then Some (today_start, now)
  else if String.eqb timeframe "7days" then
    option_map (fun start => (start, now)) (sub_days 6 today_start)
  else if String.eqb timeframe "30days" then
    option_map (fun start => (start, now)) (sub_days 29 today_start)
  else Some (today_start, now).

Definition _get_date_range (now : datetime) (timeframe : string)
    : option (string * string) :=
  option_map (fun range => (strftime_iso (fst range), strftime_iso (snd range)))
    (date_range now timeframe).

(** ** The window of [_fetch_cost] *)

(** From the parsed bounds to the bounds of the request; [None] stands for the
    [OverflowError] of [end_dt + timedelta(days=1)]. *)
Definition cost_window (start_dt end_dt : datetime)
    : option (datetime * datetime) :=
  let start_day := replace_hms start_dt 0 0 0 in
  match next_day end_dt with
  | Some next => Some (start_day, replace_hms next 0 0 0)
  | None => None
  end.

Section FetchCost.

(** [datetime.strptime(_, "%Y-%m-%dT%H:%M:%SZ")]; [None] is a [ValueError]. *)
Variable strptime : string -> option datetime.

(** The [starting_at] and [ending_at] of the cost request; [None] when the
    code before the [try] block raises. *)
Definition _fetch_cost_params (start_date end_date : string)
    : option (string * string) :=
  match strptime start_date, strptime end_date with
  | Some start_dt, Some end_dt =>
      match cost_window start_dt end_dt with
      | Some (start_day, end_day) =>
          Some (strftime_iso start_day, strftime_iso end_day)
      | None => None
      end
  | _, _ => None
  end.

(** [_fetch_cost]: the parameters, then the request, whose failure is
    swallowed. [session_get] answers a request for the given parameters. *)
Definition _fetch_cost
    (session_get : string * string -> response CostBucket.t)
    (start_date end_date : string) : option (list CostBucket.t) :=
  match _fetch_cost_params start_date end_date with
  | Some params => Some (_fetch_cost_request (session_get params))
  | None => None
  end.

End FetchCost.

(** ** [get_usage] *)

(** [_fetch_usage]: nothing is caught here, [None] is the exception. *)
Definition _fetch_usage (r : response Bucket.t) : option (list Bucket.t) :=
  match r with
  | Body data => Some (get data [])
  | Raised => None
  end.

(** The HTTP session: what the usage report answers for a [group_by] and a
    window, and what the cost report answers for a window. *)
Record session : Type := mksession {
  usage_report : string -> string * string -> response Bucket.t;
  cost_report : string * string -> response CostBucket.t
}.

(** What a call does: it raises, or it returns a value. *)
Inductive outcome (A : Type) : Type :=
  | Raises : outcome A
  | Returns : A -> outcome A.
Arguments Raises {A}.
Arguments Returns {A} _.

Section GetUsage.

Variable strptime : string -> option datetime.

(** [_get_date_range] is called before the [try]; everything raised inside
    the [try] becomes the result [None]. *)
Definition get_usage (s : session) (now : datetime) (timeframe : string)
    : outcome (option Report.t) :=
  match _get_date_range now timeframe with
  | None => Raises
  | Some (start_date, end_date) =>
      Returns
        match _fetch_usage (usage_report s "model" (start_date, end_date)) with
        | None => None
        | Some model_usage =>
            match _fetch_usage
                    (usage_report s "api_key_id" (start_date, end_date)) with
            | None => None
            | Some key_usage =>
                match _fetch_cost strptime (cost_report s) start_date end_date with
                | None => None
                | Some cost_data =>
                    Some (_combine_data model_usage key_usage cost_data)
                end
            end
        end
  end.

End GetUsage.

(** ** [format_reset_time] *)

Definition is_digit (c : ascii) : bool :=
  let n := nat_of_ascii c in (48 <=? n)%nat && (n <=? 57)%nat.

Definition starts_with_digit (s : string) : bool :=
  match s with
  | String c _ => is_digit c
  | EmptyString => false
  end.

(** [re.sub(r'\.\d+', '', s)]: a dot that is followed by a digit goes away
    together with all the digits that follow it. [dropping] is set while the
    digits of a match are being skipped. *)
Fixpoint strip_fraction_from (dropping : bool) (s : string) : string :=
  match s with
  | EmptyString => EmptyString
  | String c s' =>
      if dropping && is_digit c then strip_fraction_from true s'
      else if Ascii.eqb c "." && starts_with_digit s'
      then strip_fraction_from true s'
      else String c (strip_fraction_from false s')
  end.

Definition strip_fraction (s : string) : string := strip_fraction_from false s.

(** [s.replace(old, new)] for a non-empty [old]: the occurrences are taken
    from the left and do not overlap. [skip] counts the characters of a
    matched occurrence still to be passed over. *)
Fixpoint replace_from (old new : string) (skip : nat) (s : string) : string :=
  match s with
  | EmptyString => EmptyString
  | String c s' =>
      match skip with
      | S k => replace_from old new k s'
      | O =>
          if prefix old s
          then new ++ replace_from old new (String.length old - 1) s'
          else String c (replace_from old new 0 s')
      end
  end.

Definition replace (old new s : string) : string := replace_from old new 0 s.

(** [timedelta]: [days] and [seconds] of the normal form of a difference
    given in microseconds, with [0 <= seconds < 86400]. *)
Definition timedelta_days (us : Z) : Z := us / 86400000000.
Definition timedelta_seconds (us : Z) : Z := (us mod 86400000000) / 1000000.

Section ResetTime.

(** [datetime.fromisoformat]; [None] is a [ValueError]. *)
Variable fromisoformat : string -> option datetime.

(** [datetime.now(tz)]: the current wall-clock time in the zone [tz], which
    carries that [tzinfo]. *)
Variable now_in : option Z -> datetime.

(** [dt - now] for two values with one and the same [tzinfo], in
    microseconds. *)
Definition diff_us (dt now : datetime) : Z := wall_us dt - wall_us now.

Definition format_reset_time (iso_time : option string) : string :=
  match iso_time with
  | None => "--"
  | Some iso_time =>
      if String.eqb iso_time "" then "--"
      else
        let clean := strip_fraction iso_time in
        match fromisoformat (replace "+00:00" "+0000" clean) with
        | None => "?"
        | Some dt =>
            let now := now_in (tzinfo dt) in
            let diff := diff_us dt now in
            if timedelta_days diff =? 0 then
              let hours := timedelta_seconds diff / 3600 in
              let mins := (timedelta_seconds diff mod 3600) / 60 in
              if hours >? 0 then str hours ++ "h " ++ str mins ++ "m"
              else str mins ++ "m"
            else if timedelta_days diff =? 1 then "Tomorrow"
            else strftime_b_d dt
        end
  end.

End ResetTime.

(** *** A parser and a clock for the examples

    The timestamps the usage endpoint sends have the form
    [YYYY-MM-DDTHH:MM:SS] followed by nothing, [Z], or an offset [+HH:MM] or
    [+HHMM]; [parse_timestamp] reads that form and nothing else. *)

Definition digit_value (c : ascii) : option Z :=
  if is_digit c then Some (Z.of_nat (nat_of_ascii c) - 48) else None.

Fixpoint number_from (acc : Z) (s : string) : option Z :=
  match s with
  | EmptyString => Some acc
  | String c s' =>
      match digit_value c with
      | Some v => number_from (acc * 10 + v) s'
      | None => None
      end
  end.

Definition number (s : string) : option Z :=
  match s with
  | EmptyString => None
  | _ => number_from 0 s
  end.

Definition parse_offset (s : string) : option (option Z) :=
  let signed (sign : Z) (hh mm : string) :=
    match number hh, number mm with
    | Some h, Some m =>
        if (h <? 24) && (m <? 60) then Some (Some (sign * (h * 3600 + m * 60)))
        else None
    | _, _ => None
    end in
  match s with
  | EmptyString => Some None
  | "Z" => Some (Some 0)
  | String sg rest =>
      let sign := if Ascii.eqb sg "+" then Some 1
                  else if Ascii.eqb sg "-" then Some (-1) else None in
      match sign with
      | None => None
      | Some sign =>
          if (String.length rest =? 5)%nat && String.eqb (substring 2 1 rest) ":"
          then signed sign (substring 0 2 rest) (substring 3 2 rest)
          else if (String.length rest =? 4)%nat
          then signed sign (substring 0 2 rest) (substring 2 2 rest)
          else None
      end
  end.

Definition parse_timestamp (s : string) : option datetime :=
  if (String.length s <? 19)%nat then None
  else if negb (String.eqb (substring 4 1 s) "-" && String.eqb (substring 7 1 s) "-"
                && String.eqb (substring 10 1 s) "T"
                && String.eqb (substring 13 1 s) ":"
                && String.eqb (substring 16 1 s) ":")
  then None
  else
    match number (substring 0 4 s), number (substring 5 2 s),
          number (substring 8 2 s), number (substring 11 2 s),
          number (substring 14 2 s), number (substring 17 2 s),
          parse_offset (substring 19 (String.length s - 19) s) with
    | Some y, Some m, Some d, Some hh, Some mm, Some ss, Some tz =>
        let dt := mkdatetime y m d hh mm ss 0 tz in
        if valid dt then Some dt else None
    | _, _, _, _, _, _, _ => None
    end.

(** A clock that stands at [now], whatever the zone asked for. *)
Definition clock_at (now : datetime) (tz : option Z) : datetime :=
  mkdatetime (year now) (month now) (day now) (hour now) (minute now)
    (second now) (microsecond now) tz.

(** ** Vocabulary of the statements *)

Definition sumZ (l : list Z) : Z := fold_right Z.add 0 l.

(** The rows whose grouping key is [k], and the sum of [f] over them. *)
Definition rows_of (key : Item.t -> string) (k : string) (rows : list Item.t)
    : list Item.t :=
  filter (fun item => String.eqb (key item) k) rows.

Definition sum_of (key : Item.t -> string) (f : Item.t -> Z) (k : string)
    (rows : list Item.t) : Z :=
  sumZ (map f (rows_of key k rows)).

Definition seen (k : string) (ks : list string) : bool :=
  existsb (String.eqb k) ks.

(** The distinct keys of a sequence, in the order of their first occurrence. *)
Fixpoint first_seen_from (ks : list string) (l : list string) : list string :=
  match l with
  | [] => ks
  | k :: l' => first_seen_from (if seen k ks then ks else ks ++ [k]) l'
  end.

Definition first_seen (l : list string) : list string := first_seen_from [] l.

Fixpoint assoc (k : string) (d : totals) : option (Z * Z) :=
  match d with
  | [] => None
  | (k', v) :: d' => if String.eqb k' k then Some v else assoc k d'
  end.

(** The order of a list sorted by [key], largest first. *)
Definition desc {A : Type} (key : A -> Z) (a b : A) : Prop := key b <= key a.

(** The figures a summary by model, or by key, is expected to carry: the sums
    over the rows of that name, or of that key. *)
Definition model_figures (rows : list Item.t) (name : string) : Usage.UsageData :=
  usage_of (sum_of row_friendly_name model_input_tokens name rows,
            sum_of row_friendly_name row_output_tokens name rows).

Definition key_figures (rows : list Item.t) (id : string) : Usage.UsageData :=
  usage_of (sum_of row_key_id key_input_tokens id rows,
            sum_of row_key_id row_output_tokens id rows).

Definition is_midnight (d : datetime) : Prop :=
  hour d = 0 /\ minute d = 0 /\ second d = 0 /\ microsecond d = 0.

(** Does the string begin like a number: with a digit or a minus sign? *)
Definition head_is_number (s : string) : bool :=
  match s with
  | String c _ => is_digit c || Ascii.eqb c "-"
  | EmptyString => false
  end.

(** ** Values used in the examples *)

(** Figures that carry a cost and no tokens. *)
Set Warnings "-inexact-float".
Definition cost_only (c : float) : Usage.UsageData := Usage.mkUsageData 0 0 0 c.
Definition tenth : Usage.UsageData := cost_only 0.1.
Definition fifth : Usage.UsageData := cost_only 0.2.
Definition three_tenths : Usage.UsageData := cost_only 0.3.
Set Warnings "inexact-float".

(** Two raw identifiers of the same family, one row each, in two buckets and
    in one. *)
Definition opus_rows : list Bucket.t :=
  [Bucket.mk (Some [Item.mk (Some "claude-opus-4-20250514") None
                      (Some 100) None None (Some 50)]);
   Bucket.mk (Some [Item.mk (Some "claude-3-opus-20240229") None
                      (Some 200) None None (Some 10)])].

Definition opus_rows_reordered : list Bucket.t :=
  [Bucket.mk (Some [Item.mk (Some "claude-3-opus-20240229") None
                      (Some 200) None None (Some 10);
                    Item.mk (Some "claude-opus-4-20250514") None
                      (Some 100) None None (Some 50)])].

(** Two models with ten tokens each, in the two orders of their rows. *)
Definition tie_a_then_b : list Bucket.t :=
  [Bucket.mk (Some [Item.mk (Some "a") None (Some 10) None None None;
                    Item.mk (Some "b") None (Some 10) None None None])].

Definition tie_b_then_a : list Bucket.t :=
  [Bucket.mk (Some [Item.mk (Some "b") None (Some 10) None None None;
                    Item.mk (Some "a") None (Some 10) None None None])].

(** Three models over five rows; ["b"] and ["a"] end with 15 tokens each. *)
Definition tied_rows : list Bucket.t :=
  [Bucket.mk (Some [Item.mk (Some "b") None (Some 10) None None None;
                    Item.mk (Some "a") None (Some 10) None None None;
                    Item.mk (Some "c") None (Some 30) None None None;
                    Item.mk (Some "b") None None None None (Some 5);
                    Item.mk (Some "a") None (Some 5) None None None])].

(** A row of an API key, with cache-creation tokens, and a row without key. *)
Definition credential_rows : list Bucket.t :=
  [Bucket.mk (Some [Item.mk None (Some "sk-ant-api03-ABCDE123456")
                      (Some 10) (Some 5)
                      (Some (CacheCreation.mk (Some 1000) (Some 2000)))
                      (Some 7);
                    Item.mk None None (Some 1) None None (Some 2)])].

(** A requested window that ends on the last day of February. *)
Definition window_start : datetime := mkdatetime 2025 2 27 0 0 0 0 None.
Definition window_end : datetime := mkdatetime 2025 2 28 14 30 0 0 None.

(** Two readings of the clock on March 5th, 2025. *)
Definition half_past_two : datetime := mkdatetime 2025 3 5 14 30 0 0 None.
Definition two_o_clock : datetime := mkdatetime 2025 3 5 14 0 0 0 None.

(** A [strptime] for the examples: the twenty characters
    [YYYY-MM-DDTHH:MM:SSZ], read as a naive value. *)
Definition strptime_iso (s : string) : option datetime :=
  if (String.length s =? 20)%nat && String.eqb (substring 19 1 s) "Z"
  then parse_timestamp (substring 0 19 s)
  else None.

(** A session whose cost report is down. *)
Definition cost_outage : session :=
  mksession
    (fun group_by _ =>
       if String.eqb group_by "model" then Body (Some opus_rows)
       else Body (Some credential_rows))
    (fun _ => Raised).

(** The rows of [opus_rows] in one bucket, between buckets that carry no
    rows. *)
Definition opus_rows_one_bucket : list Bucket.t :=
  [Bucket.mk None;
   Bucket.mk (Some [Item.mk (Some "claude-opus-4-20250514") None
                      (Some 100) None None (Some 50);
                    Item.mk (Some "claude-3-opus-20240229") None
                      (Some 200) None None (Some 10)]);
   Bucket.mk (Some [])].

(** A session whose usage report by key is down. *)
Definition key_report_outage : session :=
  mksession
    (fun group_by _ =>
       if String.eqb group_by "model" then Body (Some opus_rows) else Raised)
    (fun _ => Body None).

(** ** [mask_api_key] of [config.py] *)

(** [key[:n]] *)
Definition first_chars (n : nat) (s : string) : string := substring 0 n s.

Definition mask_api_key (key : string) : string :=
  if (String.length key <=? 8)%nat then "***"
  else first_chars 4 key ++ "..." ++ last_chars 4 key.

(** ** [fmt_reset] of [tracker_lite.py] *)

(** [s.split(".")[0]]: what comes before the first dot. *)
Fixpoint before_dot (s : string) : string :=
  match s with
  | EmptyString => EmptyString
  | String c s' => if Ascii.eqb c "." then EmptyString else String c (before_dot s')
  end.

Section FmtReset.

Variable fromisoformat : string -> option datetime.
Variable now_in : option Z -> datetime.

(** [iso] is [None] when the payload has [null] for ["resets_at"]; the
    [AttributeError] that follows is caught like every other exception. *)
Definition fmt_reset (iso : option string) : string :=
  match iso with
  | None => "?"
  | Some iso =>
      match fromisoformat
              (before_dot (replace "+00:00" "+0000" iso) ++ "+0000") with
      | None => "?"
      | Some dt =>
          let diff := diff_us dt (now_in (tzinfo dt)) in
          if timedelta_days diff =? 0 then
            let h := timedelta_seconds diff / 3600 in
            let m := (timedelta_seconds diff mod 3600) / 60 in
            if negb (h =? 0) then str h ++ "h " ++ str m ++ "m"
            else str m ++ "m"
          else strftime_b_d dt
      end
  end.

End FmtReset.

(** ** Vocabulary on strings *)

(** Is there a dot followed by a digit, a match of [\.\d+]? *)
Fixpoint has_fraction (s : string) : bool :=
  match s with
  | EmptyString => false
  | String c s' => (Ascii.eqb c "." && starts_with_digit s') || has_fraction s'
  end.

(** Does the character [c] not occur in [s]? *)
Fixpoint free_of (c : ascii) (s : string) : bool :=
  match s with
  | EmptyString => true
  | String c' s' => negb (Ascii.eqb c' c) && free_of c s'
  end.

Fixpoint all_digits (s : string) : bool :=
  match s with
  | EmptyString => true
  | String c s' => is_digit c && all_digits s'
  end.

(** A session that answers every request, the usage reports without a
    ["data"] key. *)
Definition quiet_session : session :=
  mksession (fun _ _ => Body None) (fun _ => Body (Some [])).

(** ** The configuration of [config.py] *)

(** The values [json.load] returns. *)
Set Warnings "-register-all".
Inductive json : Type :=
  | JNull : json
  | JBool : bool -> json
  | JInt : Z -> json
  | JFloat : float -> json
  | JStr : string -> json
  | JArray : list json -> json
  | JObject : list (string * json) -> json.
Set Warnings "register-all".

(** A [dict] with [str] keys: its items in the order of insertion, no key
    twice. *)
Definition dict : Type := list (string * json).

(** [d.get(k)] *)
Fixpoint dict_get (k : string) (d : dict) : option json :=
  match d with
  | [] => None
  | (k', v) :: d' => if String.eqb k' k then Some v else dict_get k d'
  end.

(** [d[k] = v]: a key that is there keeps its place. *)
Fixpoint dict_set (k : string) (v : json) (d : dict) : dict :=
  match d with
  | [] => [(k, v)]
  | (k', v') :: d' =>
      if String.eqb k' k then (k', v) :: d' else (k', v') :: dict_set k v d'
  end.

(** [{**a, **b}] *)
Definition dict_merge (a b : dict) : dict :=
  fold_left (fun d item => dict_set (fst item) (snd item) d) b a.

Definition DEFAULT_CONFIG : dict :=
  [("refresh_interval_minutes", JInt 5);
   ("show_cost_in_menubar", JBool true);
   ("default_timeframe", JStr "today")].

(** The configuration file as [load_config] finds it: not there, there but
    raising when opened or parsed, or parsed to a value. *)
Inductive config_file : Type :=
  | Missing : config_file
  | Unreadable : config_file
  | Parsed : json -> config_file.

(** [load_config]: unpacking a value that is not an object raises a
    [TypeError], which is swallowed like every other exception. *)
Definition load_config (file : config_file) : dict :=
  match file with
  | Parsed (JObject config) => dict_merge DEFAULT_CONFIG config
  | _ => DEFAULT_CONFIG
  end.

Fixpoint repeat_string (n : nat) (s : string) : string :=
  match n with
  | O => EmptyString
  | S n' => s ++ repeat_string n' s
  end.

(** [v * 60] *)
Definition times_60 (v : json) : outcome json :=
  match v with
  | JInt n => Returns (JInt (n * 60))
  | JBool b => Returns (JInt ((if b then 1 else 0) * 60))
  | JFloat x => Returns (JFloat (x * 60)%float)
  | JStr s => Returns (JStr (repeat_string 60 s))
  | JArray l => Returns (JArray (List.concat (List.repeat l 60)))
  | JNull => Raises
  | JObject _ => Raises
  end.

(** [get_refresh_interval] *)
Definition get_refresh_interval (file : config_file) : outcome json :=
  times_60 (get (dict_get "refresh_interval_minutes" (load_config file)) (JInt 5)).

(** Is the value true in a condition? Here of an optional [str]. *)
Definition truthy (value : option string) : bool :=
  match value with
  | Some s => negb (String.eqb s "")
  | None => false
  end.

(** [get_api_key]: [keychain] is what [get_keychain_key] returned and [env]
    the environment variable; [None] is Python's [None], also for a [null]
    in the file. *)
Definition get_api_key (keychain env : option string) (file : config_file)
    : option json :=
  if truthy keychain then option_map JStr keychain
  else if truthy env then option_map JStr env
  else match dict_get "admin_api_key" (load_config file) with
       | Some JNull => None
       | other => other
       end.

(** A file that is an object has no key twice. *)
Definition well_formed (file : config_file) : Prop :=
  match file with
  | Parsed (JObject config) => NoDup (map fst config)
  | _ => True
  end.

(** The object of a file, if it is one. *)
Definition config_of (file : config_file) : dict :=
  match file with
  | Parsed (JObject config) => config
  | _ => []
  end.

(** A file that sets the interval and has an entry of its own. *)
Definition ten_minutes : config_file :=
  Parsed (JObject [("refresh_interval_minutes", JInt 10);
                   ("admin_api_key", JStr "key-of-the-file")]).

(** ** Vocabulary on windows *)

(** The days a timeframe goes back from today. *)
Definition days_back_of (timeframe : string) : Z :=
  if String.eqb timeframe "7days" then 6
  else if String.eqb timeframe "30days" then 29
  else 0.

(** What is read back of a value written as [YYYY-MM-DDTHH:MM:SSZ]: its date
    and time to the second, naive. *)
Definition reread (d : datetime) : datetime :=
  mkdatetime (year d) (month d) (day d) (hour d) (minute d) (second d) 0 None.

(** Microseconds since midnight. *)
Definition time_of_day_us (d : datetime) : Z :=
  (hour d * 3600 + minute d * 60 + second d) * 1000000 + microsecond d.

(** A row of the model report with its identifier, its uncached input tokens
    and its output tokens, and nothing else. *)
Definition token_row (model : string) (input output : Z) : Item.t :=
  Item.mk (Some model) None (Some input) None None (Some output).

(** The rows of [credential_rows] in the other order. *)
Definition credential_rows_swapped : list Bucket.t :=
  [Bucket.mk (Some [Item.mk None None (Some 1) None None (Some 2);
                    Item.mk None (Some "sk-ant-api03-ABCDE123456")
                      (Some 10) (Some 5)
                      (Some (CacheCreation.mk (Some 1000) (Some 2000)))
                      (Some 7)])].

(** * Proofs *)

(** ** Facts on binary64 addition *)

Section FloatAdd.

Lemma SF64add_comm (x y : spec_float) : SF64add x y = SF64add y x.
Proof.
  unfold SF64add, SFadd.
  destruct x as [sx|sx| |sx mx ex], y as [sy|sy| |sy my ey];
    try reflexivity; try (destruct sx, sy; reflexivity).
  cbv zeta. rewrite (Z.min_comm ey ex). f_equal. apply Z.add_comm.
Qed.

Lemma float_add_comm (x y : float) : (x + y = y + x)%float.
Proof.
  apply Prim2SF_inj. rewrite !add_spec. apply SF64add_comm.
Qed.

(** [0.0 + x] is [x] itself unless [x] is the negative zero. *)
Lemma float_add_0_l (x : float) :
  Prim2SF x <> S754_zero true -> (0 + x = x)%float.
Proof.
  intros Hx. apply Prim2SF_inj. rewrite add_spec.
  change (Prim2SF 0%float) with (S754_zero false).
  destruct (Prim2SF x) as [[|]|[|]| |s m e]; try reflexivity.
  now elim Hx.
Qed.

Lemma float_add_0_l_neg_zero : (0 + (-0) = 0)%float.
Proof. reflexivity. Qed.

(** Up to the IEEE comparison [0.0 + x == x] for every [x] but a NaN. *)
Lemma float_add_0_l_eqb (x : float) :
  PrimFloat.is_nan x = false -> PrimFloat.eqb (0 + x) x = true.
Proof.
  intros Hn. unfold PrimFloat.is_nan in Hn.
  apply negb_false_iff in Hn.
  rewrite FloatAxioms.eqb_spec in Hn |- *. rewrite add_spec.
  change (Prim2SF 0%float) with (S754_zero false).
  destruct (Prim2SF x) as [[|]|[|]| |s m e]; try exact Hn; reflexivity.
Qed.

End FloatAdd.

(** ** Algebra of [UsageData] addition *)

Section UsageAlgebra.

Import Usage.

Lemma add_tokens_assoc (x y z : Usage.UsageData) :
  tokens (add (add x y) z) = tokens (add x (add y z)).
Proof. unfold tokens, add; simpl. now rewrite !Z.add_assoc. Qed.

Lemma add_comm (x y : Usage.UsageData) : add x y = add y x.
Proof.
  unfold add. f_equal; try apply Z.add_comm. apply float_add_comm.
Qed.

Lemma add_empty_l_tokens (x : Usage.UsageData) : tokens (add empty x) = tokens x.
Proof. reflexivity. Qed.

Lemma add_consistent (x y : Usage.UsageData) :
  consistent x -> consistent y -> consistent (add x y).
Proof. unfold consistent, add; simpl; lia. Qed.

End UsageAlgebra.

(** C4 (counterexample). With costs 0.1, 0.2 and 0.3 the two groupings of the
    sum differ in [cost_usd]: [(0.1 + 0.2) + 0.3] is [0.6000000000000001] and
    [0.1 + (0.2 + 0.3)] is [0.6], so the two [UsageData] values compare
    unequal and addition is not associative. *)
Lemma add_not_assoc_cost :
  Usage.eqb (Usage.add (Usage.add tenth fifth) three_tenths)
            (Usage.add tenth (Usage.add fifth three_tenths)) = false
  /\ Usage.add (Usage.add tenth fifth) three_tenths
     <> Usage.add tenth (Usage.add fifth three_tenths).
Proof.
  split; [vm_compute; reflexivity|].
  intros H. apply (f_equal Usage.cost_usd) in H.
  apply (f_equal (fun c => PrimFloat.eqb c 0x1.3333333333333p-1%float)) in H.
  vm_compute in H. discriminate.
Qed.

(** C4 (amended). [UsageData] addition is commutative on all four fields,
    associative on the three token fields, and [UsageData()] is a left and
    right identity: exactly on the token fields and on every cost other than
    the negative zero, and up to [==] of the dataclass on every cost that is
    not a NaN. *)
Theorem add_commutative_monoid_on_tokens (x y z : Usage.UsageData) :
  Usage.tokens (Usage.add (Usage.add x y) z)
    = Usage.tokens (Usage.add x (Usage.add y z))
  /\ Usage.add x y = Usage.add y x
  /\ Usage.tokens (Usage.add Usage.empty x) = Usage.tokens x
  /\ (Prim2SF (Usage.cost_usd x) <> S754_zero true ->
      Usage.add Usage.empty x = x /\ Usage.add x Usage.empty = x)
  /\ (PrimFloat.is_nan (Usage.cost_usd x) = false ->
      Usage.eqb (Usage.add Usage.empty x) x = true
      /\ Usage.eqb (Usage.add x Usage.empty) x = true).
Proof.
  split; [apply add_tokens_assoc|].
  split; [apply add_comm|].
  split; [reflexivity|].
  split.
  - intros Hx.
    assert (E : Usage.add Usage.empty x = x).
    { destruct x as [i o t c]; unfold Usage.add, Usage.empty; simpl in *.
      rewrite float_add_0_l by assumption. reflexivity. }
    split; [exact E|]. now rewrite add_comm.
  - intros Hn.
    assert (E : Usage.eqb (Usage.add Usage.empty x) x = true).
    { destruct x as [i o t c]; unfold Usage.eqb, Usage.add, Usage.empty;
        simpl in *.
      rewrite !Z.eqb_refl; simpl. apply float_add_0_l_eqb; assumption. }
    split; [exact E|]. now rewrite add_comm.
Qed.

Lemma add_commutative_monoid_on_tokens_witness :
  Usage.add Usage.empty fifth = fifth
  /\ Usage.eqb (Usage.add fifth Usage.empty) fifth = true.
Proof.
  destruct (add_commutative_monoid_on_tokens fifth tenth three_tenths)
    as (_ & _ & _ & Hid & Heq).
  split.
  - apply Hid. vm_compute. discriminate.
  - apply Heq. vm_compute. reflexivity.
Defined.

(** ** The running totals in closed form *)

Section BumpFacts.

Lemma seen_In (k : string) (ks : list string) : seen k ks = true <-> In k ks.
Proof.
  unfold seen. rewrite existsb_exists. split.
  - intros (x & Hx & E). apply String.eqb_eq in E. now subst.
  - intros H. exists k. split; [assumption | apply String.eqb_refl].
Qed.

Lemma seen_false (k : string) (ks : list string) :
  seen k ks = false <-> ~ In k ks.
Proof.
  rewrite <- seen_In. destruct (seen k ks); split; congruence.
Qed.

Lemma seen_cons (k k' : string) (ks : list string) :
  seen k (k' :: ks) = String.eqb k' k || seen k ks.
Proof. unfold seen; simpl. now rewrite (String.eqb_sym k k'). Qed.

Lemma keys_bump (k : string) (i o : Z) (d : totals) :
  map fst (bump k i o d) = if seen k (map fst d) then map fst d else (map fst d ++ [k])%list.
Proof.
  induction d as [|[k' [a b]] d IH]; simpl; [reflexivity|].
  rewrite (String.eqb_sym k k').
  destruct (String.eqb k' k) eqn:E; simpl; [reflexivity|].
  rewrite IH. now destruct (seen k (map fst d)).
Qed.

Lemma assoc_bump (k k' : string) (i o : Z) (d : totals) :
  assoc k (bump k' i o d) =
    if String.eqb k' k
    then Some (fst (get (assoc k d) (0, 0)) + i, snd (get (assoc k d) (0, 0)) + o)
    else assoc k d.
Proof.
  induction d as [|[k0 [a b]] d IH]; simpl.
  - now destruct (String.eqb k' k).
  - destruct (String.eqb k0 k') eqn:E0; simpl.
    + apply String.eqb_eq in E0; subst k0.
      now destruct (String.eqb k' k).
    + destruct (String.eqb k0 k) eqn:E1; [|exact IH].
      apply String.eqb_eq in E1; subst k0.
      now rewrite String.eqb_sym, E0.
Qed.

Lemma sum_fst_bump (k : string) (i o : Z) (d : totals) :
  sumZ (map (fun e => fst (snd e)) (bump k i o d))
    = sumZ (map (fun e => fst (snd e)) d) + i.
Proof.
  induction d as [|[k' [a b]] d IH]; simpl; [lia|].
  destruct (String.eqb k' k); simpl; lia.
Qed.

Lemma sum_snd_bump (k : string) (i o : Z) (d : totals) :
  sumZ (map (fun e => snd (snd e)) (bump k i o d))
    = sumZ (map (fun e => snd (snd e)) d) + o.
Proof.
  induction d as [|[k' [a b]] d IH]; simpl; [lia|].
  destruct (String.eqb k' k); simpl; lia.
Qed.

Lemma NoDup_note (k : string) (ks : list string) :
  NoDup ks -> NoDup (if seen k ks then ks else (ks ++ [k])%list).
Proof.
  intros H. destruct (seen k ks) eqn:E; [assumption|].
  apply seen_false in E.
  apply NoDup_rev in H. rewrite <- (rev_involutive (ks ++ [k])%list).
  apply NoDup_rev. rewrite rev_app_distr. simpl.
  constructor; [now rewrite <- in_rev | assumption].
Qed.

Lemma first_seen_from_NoDup (l ks : list string) :
  NoDup ks -> NoDup (first_seen_from ks l).
Proof.
  revert ks. induction l as [|k l IH]; intros ks H; simpl; [assumption|].
  apply IH, NoDup_note, H.
Qed.

Lemma first_seen_from_In (l ks : list string) (k : string) :
  In k (first_seen_from ks l) <-> In k ks \/ In k l.
Proof.
  revert ks. induction l as [|k' l IH]; intros ks; simpl; [tauto|].
  rewrite IH. destruct (seen k' ks) eqn:E.
  - apply seen_In in E. split; [tauto|]. intros [H|[H|H]]; subst; tauto.
  - rewrite in_app_iff. simpl. tauto.
Qed.

Lemma assoc_In (d : totals) (k : string) (v : Z * Z) :
  NoDup (map fst d) -> (In (k, v) d <-> assoc k d = Some v).
Proof.
  induction d as [|[k' v'] d IH]; simpl; intros H.
  - split; [tauto | discriminate].
  - inversion H as [|? ? Hn Hd]; subst.
    destruct (String.eqb k' k) eqn:E.
    + apply String.eqb_eq in E; subst k'. split.
      * intros [H0|H0]; [congruence|].
        elim Hn. now apply (in_map fst) in H0.
      * intros H0. left. congruence.
    + apply String.eqb_neq in E. rewrite <- (IH Hd). split.
      * intros [H0|H0]; [congruence | assumption].
      * tauto.
Qed.

Lemma assoc_None (d : totals) (k : string) :
  assoc k d = None <-> ~ In k (map fst d).
Proof.
  induction d as [|[k' v'] d IH]; simpl; [tauto|].
  destruct (String.eqb k' k) eqn:E.
  - apply String.eqb_eq in E. split; [discriminate | tauto].
  - apply String.eqb_neq in E. rewrite IH. tauto.
Qed.

End BumpFacts.

Section AccumulateFacts.

Variable key : Item.t -> string.
Variables inp out : Item.t -> Z.

Lemma accumulate_all_rows (buckets : list Bucket.t) :
  accumulate key inp out buckets
    = accumulate_rows key inp out (all_rows buckets) [].
Proof.
  unfold accumulate, all_rows. generalize (@nil (string * (Z * Z))).
  induction buckets as [|b bs IH]; intros d; simpl; [reflexivity|].
  rewrite IH. unfold accumulate_rows. now rewrite fold_left_app.
Qed.

Lemma keys_accumulate_rows (rows : list Item.t) (d : totals) :
  map fst (accumulate_rows key inp out rows d)
    = first_seen_from (map fst d) (map key rows).
Proof.
  revert d. induction rows as [|r rows IH]; intros d; simpl; [reflexivity|].
  unfold accumulate_rows in *. simpl. now rewrite IH, keys_bump.
Qed.

Lemma sum_of_cons (f : Item.t -> Z) (k : string) (r : Item.t)
    (rows : list Item.t) :
  sum_of key f k (r :: rows)
    = (if String.eqb (key r) k then f r else 0) + sum_of key f k rows.
Proof.
  unfold sum_of, rows_of. simpl. now destruct (String.eqb (key r) k).
Qed.

Lemma assoc_accumulate_rows (rows : list Item.t) (d : totals) (k : string) :
  assoc k (accumulate_rows key inp out rows d) =
    if seen k (map fst d) || seen k (map key rows)
    then Some (fst (get (assoc k d) (0, 0)) + sum_of key inp k rows,
               snd (get (assoc k d) (0, 0)) + sum_of key out k rows)
    else None.
Proof.
  revert d. induction rows as [|r rows IH]; intros d.
  - simpl. rewrite orb_false_r. unfold sum_of; simpl.
    destruct (seen k (map fst d)) eqn:E.
    + apply seen_In in E. destruct (assoc k d) as [[a b]|] eqn:Ea.
      * simpl. now rewrite !Z.add_0_r.
      * apply assoc_None in Ea. contradiction.
    + apply seen_false, assoc_None in E. assumption.
  - change (accumulate_rows key inp out (r :: rows) d)
      with (accumulate_rows key inp out rows (bump (key r) (inp r) (out r) d)).
    rewrite IH, keys_bump, assoc_bump, !sum_of_cons. simpl.
    rewrite (String.eqb_sym k (key r)).
    destruct (String.eqb (key r) k) eqn:E.
    + apply String.eqb_eq in E. subst k.
      assert (Hs : seen (key r)
                (if seen (key r) (map fst d) then map fst d
                 else (map fst d ++ [key r])%list) = true).
      { destruct (seen (key r) (map fst d)) eqn:E'; [assumption|].
        apply seen_In, in_app_iff. right. now left. }
      rewrite Hs, orb_true_r. simpl. f_equal. f_equal; lia.
    + assert (Hs : seen k
                (if seen (key r) (map fst d) then map fst d
                 else (map fst d ++ [key r])%list) = seen k (map fst d)).
      { destruct (seen (key r) (map fst d)); [reflexivity|].
        unfold seen. rewrite existsb_app. simpl.
        rewrite (String.eqb_sym k (key r)), E. now rewrite !orb_false_r. }
      rewrite Hs. simpl. reflexivity.
Qed.

Lemma NoDup_keys_accumulate (buckets : list Bucket.t) :
  NoDup (map fst (accumulate key inp out buckets)).
Proof.
  rewrite accumulate_all_rows, keys_accumulate_rows.
  apply first_seen_from_NoDup. constructor.
Qed.

Lemma keys_accumulate (buckets : list Bucket.t) :
  map fst (accumulate key inp out buckets)
    = first_seen (map key (all_rows buckets)).
Proof. now rewrite accumulate_all_rows, keys_accumulate_rows. Qed.

(** An entry of the totals: its key occurs among the rows and its two
    counters are the sums over the rows of that key. *)
Lemma In_accumulate (buckets : list Bucket.t) (k : string) (v : Z * Z) :
  In (k, v) (accumulate key inp out buckets) <->
  In k (map key (all_rows buckets))
  /\ v = (sum_of key inp k (all_rows buckets),
          sum_of key out k (all_rows buckets)).
Proof.
  rewrite (assoc_In _ _ _ (NoDup_keys_accumulate buckets)).
  rewrite accumulate_all_rows, assoc_accumulate_rows. simpl.
  destruct (seen k (map key (all_rows buckets))) eqn:E.
  - apply seen_In in E. split.
    + intros H. split; [assumption | congruence].
    + intros [_ ->]. reflexivity.
  - apply seen_false in E. split; [discriminate | tauto].
Qed.

Lemma sum_accumulate_rows (rows : list Item.t) (d : totals) :
  sumZ (map (fun e => fst (snd e)) (accumulate_rows key inp out rows d))
    = sumZ (map (fun e => fst (snd e)) d) + sumZ (map inp rows)
  /\ sumZ (map (fun e => snd (snd e)) (accumulate_rows key inp out rows d))
    = sumZ (map (fun e => snd (snd e)) d) + sumZ (map out rows).
Proof.
  revert d. induction rows as [|r rows IH]; intros d.
  - simpl. lia.
  - change (accumulate_rows key inp out (r :: rows) d)
      with (accumulate_rows key inp out rows (bump (key r) (inp r) (out r) d)).
    destruct (IH (bump (key r) (inp r) (out r) d)) as [-> ->].
    rewrite sum_fst_bump, sum_snd_bump. simpl. lia.
Qed.

End AccumulateFacts.

Section AccumulateClosedForm.

Variable key : Item.t -> string.
Variables inp out : Item.t -> Z.

Lemma totals_from_keys (d : totals) (g : string -> Z * Z) :
  (forall k v, In (k, v) d -> v = g k) ->
  d = map (fun k => (k, g k)) (map fst d).
Proof.
  induction d as [|[k v] d IH]; intros H; simpl; [reflexivity|].
  rewrite <- IH by (intros; apply H; now right).
  now rewrite <- (H k v) by now left.
Qed.

(** The totals are the distinct keys in the order of their first row, each
    with the sums over its rows. *)
Lemma accumulate_closed_form (buckets : list Bucket.t) :
  accumulate key inp out buckets
    = map (fun k => (k, (sum_of key inp k (all_rows buckets),
                         sum_of key out k (all_rows buckets))))
        (first_seen (map key (all_rows buckets))).
Proof.
  rewrite <- keys_accumulate with (inp := inp) (out := out).
  apply totals_from_keys. intros k v H.
  now apply In_accumulate in H.
Qed.

End AccumulateClosedForm.

(** ** The first-occurrence order *)

Section FirstSeen.

Lemma filter_twice {A : Type} (f g : A -> bool) (l : list A) :
  filter f (filter g l) = filter (fun x => g x && f x) l.
Proof.
  induction l as [|x l IH]; simpl; [reflexivity|].
  destruct (g x); simpl; [|exact IH]. now rewrite IH.
Qed.

Lemma seen_app (k : string) (ks ks' : list string) :
  seen k (ks ++ ks') = seen k ks || seen k ks'.
Proof. apply existsb_app. Qed.

Lemma first_seen_from_split (l ks : list string) :
  first_seen_from ks l
    = (ks ++ filter (fun x => negb (seen x ks)) (first_seen l))%list.
Proof.
  unfold first_seen. revert ks.
  induction l as [|k l IH]; intros ks; simpl; [now rewrite app_nil_r|].
  rewrite (IH [k]), (IH (if seen k ks then ks else (ks ++ [k])%list)).
  simpl. rewrite !filter_twice.
  destruct (seen k ks) eqn:E; simpl.
  - f_equal. apply filter_ext_in. intros x _.
    destruct (String.eqb x k) eqn:Ex; simpl; [|reflexivity].
    apply String.eqb_eq in Ex. subst x. now rewrite E.
  - rewrite <- app_assoc. simpl. do 2 f_equal.
    apply filter_ext. intros x. rewrite seen_app. unfold seen at 2. simpl.
    rewrite !orb_false_r, negb_orb. apply andb_comm.
Qed.

(** The head of a sequence comes first, and later occurrences of it are
    dropped from the keys of the rest. *)
Lemma first_seen_cons (k : string) (l : list string) :
  first_seen (k :: l)
    = k :: filter (fun x => negb (String.eqb x k)) (first_seen l).
Proof.
  unfold first_seen at 1. simpl. rewrite first_seen_from_split. simpl.
  f_equal. apply filter_ext. intros x. unfold seen; simpl.
  now rewrite orb_false_r.
Qed.

Lemma first_seen_NoDup (l : list string) : NoDup (first_seen l).
Proof. apply first_seen_from_NoDup. constructor. Qed.

Lemma first_seen_In (l : list string) (k : string) :
  In k (first_seen l) <-> In k l.
Proof. unfold first_seen. rewrite first_seen_from_In. simpl. tauto. Qed.

End FirstSeen.

(** ** The descending stable sort *)

Section SortFacts.

Context {A : Type}.
Variable key : A -> Z.

Lemma insert_desc_perm (x : A) (l : list A) :
  Permutation (insert_desc key x l) (x :: l).
Proof.
  induction l as [|y l IH]; simpl; [reflexivity|].
  destruct (key x <? key y); [|reflexivity].
  rewrite IH. apply perm_swap.
Qed.

Lemma sort_desc_perm (l : list A) : Permutation (sort_desc key l) l.
Proof.
  induction l as [|x l IH]; simpl; [reflexivity|].
  rewrite insert_desc_perm. now apply perm_skip.
Qed.

Lemma insert_desc_sorted (x : A) (l : list A) :
  StronglySorted (desc key) l -> StronglySorted (desc key) (insert_desc key x l).
Proof.
  induction 1 as [|y l Hs IH Hy]; simpl.
  - repeat constructor.
  - destruct (key x <? key y) eqn:E.
    + apply Z.ltb_lt in E. constructor; [assumption|].
      rewrite insert_desc_perm. constructor; [unfold desc; lia | assumption].
    + apply Z.ltb_ge in E. constructor; [now constructor|].
      constructor; [exact E|].
      revert Hy. apply Forall_impl. unfold desc. intros; lia.
Qed.

Lemma sort_desc_sorted (l : list A) : StronglySorted (desc key) (sort_desc key l).
Proof.
  induction l as [|x l IH]; simpl; [constructor|].
  now apply insert_desc_sorted.
Qed.

Lemma insert_desc_stable (t : Z) (x : A) (l : list A) :
  filter (fun a => key a =? t) (insert_desc key x l)
    = filter (fun a => key a =? t) (x :: l).
Proof.
  induction l as [|y l IH]; [reflexivity|].
  simpl. destruct (key x <? key y) eqn:E; [|reflexivity].
  apply Z.ltb_lt in E. simpl. rewrite IH. simpl.
  destruct (key x =? t) eqn:Ex, (key y =? t) eqn:Ey; try reflexivity.
  apply Z.eqb_eq in Ex, Ey. lia.
Qed.

(** Entries with the same key come out in the order they went in. *)
Lemma sort_desc_stable (t : Z) (l : list A) :
  filter (fun a => key a =? t) (sort_desc key l)
    = filter (fun a => key a =? t) l.
Proof.
  induction l as [|x l IH]; [reflexivity|].
  simpl. rewrite insert_desc_stable. simpl. now rewrite IH.
Qed.

(** A list sorted by [key] is determined by its elements when no two of them
    have the same key. *)
Lemma sorted_desc_unique (l l' : list A) :
  StronglySorted (desc key) l -> StronglySorted (desc key) l' ->
  Permutation l l' ->
  (forall a b, In a l -> In b l -> key a = key b -> a = b) ->
  l = l'.
Proof.
  intros Hl. revert l'. induction Hl as [|a t Ht IH Ha]; intros l' Hl' Hp Hinj.
  - now apply Permutation_nil in Hp.
  - destruct l' as [|b t'].
    + symmetry in Hp. now apply Permutation_nil in Hp.
    + inversion Hl' as [|? ? Ht' Hb]; subst.
      assert (Hba : key b <= key a).
      { assert (Hin : In b (a :: t))
          by (apply (Permutation_in _ (Permutation_sym Hp)); now left).
        destruct Hin as [<-|Hin]; [lia|].
        rewrite Forall_forall in Ha. now apply Ha. }
      assert (Hab : key a <= key b).
      { assert (Hin : In a (b :: t'))
          by (apply (Permutation_in _ Hp); now left).
        destruct Hin as [<-|Hin]; [lia|].
        rewrite Forall_forall in Hb. now apply Hb. }
      assert (E : a = b).
      { apply Hinj; [now left | | lia].
        apply (Permutation_in _ (Permutation_sym Hp)). now left. }
      subst b. f_equal. apply IH.
      * exact Ht'.
      * now apply Permutation_cons_inv in Hp.
      * intros x y Hx Hy. apply Hinj; now right.
Qed.

End SortFacts.

(** ** Sums and reordering *)

Section Sums.

Lemma sumZ_app (l l' : list Z) : sumZ (l ++ l') = sumZ l + sumZ l'.
Proof. induction l as [|x l IH]; simpl; lia. Qed.

Lemma sumZ_perm (l l' : list Z) : Permutation l l' -> sumZ l = sumZ l'.
Proof. induction 1; simpl; lia. Qed.

Lemma filter_perm {A : Type} (f : A -> bool) (l l' : list A) :
  Permutation l l' -> Permutation (filter f l) (filter f l').
Proof.
  induction 1 as [|x l l' _ IH|x y l|l l' l'' _ IH1 _ IH2]; simpl.
  - constructor.
  - destruct (f x); [now constructor | assumption].
  - destruct (f x), (f y); try reflexivity. apply perm_swap.
  - now transitivity (filter f l').
Qed.

Lemma sum_of_perm (key : Item.t -> string) (f : Item.t -> Z) (k : string)
    (rows rows' : list Item.t) :
  Permutation rows rows' -> sum_of key f k rows = sum_of key f k rows'.
Proof.
  intros H. unfold sum_of, rows_of.
  apply sumZ_perm, Permutation_map, filter_perm, H.
Qed.

Lemma first_seen_perm (l l' : list string) :
  Permutation l l' -> Permutation (first_seen l) (first_seen l').
Proof.
  intros H. apply NoDup_Permutation; try apply first_seen_NoDup.
  intros k. rewrite !first_seen_In.
  split; apply Permutation_in; [assumption | now symmetry].
Qed.

Lemma fold_add_tokens (l : list Usage.UsageData) (u : Usage.UsageData) :
  Usage.tokens (fold_left Usage.add l u) =
    (Usage.input_tokens u + sumZ (map Usage.input_tokens l),
     Usage.output_tokens u + sumZ (map Usage.output_tokens l),
     Usage.total_tokens u + sumZ (map Usage.total_tokens l)).
Proof.
  revert u. induction l as [|x l IH]; intros u; simpl.
  - unfold Usage.tokens. now rewrite !Z.add_0_r.
  - rewrite IH. simpl. f_equal; [f_equal|]; lia.
Qed.

Lemma sum_usage_tokens (l : list Usage.UsageData) :
  Usage.tokens (sum_usage l) =
    (sumZ (map Usage.input_tokens l), sumZ (map Usage.output_tokens l),
     sumZ (map Usage.total_tokens l)).
Proof. unfold sum_usage. now rewrite fold_add_tokens. Qed.

Lemma sum_usage_tokens_perm (l l' : list Usage.UsageData) :
  Permutation l l' -> Usage.tokens (sum_usage l) = Usage.tokens (sum_usage l').
Proof.
  intros H. rewrite !sum_usage_tokens.
  f_equal; [f_equal|]; apply sumZ_perm, Permutation_map, H.
Qed.

(** The costs of the summaries are all [0.0], and so is their sum. *)
Lemma fold_add_zero_cost (l : list Usage.UsageData) (u : Usage.UsageData) :
  Usage.cost_usd u = 0%float ->
  Forall (fun x => Usage.cost_usd x = 0%float) l ->
  Usage.cost_usd (fold_left Usage.add l u) = 0%float.
Proof.
  intros Hu H. revert u Hu. induction H as [|x l Hx _ IH]; intros u Hu; simpl.
  - exact Hu.
  - apply IH. simpl. now rewrite Hu, Hx.
Qed.

End Sums.

(** ** The aggregation by model and by key in closed form *)

Section CombineFacts.

Lemma sum_totals_tokens (f : string * (Z * Z) -> Usage.UsageData) (d : totals) :
  (forall e, f e = usage_of (snd e)) ->
  Usage.tokens (sum_usage (map f d)) =
    (sumZ (map (fun e => fst (snd e)) d), sumZ (map (fun e => snd (snd e)) d),
     sumZ (map (fun e => fst (snd e)) d) + sumZ (map (fun e => snd (snd e)) d)).
Proof.
  intros Hf. rewrite sum_usage_tokens, !map_map.
  assert (E : sumZ (map (fun x => Usage.total_tokens (f x)) d)
              = sumZ (map (fun x => Usage.input_tokens (f x)) d)
                + sumZ (map (fun x => Usage.output_tokens (f x)) d)).
  { induction d as [|e d IH]; simpl; [reflexivity|].
    rewrite IH, Hf. simpl. lia. }
  rewrite E. f_equal; [f_equal|f_equal];
    apply (f_equal sumZ), map_ext; intros e; now rewrite Hf.
Qed.

Lemma models_unsorted_closed_form (model_usage : list Bucket.t) :
  models_unsorted model_usage =
    map (fun name => ModelUsage.mk name (model_figures (all_rows model_usage) name))
      (first_seen (map row_friendly_name (all_rows model_usage))).
Proof.
  unfold models_unsorted, model_totals.
  now rewrite accumulate_closed_form, map_map.
Qed.

Lemma keys_unsorted_closed_form (key_usage : list Bucket.t) :
  keys_unsorted key_usage =
    map (fun id => ApiKeyUsage.mk id (hint_of id)
                     (key_figures (all_rows key_usage) id))
      (first_seen (map row_key_id (all_rows key_usage))).
Proof.
  unfold keys_unsorted, key_totals.
  now rewrite accumulate_closed_form, map_map.
Qed.

Lemma models_total_tokens (model_usage : list Bucket.t) :
  Usage.tokens (sum_usage (map ModelUsage.usage (models_unsorted model_usage)))
  = (sumZ (map model_input_tokens (all_rows model_usage)),
     sumZ (map row_output_tokens (all_rows model_usage)),
     sumZ (map model_input_tokens (all_rows model_usage))
     + sumZ (map row_output_tokens (all_rows model_usage))).
Proof.
  unfold models_unsorted. rewrite map_map.
  rewrite (sum_totals_tokens _ _ (fun e => eq_refl)).
  unfold model_totals. rewrite accumulate_all_rows.
  destruct (sum_accumulate_rows row_friendly_name model_input_tokens
              row_output_tokens (all_rows model_usage) []) as [-> ->].
  reflexivity.
Qed.

Lemma models_unsorted_perm (mu mu' : list Bucket.t) :
  Permutation (all_rows mu) (all_rows mu') ->
  Permutation (models_unsorted mu) (models_unsorted mu').
Proof.
  intros H. rewrite !models_unsorted_closed_form.
  transitivity
    (map (fun name => ModelUsage.mk name (model_figures (all_rows mu) name))
       (first_seen (map row_friendly_name (all_rows mu')))).
  - apply Permutation_map, first_seen_perm, Permutation_map, H.
  - apply Permutation_refl'. apply map_ext. intros name.
    unfold model_figures.
    now rewrite !(sum_of_perm _ _ _ _ _ H).
Qed.

End CombineFacts.

(** ** Facts on strings *)

Section StringFacts.

Lemma lower_app (a b : string) : lower (a ++ b) = lower a ++ lower b.
Proof. induction a as [|c a IH]; simpl; [reflexivity | now rewrite IH]. Qed.

Lemma prefix_app (w b : string) : prefix w (w ++ b) = true.
Proof.
  induction w as [|c w IH]; simpl; [now destruct b|].
  destruct (ascii_dec c c) as [_|N]; [exact IH | now elim N].
Qed.

Lemma contains_prefix (w s : string) : prefix w s = true -> contains w s = true.
Proof.
  destruct s as [|c s]; simpl; [tauto|]. intros ->. reflexivity.
Qed.

Lemma contains_app_r (w a s : string) :
  contains w s = true -> contains w (a ++ s) = true.
Proof.
  intros H. induction a as [|c a IH]; simpl; [exact H|].
  rewrite IH. apply orb_true_r.
Qed.

(** A word is found wherever it stands. *)
Lemma contains_middle (w a b : string) : contains w (a ++ w ++ b) = true.
Proof. apply contains_app_r, contains_prefix, prefix_app. Qed.

Lemma length_first_chars (n : nat) (s : string) :
  (n <= String.length s)%nat -> String.length (first_chars n s) = n.
Proof.
  unfold first_chars. revert n. induction s as [|c s IH]; intros n H.
  - simpl in H. assert (n = 0%nat) by lia. subst. reflexivity.
  - destruct n as [|n]; [reflexivity|]. simpl in *.
    rewrite IH; lia.
Qed.

Lemma first_chars_app (n : nat) (a b : string) :
  (n <= String.length a)%nat -> first_chars n (a ++ b) = first_chars n a.
Proof.
  unfold first_chars. revert n. induction a as [|c a IH]; intros n H.
  - simpl in H. assert (n = 0%nat) by lia. subst. simpl.
    now destruct b.
  - destruct n as [|n]; [reflexivity|]. simpl in *.
    rewrite IH; [reflexivity | lia].
Qed.

Lemma length_app (a b : string) :
  String.length (a ++ b) = (String.length a + String.length b)%nat.
Proof. induction a as [|c a IH]; simpl; [reflexivity | now rewrite IH]. Qed.

End StringFacts.

(** ** Aggregation by model *)

(** The scenario of the specification: two raw identifiers that both
    normalise to ["Opus"] give one summary with the summed figures. *)
Example opus_rows_collapse :
  Report.by_model (_combine_data opus_rows [] [])
    = [ModelUsage.mk "Opus" (Usage.mkUsageData 300 60 360 0%float)].
Proof. reflexivity. Qed.

(** Two summaries with the same [total_tokens]: the rows in the one order and
    in the other give the two summaries in the order of their rows. *)
Lemma tied_summaries_follow_row_order :
  Permutation (all_rows tie_a_then_b) (all_rows tie_b_then_a)
  /\ map ModelUsage.model (Report.by_model (_combine_data tie_a_then_b [] []))
       = ["a"; "b"]
  /\ map ModelUsage.model (Report.by_model (_combine_data tie_b_then_a [] []))
       = ["b"; "a"]
  /\ Report.by_model (_combine_data tie_a_then_b [] [])
       <> Report.by_model (_combine_data tie_b_then_a [] []).
Proof.
  split; [apply perm_swap|]. split; [reflexivity|]. split; [reflexivity|].
  intros H. apply (f_equal (map ModelUsage.model)) in H. discriminate H.
Qed.

Section ModelRows.

Lemma token_row_counts (model : string) (input output : Z) :
  model_input_tokens (token_row model input output) = input
  /\ row_output_tokens (token_row model input output) = output.
Proof.
  unfold model_input_tokens, row_output_tokens, token_row. simpl. lia.
Qed.

(** Two rows whose identifiers have one and the same friendly name give one
    summary, under that name, with the sums of their counts. *)
Lemma two_rows_collapse
    (m1 m2 : string) (i1 o1 i2 o2 : Z)
    (key_usage : list Bucket.t) (cost_data : list CostBucket.t) :
  _friendly_model_name m1 = _friendly_model_name m2 ->
  Report.by_model
    (_combine_data
       [Bucket.mk (Some [token_row m1 i1 o1; token_row m2 i2 o2])]
       key_usage cost_data)
  = [ModelUsage.mk (_friendly_model_name m1)
       (Usage.mkUsageData (i1 + i2) (o1 + o2) (i1 + i2 + (o1 + o2)) 0%float)].
Proof.
  intros E. unfold _combine_data. cbn [Report.by_model].
  rewrite models_unsorted_closed_form.
  unfold all_rows. cbn [flat_map Bucket.results get app map].
  assert (N1 : row_friendly_name (token_row m1 i1 o1) = _friendly_model_name m1)
    by reflexivity.
  assert (N2 : row_friendly_name (token_row m2 i2 o2) = _friendly_model_name m1)
    by (rewrite E; reflexivity).
  rewrite N1, N2.
  set (n := _friendly_model_name m1) in *.
  assert (F : first_seen [n; n] = [n]).
  { unfold first_seen. cbn [first_seen_from seen existsb app].
    rewrite String.eqb_refl. reflexivity. }
  rewrite F. cbn [map sort_desc fold_right insert_desc].
  unfold model_figures, sum_of, rows_of. cbn [filter].
  rewrite N1, N2, String.eqb_refl. cbn [map sumZ fold_right usage_of fst snd].
  destruct (token_row_counts m1 i1 o1) as [-> ->].
  destruct (token_row_counts m2 i2 o2) as [-> ->].
  rewrite !Z.add_0_r. reflexivity.
Qed.

End ModelRows.

(** C1. Aggregation by model. A row counts
    [uncached + cache_read + ephemeral_1h + ephemeral_5m] input tokens and its
    [output_tokens] unchanged, and is filed under the friendly name of its
    [model], ["unknown"] standing for a missing one; [by_model] holds exactly
    one entry for every friendly name that occurs among the rows, with the
    sums of these two numbers over the rows of that name and their sum as
    [total_tokens], so that rows of distinct identifiers with one friendly
    name, as any two identifiers with ["opus"] in them, end up in one
    summary; the token fields of the grand total are the sum of the figures
    in [by_model] and the sum over all rows; and rows that are a reordering
    of each other, within and across buckets, give the same grand total and
    the same summaries, in the same sequence when no two summaries have the
    same [total_tokens]. *)
Theorem model_aggregation_sums
    (model_usage key_usage : list Bucket.t) (cost_data : list CostBucket.t) :
  let r := _combine_data model_usage key_usage cost_data in
  let rows := all_rows model_usage in
  let name_of :=
    fun item => _friendly_model_name (get (Item.model item) "unknown") in
  (forall item,
      model_input_tokens item =
        get (Item.uncached_input_tokens item) 0
        + get (Item.cache_read_input_tokens item) 0
        + get (CacheCreation.ephemeral_1h_input_tokens
                 (get (Item.cache_creation item) CacheCreation.empty)) 0
        + get (CacheCreation.ephemeral_5m_input_tokens
                 (get (Item.cache_creation item) CacheCreation.empty)) 0
      /\ row_output_tokens item = get (Item.output_tokens item) 0)
  /\ (forall e,
      In e (Report.by_model r) <->
      In (ModelUsage.model e) (map name_of rows)
      /\ ModelUsage.usage e =
           Usage.mkUsageData
             (sum_of name_of model_input_tokens (ModelUsage.model e) rows)
             (sum_of name_of row_output_tokens (ModelUsage.model e) rows)
             (sum_of name_of model_input_tokens (ModelUsage.model e) rows
              + sum_of name_of row_output_tokens (ModelUsage.model e) rows)
             0%float)
  /\ NoDup (map ModelUsage.model (Report.by_model r))
  /\ (forall item,
      In item rows ->
      exists e, In e (Report.by_model r) /\ ModelUsage.model e = name_of item)
  /\ (forall a w b, lower w = "opus" -> _friendly_model_name (a ++ w ++ b) = "Opus")
  /\ (forall m1 m2 i1 o1 i2 o2,
      _friendly_model_name m1 = _friendly_model_name m2 ->
      Report.by_model
        (_combine_data
           [Bucket.mk (Some [token_row m1 i1 o1; token_row m2 i2 o2])]
           key_usage cost_data)
      = [ModelUsage.mk (_friendly_model_name m1)
           (Usage.mkUsageData (i1 + i2) (o1 + o2) (i1 + i2 + (o1 + o2)) 0%float)])
  /\ Usage.tokens (Report.total r)
       = Usage.tokens (sum_usage (map ModelUsage.usage (Report.by_model r)))
  /\ Usage.tokens (Report.total r)
       = (sumZ (map model_input_tokens rows),
          sumZ (map row_output_tokens rows),
          sumZ (map model_input_tokens rows) + sumZ (map row_output_tokens rows))
  /\ (forall model_usage',
      Permutation (all_rows model_usage) (all_rows model_usage') ->
      let r' := _combine_data model_usage' key_usage cost_data in
      Report.total r' = Report.total r
      /\ Permutation (Report.by_model r') (Report.by_model r)
      /\ ((forall a b,
            In a (Report.by_model r) -> In b (Report.by_model r) ->
            Usage.total_tokens (ModelUsage.usage a)
              = Usage.total_tokens (ModelUsage.usage b) ->
            a = b) ->
          Report.by_model r' = Report.by_model r)).
Proof.
  cbv zeta.
  change (fun item : Item.t =>
            _friendly_model_name (get (Item.model item) "unknown"))
    with row_friendly_name.
  unfold _combine_data at 1 2 3 4 5. cbn [Report.by_model Report.total].
  set (tot := fun x : ModelUsage.t => Usage.total_tokens (ModelUsage.usage x)).
  assert (Hp : Permutation (sort_desc tot (models_unsorted model_usage))
                 (models_unsorted model_usage)) by apply sort_desc_perm.
  assert (Hin : forall e,
    In e (sort_desc tot (models_unsorted model_usage)) <->
    In (ModelUsage.model e) (map row_friendly_name (all_rows model_usage))
    /\ ModelUsage.usage e =
         Usage.mkUsageData
           (sum_of row_friendly_name model_input_tokens (ModelUsage.model e)
              (all_rows model_usage))
           (sum_of row_friendly_name row_output_tokens (ModelUsage.model e)
              (all_rows model_usage))
           (sum_of row_friendly_name model_input_tokens (ModelUsage.model e)
              (all_rows model_usage)
            + sum_of row_friendly_name row_output_tokens (ModelUsage.model e)
                (all_rows model_usage))
           0%float).
  { intros e. split.
    - intros H. apply (Permutation_in _ Hp) in H.
      rewrite models_unsorted_closed_form in H.
      apply in_map_iff in H. destruct H as (name & <- & H).
      rewrite first_seen_In in H. split; [exact H | reflexivity].
    - intros [H E]. apply (Permutation_in _ (Permutation_sym Hp)).
      rewrite models_unsorted_closed_form. apply in_map_iff.
      exists (ModelUsage.model e). split.
      + destruct e as [n u]. simpl in *. now rewrite E.
      + now apply first_seen_In. }
  split; [intros item; split; reflexivity|].
  split; [exact Hin|].
  split.
  { apply (Permutation_NoDup (Permutation_map _ (Permutation_sym Hp))).
    rewrite models_unsorted_closed_form, map_map. simpl. rewrite map_id.
    apply first_seen_NoDup. }
  split.
  { intros item Hitem.
    exists (ModelUsage.mk (row_friendly_name item)
              (model_figures (all_rows model_usage) (row_friendly_name item))).
    split; [|reflexivity].
    apply Hin. split; [|reflexivity].
    cbn [ModelUsage.model]. now apply in_map. }
  split.
  { intros a w b Hw. unfold _friendly_model_name.
    rewrite !lower_app, Hw. now rewrite contains_middle. }
  split.
  { intros m1 m2 i1 o1 i2 o2 E.
    exact (two_rows_collapse m1 m2 i1 o1 i2 o2 key_usage cost_data E). }
  split.
  { transitivity
      (Usage.tokens (sum_usage (map ModelUsage.usage (models_unsorted model_usage)))).
    - reflexivity.
    - apply sum_usage_tokens_perm, Permutation_map, Permutation_sym, Hp. }
  split.
  { transitivity
      (Usage.tokens (sum_usage (map ModelUsage.usage (models_unsorted model_usage)))).
    - reflexivity.
    - apply models_total_tokens. }
  intros mu' H. unfold _combine_data. cbn [Report.by_model Report.total].
  fold tot. split.
  - assert (Ht : Usage.tokens
                   (sum_usage (map ModelUsage.usage (models_unsorted mu')))
                 = Usage.tokens
                     (sum_usage (map ModelUsage.usage (models_unsorted model_usage)))).
    { rewrite !models_total_tokens.
      now rewrite (sumZ_perm _ _ (Permutation_map model_input_tokens H)),
        (sumZ_perm _ _ (Permutation_map row_output_tokens H)). }
    unfold set_cost_usd. unfold Usage.tokens in Ht.
    injection Ht as -> -> ->. reflexivity.
  - assert (Hpp : Permutation (sort_desc tot (models_unsorted mu'))
                    (sort_desc tot (models_unsorted model_usage))).
    { rewrite !sort_desc_perm. symmetry. now apply models_unsorted_perm. }
    split; [exact Hpp|].
    intros Hinj. symmetry.
    apply (sorted_desc_unique tot); try apply sort_desc_sorted.
    + now symmetry.
    + exact Hinj.
Qed.

Lemma model_aggregation_sums_witness :
  Report.total (_combine_data opus_rows_reordered [] [])
    = Report.total (_combine_data opus_rows [] [])
  /\ Permutation (Report.by_model (_combine_data opus_rows_reordered [] []))
       (Report.by_model (_combine_data opus_rows [] []))
  /\ _friendly_model_name ("claude-3-" ++ "Opus" ++ "-20240229") = "Opus"
  /\ Report.by_model
       (_combine_data
          [Bucket.mk (Some [token_row "claude-opus-4-20250514" 100 50;
                            token_row "claude-3-opus-20240229" 200 10])]
          [] [])
     = [ModelUsage.mk "Opus" (Usage.mkUsageData 300 60 360 0%float)].
Proof.
  destruct (model_aggregation_sums opus_rows [] [])
    as (_ & _ & _ & _ & Hopus & Htwo & _ & _ & H).
  destruct (H opus_rows_reordered) as (Ht & Hp & _).
  - simpl. apply perm_swap.
  - split; [exact Ht|]. split; [exact Hp|]. split.
    + apply Hopus. reflexivity.
    + apply (Htwo "claude-opus-4-20250514" "claude-3-opus-20240229").
      reflexivity.
Defined.

(** ** Aggregation by API key *)

Section Hints.

Lemma substring_all (s : string) : substring 0 (String.length s) s = s.
Proof. induction s as [|c s IH]; simpl; [reflexivity | now rewrite IH]. Qed.

Lemma substring_tail (s : string) (k n : nat) :
  (k + n)%nat = String.length s ->
  s = substring 0 k s ++ substring k n s /\ String.length (substring k n s) = n.
Proof.
  revert k. induction s as [|c s IH]; intros k H; simpl in H.
  - assert (k = 0%nat) by lia. assert (n = 0%nat) by lia. subst. now split.
  - destruct k as [|k].
    + simpl in H. subst n. simpl. split.
      * now rewrite substring_all.
      * now rewrite substring_all.
    + destruct (IH k) as [E L]; [lia|]. simpl. split.
      * now rewrite <- E.
      * exact L.
Qed.

(** [last_chars n s] is the suffix of [s] of length [n]. *)
Lemma last_chars_suffix (n : nat) (s : string) :
  (n <= String.length s)%nat ->
  exists front, s = front ++ last_chars n s
                /\ String.length (last_chars n s) = n.
Proof.
  intros H. exists (substring 0 (String.length s - n) s).
  apply substring_tail. lia.
Qed.

End Hints.

(** The scenario of the specification, with cache-creation tokens that the
    aggregation by key leaves out. *)
Example credential_rows_hints :
  Report.by_key (_combine_data [] credential_rows [])
    = [ApiKeyUsage.mk "sk-ant-api03-ABCDE123456" "...123456"
         (Usage.mkUsageData 15 7 22 0%float);
       ApiKeyUsage.mk "workbench" "Workbench"
         (Usage.mkUsageData 1 2 3 0%float)].
Proof. reflexivity. Qed.

Section KeyRows.

(** What [item.get("api_key_id") or "workbench"] is, case by case. *)
Lemma row_key_id_cases (item : Item.t) :
  (Item.api_key_id item = None -> row_key_id item = "workbench")
  /\ (Item.api_key_id item = Some "" -> row_key_id item = "workbench")
  /\ (forall id, Item.api_key_id item = Some id -> id <> "" ->
                 row_key_id item = id).
Proof.
  unfold row_key_id. split; [|split].
  - intros ->. reflexivity.
  - intros ->. reflexivity.
  - intros id -> Hid. apply String.eqb_neq in Hid. now rewrite Hid.
Qed.

(** One row gives one summary, under the key of the row. *)
Lemma one_row_by_key
    (item : Item.t) (model_usage : list Bucket.t) (cost_data : list CostBucket.t) :
  Report.by_key (_combine_data model_usage [Bucket.mk (Some [item])] cost_data)
  = [ApiKeyUsage.mk (row_key_id item) (hint_of (row_key_id item))
       (Usage.mkUsageData
          (get (Item.uncached_input_tokens item) 0
           + get (Item.cache_read_input_tokens item) 0)
          (get (Item.output_tokens item) 0)
          (get (Item.uncached_input_tokens item) 0
           + get (Item.cache_read_input_tokens item) 0
           + get (Item.output_tokens item) 0)
          0%float)].
Proof.
  unfold _combine_data. cbn [Report.by_key].
  rewrite keys_unsorted_closed_form.
  unfold all_rows. cbn [flat_map Bucket.results get app map].
  set (k := row_key_id item).
  assert (F : first_seen [k] = [k]) by reflexivity.
  rewrite F. cbn [map sort_desc fold_right insert_desc].
  unfold key_figures, sum_of, rows_of. cbn [filter]. fold k.
  rewrite String.eqb_refl. cbn [map sumZ fold_right usage_of fst snd].
  unfold key_input_tokens, row_output_tokens.
  rewrite !Z.add_0_r. reflexivity.
Qed.

End KeyRows.

(** C2. Aggregation by API key. A row counts [uncached + cache_read] input
    tokens, which is the input of the aggregation by model less the two
    cache-creation counters, and is filed under its [api_key_id], or under
    ["workbench"] when it has none or an empty one; [by_key] holds exactly
    one entry for every key that occurs among the rows, with the sums over
    the rows of that key; the hint of ["workbench"] is ["Workbench"]; any
    other key longer than 6 characters has the hint ["..."] followed by its
    last 6 characters, and a key of at most 6 characters is its own hint. *)
Theorem key_aggregation_sums
    (model_usage key_usage : list Bucket.t) (cost_data : list CostBucket.t) :
  let r := _combine_data model_usage key_usage cost_data in
  let rows := all_rows key_usage in
  (forall item,
      key_input_tokens item =
        get (Item.uncached_input_tokens item) 0
        + get (Item.cache_read_input_tokens item) 0
      /\ model_input_tokens item =
           key_input_tokens item
           + get (CacheCreation.ephemeral_1h_input_tokens
                    (get (Item.cache_creation item) CacheCreation.empty)) 0
           + get (CacheCreation.ephemeral_5m_input_tokens
                    (get (Item.cache_creation item) CacheCreation.empty)) 0)
  /\ (forall e,
      In e (Report.by_key r) <->
      In (ApiKeyUsage.key_id e) (map row_key_id rows)
      /\ ApiKeyUsage.key_hint e = hint_of (ApiKeyUsage.key_id e)
      /\ ApiKeyUsage.usage e =
           Usage.mkUsageData
             (sum_of row_key_id key_input_tokens (ApiKeyUsage.key_id e) rows)
             (sum_of row_key_id row_output_tokens (ApiKeyUsage.key_id e) rows)
             (sum_of row_key_id key_input_tokens (ApiKeyUsage.key_id e) rows
              + sum_of row_key_id row_output_tokens (ApiKeyUsage.key_id e) rows)
             0%float)
  /\ (forall item, Item.api_key_id item = None -> row_key_id item = "workbench")
  /\ hint_of "workbench" = "Workbench"
  /\ (forall id,
      id <> "workbench" -> (6 < String.length id)%nat ->
      hint_of id = "..." ++ last_chars 6 id
      /\ exists front, id = front ++ last_chars 6 id
                       /\ String.length (last_chars 6 id) = 6%nat)
  /\ (forall id, (String.length id <= 6)%nat -> hint_of id = id)
  /\ (forall item id,
      Item.api_key_id item = Some id -> id <> "" -> row_key_id item = id)
  /\ (forall item, Item.api_key_id item = Some "" -> row_key_id item = "workbench")
  /\ (forall item,
      In item rows ->
      exists e, In e (Report.by_key r)
                /\ ApiKeyUsage.key_id e = row_key_id item)
  /\ (forall item id,
      Item.api_key_id item = Some id -> id <> "" ->
      Report.by_key
        (_combine_data model_usage [Bucket.mk (Some [item])] cost_data)
      = [ApiKeyUsage.mk id (hint_of id)
           (Usage.mkUsageData
              (get (Item.uncached_input_tokens item) 0
               + get (Item.cache_read_input_tokens item) 0)
              (get (Item.output_tokens item) 0)
              (get (Item.uncached_input_tokens item) 0
               + get (Item.cache_read_input_tokens item) 0
               + get (Item.output_tokens item) 0)
              0%float)]).
Proof.
  cbv zeta. unfold _combine_data at 1 2. cbn [Report.by_key].
  set (tot := fun x : ApiKeyUsage.t => Usage.total_tokens (ApiKeyUsage.usage x)).
  assert (Hp : Permutation (sort_desc tot (keys_unsorted key_usage))
                 (keys_unsorted key_usage)) by apply sort_desc_perm.
  assert (Hin : forall e,
    In e (sort_desc tot (keys_unsorted key_usage)) <->
    In (ApiKeyUsage.key_id e) (map row_key_id (all_rows key_usage))
    /\ ApiKeyUsage.key_hint e = hint_of (ApiKeyUsage.key_id e)
    /\ ApiKeyUsage.usage e =
         Usage.mkUsageData
           (sum_of row_key_id key_input_tokens (ApiKeyUsage.key_id e)
              (all_rows key_usage))
           (sum_of row_key_id row_output_tokens (ApiKeyUsage.key_id e)
              (all_rows key_usage))
           (sum_of row_key_id key_input_tokens (ApiKeyUsage.key_id e)
              (all_rows key_usage)
            + sum_of row_key_id row_output_tokens (ApiKeyUsage.key_id e)
                (all_rows key_usage))
           0%float).
  { intros e. split.
    - intros H. apply (Permutation_in _ Hp) in H.
      rewrite keys_unsorted_closed_form in H.
      apply in_map_iff in H. destruct H as (id & <- & H).
      rewrite first_seen_In in H. repeat split; [exact H].
    - intros (H & Eh & Eu). apply (Permutation_in _ (Permutation_sym Hp)).
      rewrite keys_unsorted_closed_form. apply in_map_iff.
      exists (ApiKeyUsage.key_id e). split.
      + destruct e as [id h u]. simpl in *. now rewrite Eh, Eu.
      + now apply first_seen_In. }
  split; [intros item; split; reflexivity|].
  split; [exact Hin|].
  split; [intros item; apply (row_key_id_cases item)|].
  split; [reflexivity|].
  split.
  { intros id Hid Hlen. unfold hint_of.
    apply String.eqb_neq in Hid. rewrite Hid.
    apply Nat.ltb_lt in Hlen. rewrite Hlen. split; [reflexivity|].
    apply last_chars_suffix. apply Nat.ltb_lt in Hlen. lia. }
  split.
  { intros id Hlen. unfold hint_of.
    destruct (String.eqb id "workbench") eqn:E.
    - apply String.eqb_eq in E. subst id. simpl in Hlen. lia.
    - apply Nat.ltb_ge in Hlen. now rewrite Hlen. }
  split; [intros item; apply (row_key_id_cases item)|].
  split; [intros item; apply (row_key_id_cases item)|].
  split.
  { intros item Hitem.
    exists (ApiKeyUsage.mk (row_key_id item) (hint_of (row_key_id item))
              (key_figures (all_rows key_usage) (row_key_id item))).
    split; [|reflexivity].
    apply Hin. split; [|split; reflexivity].
    cbn [ApiKeyUsage.key_id]. now apply in_map. }
  intros item id Hsome Hid.
  rewrite (one_row_by_key item model_usage cost_data).
  destruct (row_key_id_cases item) as (_ & _ & H).
  now rewrite (H id Hsome Hid).
Qed.

Lemma key_aggregation_sums_witness :
  hint_of "sk-ant-api03-ABCDE123456" = "...123456"
  /\ hint_of "abcdef" = "abcdef"
  /\ row_key_id (Item.mk None None (Some 1) None None (Some 2)) = "workbench"
  /\ row_key_id (Item.mk None (Some "sk-ant-api03-ABCDE123456") (Some 10)
                   (Some 5) None (Some 7))
     = "sk-ant-api03-ABCDE123456"
  /\ Report.by_key
       (_combine_data []
          [Bucket.mk (Some [Item.mk None (Some "sk-ant-api03-ABCDE123456")
                              (Some 10) (Some 5)
                              (Some (CacheCreation.mk (Some 1000) (Some 2000)))
                              (Some 7)])]
          [])
     = [ApiKeyUsage.mk "sk-ant-api03-ABCDE123456" "...123456"
          (Usage.mkUsageData 15 7 22 0%float)].
Proof.
  destruct (key_aggregation_sums [] credential_rows [])
    as (_ & _ & Hw & _ & Hlong & Hshort & Hid & _ & _ & Hone).
  split; [|split; [|split; [|split]]].
  - apply (Hlong "sk-ant-api03-ABCDE123456"); [discriminate | simpl; lia].
  - apply (Hshort "abcdef"). simpl. lia.
  - apply Hw. reflexivity.
  - apply Hid; [reflexivity | discriminate].
  - rewrite (Hone _ "sk-ant-api03-ABCDE123456"); [reflexivity | reflexivity
                                                   | discriminate].
Defined.

(** ** Cost, ordering and the token invariant of a report *)

Section ReportFacts.

Lemma usage_of_consistent (v : Z * Z) : Usage.consistent (usage_of v).
Proof. reflexivity. Qed.

Lemma sum_usage_consistent (l : list Usage.UsageData) :
  Forall Usage.consistent l -> Usage.consistent (sum_usage l).
Proof.
  unfold sum_usage.
  assert (H0 : Usage.consistent Usage.empty) by reflexivity.
  revert H0. generalize Usage.empty.
  intros u Hu H. revert u Hu.
  induction H as [|x l Hx _ IH]; intros u Hu; simpl; [exact Hu|].
  apply IH. now apply add_consistent.
Qed.

Lemma models_unsorted_usage (model_usage : list Bucket.t) :
  Forall (fun e => exists v, ModelUsage.usage e = usage_of v)
    (models_unsorted model_usage).
Proof.
  unfold models_unsorted. apply Forall_forall. intros e H.
  apply in_map_iff in H. destruct H as ([k v] & <- & _). now exists v.
Qed.

Lemma keys_unsorted_usage (key_usage : list Bucket.t) :
  Forall (fun e => exists v, ApiKeyUsage.usage e = usage_of v)
    (keys_unsorted key_usage).
Proof.
  unfold keys_unsorted. apply Forall_forall. intros e H.
  apply in_map_iff in H. destruct H as ([k v] & <- & _). now exists v.
Qed.

Lemma Forall_sort_desc {A : Type} (key : A -> Z) (P : A -> Prop) (l : list A) :
  Forall P l -> Forall P (sort_desc key l).
Proof.
  intros H. apply Forall_forall. intros x Hx.
  apply (Permutation_in _ (sort_desc_perm key l)) in Hx.
  revert x Hx. now apply Forall_forall.
Qed.

End ReportFacts.

(** C7. [by_model] and [by_key] are in descending order of [total_tokens],
    and among the entries with one and the same [total_tokens] the names, or
    the keys, follow each other in the order in which they first occurred
    among the rows. *)
Theorem summaries_sorted_stable
    (model_usage key_usage : list Bucket.t) (cost_data : list CostBucket.t) :
  let r := _combine_data model_usage key_usage cost_data in
  StronglySorted
    (fun a b => Usage.total_tokens (ModelUsage.usage b)
                <= Usage.total_tokens (ModelUsage.usage a))
    (Report.by_model r)
  /\ StronglySorted
       (fun a b => Usage.total_tokens (ApiKeyUsage.usage b)
                   <= Usage.total_tokens (ApiKeyUsage.usage a))
       (Report.by_key r)
  /\ (forall t,
      map ModelUsage.model
        (filter (fun e => Usage.total_tokens (ModelUsage.usage e) =? t)
           (Report.by_model r))
      = filter
          (fun name =>
             Usage.total_tokens (model_figures (all_rows model_usage) name) =? t)
          (first_seen (map row_friendly_name (all_rows model_usage))))
  /\ (forall t,
      map ApiKeyUsage.key_id
        (filter (fun e => Usage.total_tokens (ApiKeyUsage.usage e) =? t)
           (Report.by_key r))
      = filter
          (fun id =>
             Usage.total_tokens (key_figures (all_rows key_usage) id) =? t)
          (first_seen (map row_key_id (all_rows key_usage)))).
Proof.
  cbv zeta. unfold _combine_data. cbn [Report.by_model Report.by_key].
  split; [apply sort_desc_sorted|]. split; [apply sort_desc_sorted|].
  split; intros t.
  - rewrite (sort_desc_stable
               (fun x => Usage.total_tokens (ModelUsage.usage x)) t).
    rewrite models_unsorted_closed_form.
    induction (first_seen (map row_friendly_name (all_rows model_usage)))
      as [|n l IH]; simpl; [reflexivity|].
    destruct (_ =? t); simpl; now rewrite IH.
  - rewrite (sort_desc_stable
               (fun x => Usage.total_tokens (ApiKeyUsage.usage x)) t).
    rewrite keys_unsorted_closed_form.
    induction (first_seen (map row_key_id (all_rows key_usage)))
      as [|n l IH]; simpl; [reflexivity|].
    destruct (_ =? t); simpl; now rewrite IH.
Qed.

(** Two names with 15 tokens each: the one whose first row came first stays
    first. *)
Example tied_rows_order :
  map ModelUsage.model (Report.by_model (_combine_data tied_rows [] []))
    = ["c"; "b"; "a"].
Proof. reflexivity. Qed.

(** C8 (counterexample). The constructor takes [total_tokens] as a field of
    its own, with default 0, and checks nothing:
    [UsageData(input_tokens=1, output_tokens=2)] is a value whose total is not
    the sum of its input and output. *)
Lemma constructor_does_not_enforce_total :
  let u := Usage.mkUsageData 1 2 (Usage.total_tokens Usage.empty)
             (Usage.cost_usd Usage.empty) in
  Usage.total_tokens u <> Usage.input_tokens u + Usage.output_tokens u.
Proof. simpl. discriminate. Qed.

(** C8 (amended). [UsageData()] has [total_tokens = input_tokens +
    output_tokens], addition keeps the equation, and it holds of every figure
    of a report: of the grand total and of every summary by model and by
    key. *)
Theorem report_figures_consistent
    (model_usage key_usage : list Bucket.t) (cost_data : list CostBucket.t) :
  let r := _combine_data model_usage key_usage cost_data in
  Usage.consistent Usage.empty
  /\ (forall x y, Usage.consistent x -> Usage.consistent y ->
                  Usage.consistent (Usage.add x y))
  /\ Usage.consistent (Report.total r)
  /\ Forall (fun e => Usage.consistent (ModelUsage.usage e)) (Report.by_model r)
  /\ Forall (fun e => Usage.consistent (ApiKeyUsage.usage e)) (Report.by_key r).
Proof.
  cbv zeta. split; [reflexivity|]. split; [exact add_consistent|].
  unfold _combine_data. cbn [Report.total Report.by_model Report.by_key].
  split; [|split].
  - change (Usage.consistent
              (sum_usage (map ModelUsage.usage (models_unsorted model_usage)))).
    apply sum_usage_consistent. apply Forall_map.
    generalize (models_unsorted_usage model_usage). apply Forall_impl.
    intros e [v ->]. apply usage_of_consistent.
  - apply Forall_sort_desc.
    generalize (models_unsorted_usage model_usage). apply Forall_impl.
    intros e [v ->]. apply usage_of_consistent.
  - apply Forall_sort_desc.
    generalize (keys_unsorted_usage key_usage). apply Forall_impl.
    intros e [v ->]. apply usage_of_consistent.
Qed.

Lemma report_figures_consistent_witness :
  Usage.consistent
    (Usage.add (Usage.mkUsageData 1 2 3 0%float) (Usage.mkUsageData 4 5 9 0%float)).
Proof.
  destruct (report_figures_consistent [] [] []) as (_ & H & _).
  apply H; reflexivity.
Defined.

(** ** The calendar *)

Section CalendarFacts.

Lemma is_leap_spec (y : Z) :
  is_leap y = true <-> y mod 4 = 0 /\ (y mod 100 <> 0 \/ y mod 400 = 0).
Proof.
  unfold is_leap.
  rewrite andb_true_iff, orb_true_iff, negb_true_iff, !Z.eqb_eq, Z.eqb_neq.
  tauto.
Qed.

Lemma days_before_year_succ (y : Z) :
  days_before_year (y + 1)
    = days_before_year y + (if is_leap y then 366 else 365).
Proof.
  unfold days_before_year. cbv zeta.
  replace (y + 1 - 1) with y by lia.
  destruct (is_leap y) eqn:E.
  - apply is_leap_spec in E. Z.div_mod_to_equations. lia.
  - assert (H : ~ (y mod 4 = 0 /\ (y mod 100 <> 0 \/ y mod 400 = 0))).
    { rewrite <- is_leap_spec. congruence. }
    Z.div_mod_to_equations. lia.
Qed.

Lemma month_cases (m : Z) :
  1 <= m <= 12 ->
  m = 1 \/ m = 2 \/ m = 3 \/ m = 4 \/ m = 5 \/ m = 6 \/ m = 7 \/ m = 8
  \/ m = 9 \/ m = 10 \/ m = 11 \/ m = 12.
Proof. lia. Qed.

Ltac each_month m H :=
  destruct (month_cases m H) as [->|[->|[->|[->|[->|[->|[->|[->|[->|[->|[->| ->]]]]]]]]]]].

Lemma days_before_month_succ (y m : Z) :
  1 <= m <= 11 ->
  days_before_month y (m + 1) = days_before_month y m + days_in_month y m.
Proof.
  intros H. assert (H' : 1 <= m <= 12) by lia.
  each_month m H'; try lia;
    unfold days_before_month, days_in_month; simpl; destruct (is_leap y); lia.
Qed.

Lemma days_in_month_pos (y m : Z) : 1 <= m <= 12 -> 28 <= days_in_month y m <= 31.
Proof.
  intros H. each_month m H; unfold days_in_month; simpl;
    try destruct (is_leap y); lia.
Qed.

Lemma valid_spec (d : datetime) :
  valid d = true <->
  (1 <= year d <= 9999 /\ 1 <= month d <= 12
   /\ 1 <= day d <= days_in_month (year d) (month d))
  /\ 0 <= hour d < 24 /\ 0 <= minute d < 60 /\ 0 <= second d < 60
  /\ 0 <= microsecond d < 1000000.
Proof.
  unfold valid, MINYEAR, MAXYEAR.
  rewrite !andb_true_iff, !Z.leb_le, !Z.ltb_lt. tauto.
Qed.

(** The day after: one more in the count of days, and again a date. *)
Lemma next_day_ordinal (d d' : datetime) :
  valid d = true -> next_day d = Some d' ->
  toordinal d' = toordinal d + 1 /\ valid d' = true
  /\ hour d' = hour d /\ minute d' = minute d /\ second d' = second d
  /\ microsecond d' = microsecond d /\ tzinfo d' = tzinfo d.
Proof.
  intros Hv H. apply valid_spec in Hv.
  destruct Hv as ((Hy & Hm & Hd) & Ht).
  unfold next_day, MAXYEAR in H.
  destruct (day d <? days_in_month (year d) (month d)) eqn:E1.
  - apply Z.ltb_lt in E1. injection H as <-.
    rewrite valid_spec. unfold toordinal. simpl. repeat split; try tauto; lia.
  - apply Z.ltb_ge in E1.
    destruct (month d <? 12) eqn:E2.
    + apply Z.ltb_lt in E2. injection H as <-.
      rewrite valid_spec. unfold toordinal. simpl.
      rewrite days_before_month_succ by lia.
      pose proof (days_in_month_pos (year d) (month d + 1)).
      repeat split; try tauto; lia.
    + apply Z.ltb_ge in E2.
      destruct (year d <? 9999) eqn:E3; [|discriminate].
      apply Z.ltb_lt in E3. injection H as <-.
      rewrite valid_spec. unfold toordinal. simpl.
      rewrite days_before_year_succ.
      assert (Em : month d = 12) by lia. rewrite Em in *.
      unfold days_before_month, days_in_month in *. simpl in *.
      destruct (is_leap (year d)); repeat split; try tauto; lia.
Qed.

Lemma next_day_defined (d : datetime) :
  valid d = true ->
  ~ (year d = 9999 /\ month d = 12 /\ day d = 31) ->
  exists d', next_day d = Some d'.
Proof.
  intros Hv H. apply valid_spec in Hv.
  destruct Hv as ((Hy & Hm & Hd) & _).
  unfold next_day, MAXYEAR.
  destruct (day d <? days_in_month (year d) (month d)) eqn:E1; [eauto|].
  destruct (month d <? 12) eqn:E2; [eauto|].
  destruct (year d <? 9999) eqn:E3; [eauto|].
  apply Z.ltb_ge in E1, E2, E3. elim H.
  assert (Em : month d = 12) by lia. rewrite Em in *.
  unfold days_in_month in *. simpl in *. lia.
Qed.

(** The day before: one less in the count of days, and again a date. *)
Lemma prev_day_ordinal (d d' : datetime) :
  valid d = true -> prev_day d = Some d' ->
  toordinal d' = toordinal d - 1 /\ valid d' = true
  /\ hour d' = hour d /\ minute d' = minute d /\ second d' = second d
  /\ microsecond d' = microsecond d /\ tzinfo d' = tzinfo d.
Proof.
  intros Hv H. apply valid_spec in Hv.
  destruct Hv as ((Hy & Hm & Hd) & Ht).
  unfold prev_day, MINYEAR in H.
  destruct (1 <? day d) eqn:E1.
  - apply Z.ltb_lt in E1. injection H as <-.
    rewrite valid_spec. unfold toordinal. simpl. repeat split; try tauto; lia.
  - apply Z.ltb_ge in E1.
    destruct (1 <? month d) eqn:E2.
    + apply Z.ltb_lt in E2. injection H as <-.
      rewrite valid_spec. unfold toordinal. simpl.
      pose proof (days_before_month_succ (year d) (month d - 1)) as Hs.
      replace (month d - 1 + 1) with (month d) in Hs by lia.
      pose proof (days_in_month_pos (year d) (month d - 1)).
      repeat split; try tauto; lia.
    + apply Z.ltb_ge in E2.
      destruct (1 <? year d) eqn:E3; [|discriminate].
      apply Z.ltb_lt in E3. injection H as <-.
      rewrite valid_spec. unfold toordinal. simpl.
      pose proof (days_before_year_succ (year d - 1)) as Hs.
      replace (year d - 1 + 1) with (year d) in Hs by lia.
      assert (Em : month d = 1) by lia. rewrite Em in *.
      unfold days_before_month, days_in_month in *. simpl in *.
      destruct (is_leap (year d - 1)); repeat split; try tauto; lia.
Qed.

Lemma days_before_year_lower (y : Z) : 1 <= y -> 365 * (y - 1) <= days_before_year y.
Proof.
  intros H. unfold days_before_year. cbv zeta.
  Z.div_mod_to_equations. lia.
Qed.

Lemma days_before_month_nonneg (y m : Z) : 0 <= days_before_month y m.
Proof.
  unfold days_before_month. cbv zeta.
  destruct (is_leap y); destruct m as [|p|p]; try lia;
    do 4 (try destruct p as [p|p|]); simpl; lia.
Qed.

Lemma prev_day_defined (d : datetime) :
  valid d = true -> 1 < toordinal d -> exists d', prev_day d = Some d'.
Proof.
  intros Hv H. apply valid_spec in Hv.
  destruct Hv as ((Hy & Hm & Hd) & _).
  unfold prev_day, MINYEAR.
  destruct (1 <? day d) eqn:E1; [eauto|].
  destruct (1 <? month d) eqn:E2; [eauto|].
  destruct (1 <? year d) eqn:E3; [eauto|].
  apply Z.ltb_ge in E1, E2, E3. exfalso.
  assert (Ey : year d = 1) by lia. assert (Em : month d = 1) by lia.
  unfold toordinal in H. rewrite Ey, Em in H. simpl in H.
  unfold days_before_year in H. simpl in H. lia.
Qed.

(** [n] days before: [n] less in the count of days, the time of day kept. *)
Lemma sub_days_ordinal (n : nat) (d : datetime) :
  valid d = true -> Z.of_nat n < toordinal d ->
  exists d', sub_days n d = Some d'
    /\ toordinal d' = toordinal d - Z.of_nat n /\ valid d' = true
    /\ hour d' = hour d /\ minute d' = minute d /\ second d' = second d
    /\ microsecond d' = microsecond d /\ tzinfo d' = tzinfo d.
Proof.
  revert d. induction n as [|n IH]; intros d Hv H.
  - exists d. simpl. repeat split; try reflexivity; [lia | assumption].
  - destruct (prev_day_defined d Hv) as [d1 H1]; [lia|].
    destruct (prev_day_ordinal d d1 Hv H1) as (Ho & Hv1 & Hh & Hm & Hs & Hu & Hz).
    destruct (IH d1 Hv1) as (d' & E & Ho' & Hv' & Hh' & Hm' & Hs' & Hu' & Hz');
      [lia|].
    exists d'. simpl. rewrite H1.
    repeat split; try assumption; try congruence. lia.
Qed.

Lemma toordinal_lower (d : datetime) :
  valid d = true -> 365 * (year d - 1) < toordinal d.
Proof.
  intros Hv. apply valid_spec in Hv. destruct Hv as ((Hy & Hm & Hd) & _).
  unfold toordinal.
  pose proof (days_before_year_lower (year d)).
  pose proof (days_before_month_nonneg (year d) (month d)). lia.
Qed.

End CalendarFacts.

(** ** The serialised form of an instant *)

Section Serialisation.

Lemma digit_value_digit (z : Z) : digit_value (digit z) = Some (z mod 10).
Proof.
  unfold digit.
  assert (H : 0 <= z mod 10 < 10) by (apply Z.mod_pos_bound; lia).
  assert (C : z mod 10 = 0 \/ z mod 10 = 1 \/ z mod 10 = 2 \/ z mod 10 = 3
              \/ z mod 10 = 4 \/ z mod 10 = 5 \/ z mod 10 = 6 \/ z mod 10 = 7
              \/ z mod 10 = 8 \/ z mod 10 = 9) by lia.
  destruct C as [->|[->|[->|[->|[->|[->|[->|[->|[->| ->]]]]]]]]]; reflexivity.
Qed.

Lemma number_from_digit (acc z : Z) (s : string) :
  number_from acc (String (digit z) s) = number_from (acc * 10 + z mod 10) s.
Proof. cbn [number_from]. now rewrite digit_value_digit. Qed.

Lemma number_pad2 (z : Z) : 0 <= z < 100 -> number (pad2 z) = Some z.
Proof.
  intros H. unfold pad2, number.
  rewrite !number_from_digit. cbn [number_from]. f_equal.
  Z.div_mod_to_equations. lia.
Qed.

Lemma number_pad4 (z : Z) : 0 <= z < 10000 -> number (pad4 z) = Some z.
Proof.
  intros H. unfold pad4, pad2, number.
  rewrite !number_from_digit. cbn [number_from]. f_equal.
  Z.div_mod_to_equations. lia.
Qed.

(** [YYYY-MM-DDTHH:MM:SSZ]: twenty characters, the separators in their
    places, and between them the fields in decimal, padded with zeros. *)
Lemma strftime_iso_shape (d : datetime) :
  valid d = true ->
  let s := strftime_iso d in
  String.length s = 20%nat
  /\ substring 4 1 s = "-" /\ substring 7 1 s = "-" /\ substring 10 1 s = "T"
  /\ substring 13 1 s = ":" /\ substring 16 1 s = ":" /\ substring 19 1 s = "Z"
  /\ number (substring 0 4 s) = Some (year d)
  /\ number (substring 5 2 s) = Some (month d)
  /\ number (substring 8 2 s) = Some (day d)
  /\ number (substring 11 2 s) = Some (hour d)
  /\ number (substring 14 2 s) = Some (minute d)
  /\ number (substring 17 2 s) = Some (second d).
Proof.
  intros Hv. apply valid_spec in Hv.
  destruct Hv as ((Hy & Hm & Hd) & Hh & Hmi & Hs & _).
  pose proof (days_in_month_pos (year d) (month d) Hm).
  cbv zeta. unfold strftime_iso.
  cbn [pad4 pad2 append String.length substring].
  split; [reflexivity|]. do 6 (split; [reflexivity|]).
  repeat split.
  - apply (number_pad4 (year d)). lia.
  - apply (number_pad2 (month d)). lia.
  - apply (number_pad2 (day d)). lia.
  - apply (number_pad2 (hour d)). lia.
  - apply (number_pad2 (minute d)). lia.
  - apply (number_pad2 (second d)). lia.
Qed.

End Serialisation.

(** ** The window of the cost request *)

Example cost_window_end_of_february :
  cost_window window_start window_end
    = Some (mkdatetime 2025 2 27 0 0 0 0 None, mkdatetime 2025 3 1 0 0 0 0 None).
Proof. reflexivity. Qed.

(** C5. The window of the cost request starts at [00:00:00] of the day of
    the requested start and ends at [00:00:00] of the day after the day of the
    requested end, so that it starts no later than the requested window and
    ends after it. The last day of year 9999 has no day after it. *)
Theorem cost_window_covers (start_dt end_dt : datetime) :
  valid start_dt = true -> valid end_dt = true ->
  ~ (year end_dt = 9999 /\ month end_dt = 12 /\ day end_dt = 31) ->
  exists start_day end_day,
    cost_window start_dt end_dt = Some (start_day, end_day)
    /\ (year start_day = year start_dt /\ month start_day = month start_dt
        /\ day start_day = day start_dt)
    /\ (hour start_day = 0 /\ minute start_day = 0 /\ second start_day = 0
        /\ microsecond start_day = microsecond start_dt)
    /\ toordinal end_day = toordinal end_dt + 1
    /\ (hour end_day = 0 /\ minute end_day = 0 /\ second end_day = 0
        /\ microsecond end_day = microsecond end_dt)
    /\ valid start_day = true /\ valid end_day = true
    /\ wall_us start_day <= wall_us start_dt
    /\ wall_us end_dt < wall_us end_day
    /\ (forall strptime start_date end_date,
        strptime start_date = Some start_dt ->
        strptime end_date = Some end_dt ->
        _fetch_cost_params strptime start_date end_date
          = Some (strftime_iso start_day, strftime_iso end_day)).
Proof.
  intros Hs He Hlast.
  destruct (next_day_defined end_dt He Hlast) as [next Hn].
  destruct (next_day_ordinal end_dt next He Hn)
    as (Ho & Hv & _ & _ & _ & Hu & _).
  exists (replace_hms start_dt 0 0 0), (replace_hms next 0 0 0).
  assert (Hw : cost_window start_dt end_dt
               = Some (replace_hms start_dt 0 0 0, replace_hms next 0 0 0)).
  { unfold cost_window. now rewrite Hn. }
  pose proof (proj1 (valid_spec start_dt) Hs) as (Hds & Hts).
  pose proof (proj1 (valid_spec end_dt) He) as (Hde & Hte).
  pose proof (proj1 (valid_spec next) Hv) as (Hdn & Htn).
  split; [exact Hw|].
  split; [repeat split|]. split; [repeat split|].
  split; [exact Ho|]. split; [repeat split; exact Hu|].
  split; [apply valid_spec; simpl; repeat split; try tauto; lia|].
  split; [apply valid_spec; simpl; repeat split; try tauto; lia|].
  split; [unfold wall_us, toordinal; simpl; lia|].
  split.
  - unfold wall_us. change (toordinal (replace_hms next 0 0 0)) with (toordinal next).
    simpl. rewrite Ho, Hu. lia.
  - intros strptime s e Es Ee. unfold _fetch_cost_params.
    now rewrite Es, Ee, Hw.
Qed.

Lemma cost_window_covers_witness :
  exists start_day end_day,
    cost_window window_start window_end = Some (start_day, end_day)
    /\ wall_us start_day <= wall_us window_start
    /\ wall_us window_end < wall_us end_day.
Proof.
  destruct (cost_window_covers window_start window_end)
    as (s & e & H & _ & _ & _ & _ & _ & _ & H1 & H2 & _).
  - reflexivity.
  - reflexivity.
  - simpl. lia.
  - exists s, e. repeat split; assumption.
Defined.

(** ** The time window of a timeframe *)

(** The scenario of the specification: ["today"] asked at 14:30 UTC. *)
Example today_at_half_past_two :
  _get_date_range half_past_two "today"
    = Some ("2025-03-05T00:00:00Z", "2025-03-05T14:30:00Z").
Proof. reflexivity. Qed.

Example seven_days_at_half_past_two :
  _get_date_range half_past_two "7days"
    = Some ("2025-02-27T00:00:00Z", "2025-03-05T14:30:00Z").
Proof. reflexivity. Qed.

Example thirty_days_at_half_past_two :
  _get_date_range half_past_two "30days"
    = Some ("2025-02-04T00:00:00Z", "2025-03-05T14:30:00Z").
Proof. reflexivity. Qed.

Section DateRangeFacts.

Variable now : datetime.
Hypothesis now_valid : valid now = true.

Lemma today_start_valid : valid (replace_hmsu now 0 0 0 0) = true.
Proof.
  apply valid_spec. apply valid_spec in now_valid.
  simpl. repeat split; try tauto; lia.
Qed.

Lemma days_back (n : nat) :
  2 <= year now -> (n <= 365)%nat ->
  exists start,
    sub_days n (replace_hmsu now 0 0 0 0) = Some start
    /\ is_midnight start
    /\ toordinal start = toordinal now - Z.of_nat n
    /\ valid start = true.
Proof.
  intros Hy Hn.
  destruct (sub_days_ordinal n (replace_hmsu now 0 0 0 0) today_start_valid)
    as (start & E & Ho & Hv & Hh & Hm & Hs & Hu & _).
  - pose proof (toordinal_lower now now_valid).
    change (toordinal (replace_hmsu now 0 0 0 0)) with (toordinal now). lia.
  - exists start. repeat split; assumption.
Qed.

End DateRangeFacts.

(** C9. ["today"] gives the midnight of today and the current instant;
    ["7days"] and ["30days"] give the midnight 6 and 29 days before today and
    the current instant; every other token gives what ["today"] gives, and
    no error; both bounds are written as [YYYY-MM-DDTHH:MM:SSZ]. *)
Theorem date_range_rules (now : datetime) (timeframe : string) :
  valid now = true ->
  let today_start := replace_hmsu now 0 0 0 0 in
  (year today_start = year now /\ month today_start = month now
   /\ day today_start = day now /\ is_midnight today_start)
  /\ _get_date_range now "today"
       = Some (strftime_iso today_start, strftime_iso now)
  /\ (timeframe <> "7days" -> timeframe <> "30days" ->
      _get_date_range now timeframe
        = Some (strftime_iso today_start, strftime_iso now))
  /\ (2 <= year now ->
      exists start,
        _get_date_range now "7days" = Some (strftime_iso start, strftime_iso now)
        /\ is_midnight start /\ toordinal start = toordinal now - 6
        /\ valid start = true)
  /\ (2 <= year now ->
      exists start,
        _get_date_range now "30days" = Some (strftime_iso start, strftime_iso now)
        /\ is_midnight start /\ toordinal start = toordinal now - 29
        /\ valid start = true)
  /\ (forall d, valid d = true ->
      let s := strftime_iso d in
      String.length s = 20%nat
      /\ substring 4 1 s = "-" /\ substring 7 1 s = "-"
      /\ substring 10 1 s = "T"
      /\ substring 13 1 s = ":" /\ substring 16 1 s = ":"
      /\ substring 19 1 s = "Z"
      /\ number (substring 0 4 s) = Some (year d)
      /\ number (substring 5 2 s) = Some (month d)
      /\ number (substring 8 2 s) = Some (day d)
      /\ number (substring 11 2 s) = Some (hour d)
      /\ number (substring 14 2 s) = Some (minute d)
      /\ number (substring 17 2 s) = Some (second d)).
Proof.
  intros Hv. cbv zeta.
  split; [repeat split|]. split; [reflexivity|].
  split.
  { intros H7 H30. unfold _get_date_range, date_range.
    apply String.eqb_neq in H7, H30. rewrite H7, H30.
    now destruct (String.eqb timeframe "today"). }
  split.
  { intros Hy. destruct (days_back now Hv 6) as (start & E & H); [lia..|].
    exists start. split; [|exact H].
    unfold _get_date_range, date_range.
    change (String.eqb "7days" "today") with false.
    change (String.eqb "7days" "7days") with true. cbv iota.
    now rewrite E. }
  split.
  { intros Hy. destruct (days_back now Hv 29) as (start & E & H); [lia..|].
    exists start. split; [|exact H].
    unfold _get_date_range, date_range.
    change (String.eqb "30days" "today") with false.
    change (String.eqb "30days" "7days") with false.
    change (String.eqb "30days" "30days") with true. cbv iota.
    now rewrite E. }
  intros d Hd. apply strftime_iso_shape, Hd.
Qed.

Lemma date_range_rules_witness :
  _get_date_range half_past_two "yesterday"
    = Some ("2025-03-05T00:00:00Z", "2025-03-05T14:30:00Z")
  /\ exists start,
       _get_date_range half_past_two "7days"
         = Some (strftime_iso start, strftime_iso half_past_two)
       /\ is_midnight start
       /\ toordinal start = toordinal half_past_two - 6
       /\ valid start = true.
Proof.
  destruct (date_range_rules half_past_two "yesterday")
    as (_ & _ & Hother & H7 & _).
  - reflexivity.
  - split.
    + apply Hother; discriminate.
    + apply H7. simpl. lia.
Defined.

(** ** The reset time *)

Section ResetTimeFacts.

Lemma head_is_number_str (z : Z) (rest : string) :
  head_is_number (str z ++ rest) = true.
Proof.
  unfold str, NilZero.string_of_int, NilZero.string_of_uint.
  destruct z as [|p|p]; cbn [Z.to_int]; try reflexivity.
  destruct (Pos.to_uint p); reflexivity.
Qed.

Lemma head_is_number_date (d : datetime) :
  head_is_number (strftime_b_d d) = false.
Proof.
  unfold strftime_b_d, month_abbr.
  destruct (month d) as [|p|p]; try reflexivity.
  do 4 (try destruct p as [p|p|]; try reflexivity).
Qed.

Lemma date_is_not_relative (d : datetime) (h m : Z) :
  strftime_b_d d <> "Tomorrow"
  /\ strftime_b_d d <> str h ++ "h " ++ str m ++ "m"
  /\ strftime_b_d d <> str m ++ "m".
Proof.
  pose proof (head_is_number_date d) as Hd.
  split; [|split]; intros E; rewrite E in Hd.
  - unfold strftime_b_d, month_abbr in E.
    apply (f_equal String.length) in E. revert E.
    destruct (month d) as [|p|p]; try discriminate;
      do 4 (try destruct p as [p|p|]; try discriminate).
  - now rewrite head_is_number_str in Hd.
  - now rewrite head_is_number_str in Hd.
Qed.

Lemma timedelta_days_0 (us : Z) : timedelta_days us = 0 <-> 0 <= us < 86400000000.
Proof. unfold timedelta_days. Z.div_mod_to_equations. lia. Qed.

Lemma timedelta_days_1 (us : Z) :
  timedelta_days us = 1 <-> 86400000000 <= us < 172800000000.
Proof. unfold timedelta_days. Z.div_mod_to_equations. lia. Qed.

Lemma timedelta_days_past (us : Z) :
  timedelta_days us = -1 <-> - 86400000000 <= us < 0.
Proof. unfold timedelta_days. Z.div_mod_to_equations. lia. Qed.

(** Within the first day the seconds of the difference are the whole seconds
    of the difference, and hours and minutes are rounded down. *)
Lemma timedelta_hours_minutes (us : Z) :
  0 <= us < 86400000000 ->
  timedelta_seconds us / 3600 = us / 3600000000
  /\ (timedelta_seconds us mod 3600) / 60 = (us / 60000000) mod 60.
Proof.
  intros H. unfold timedelta_seconds.
  rewrite (Z.mod_small us 86400000000) by lia.
  split.
  - rewrite Z.div_div by lia. reflexivity.
  - Z.div_mod_to_equations. lia.
Qed.

End ResetTimeFacts.

(** The scenarios of the specification, with the clock at 14:00 on March 5th:
    90 minutes ahead, 24 hours ahead, and a malformed timestamp. *)
Example reset_scenarios :
  map (format_reset_time parse_timestamp (clock_at two_o_clock))
    [None; Some "2025-03-05T15:30:00.123456+00:00";
     Some "2025-03-05T14:05:00Z"; Some "2025-03-06T14:00:00+00:00";
     Some "next week"; Some "2025-04-01T09:00:00+00:00"]
  = ["--"; "1h 30m"; "5m"; "Tomorrow"; "?"; "Apr 01"].
Proof. vm_compute. reflexivity. Qed.

Example fraction_is_stripped :
  strip_fraction "2025-03-05T15:30:00.123456+00:00" = "2025-03-05T15:30:00+00:00".
Proof. reflexivity. Qed.

(** C3 (counterexample). At 14:00 on March 5th a timestamp of 13:00 on the
    same March 5th is on the calendar day of now, yet it is rendered as
    ["Mar 05"], which is neither ["{hours}h {minutes}m"] nor ["{minutes}m"]:
    the days of the difference are -1, not 0. And a timestamp of 01:00 on
    March 6th is not on the calendar day of now, yet it is rendered as
    ["11h 0m"]. *)
Lemma same_calendar_day_is_not_the_test :
  let now := two_o_clock in
  let same_day := mkdatetime 2025 3 5 13 0 0 0 (Some 0) in
  let next_day := mkdatetime 2025 3 6 1 0 0 0 (Some 0) in
  parse_timestamp
    (replace "+00:00" "+0000" (strip_fraction "2025-03-05T13:00:00+00:00"))
    = Some same_day
  /\ (year same_day, month same_day, day same_day)
       = (year now, month now, day now)
  /\ timedelta_days (diff_us same_day (clock_at now (tzinfo same_day))) = -1
  /\ format_reset_time parse_timestamp (clock_at now)
       (Some "2025-03-05T13:00:00+00:00") = "Mar 05"
  /\ (forall h m, "Mar 05" <> str h ++ "h " ++ str m ++ "m"
                  /\ "Mar 05" <> str m ++ "m")
  /\ parse_timestamp
       (replace "+00:00" "+0000" (strip_fraction "2025-03-06T01:00:00+00:00"))
       = Some next_day
  /\ day next_day <> day now
  /\ format_reset_time parse_timestamp (clock_at now)
       (Some "2025-03-06T01:00:00+00:00") = "11h 0m".
Proof.
  cbv zeta.
  split; [vm_compute; reflexivity|]. split; [reflexivity|].
  split; [vm_compute; reflexivity|]. split; [vm_compute; reflexivity|].
  split.
  { intros h m.
    destruct (date_is_not_relative (mkdatetime 2025 3 5 13 0 0 0 (Some 0)) h m)
      as (_ & H1 & H2).
    split; [exact H1 | exact H2]. }
  split; [vm_compute; reflexivity|]. split; [discriminate|].
  vm_compute; reflexivity.
Qed.

(** C3 (amended). A missing timestamp gives ["--"] and one that does not
    parse, after its fractional seconds are stripped, gives ["?"]. For a
    timestamp that is at least 0 and less than 24 hours after now, that is
    when the whole days of the difference are 0, the result is
    ["{hours}h {minutes}m"] if the whole hours of the difference are more than
    0 and ["{minutes}m"] otherwise, both rounded down; when the whole days of
    the difference are 1 it is ["Tomorrow"]; in every other case it is the
    abbreviated month and the day in two digits. *)
Theorem format_reset_time_rules
    (fromisoformat : string -> option datetime) (now_in : option Z -> datetime)
    (iso_time : string) :
  let result := format_reset_time fromisoformat now_in (Some iso_time) in
  let parsed :=
    fromisoformat (replace "+00:00" "+0000" (strip_fraction iso_time)) in
  format_reset_time fromisoformat now_in None = "--"
  /\ format_reset_time fromisoformat now_in (Some "") = "--"
  /\ (iso_time <> "" -> parsed = None -> result = "?")
  /\ (forall dt,
      iso_time <> "" -> parsed = Some dt ->
      let diff := diff_us dt (now_in (tzinfo dt)) in
      let hours := diff / 3600000000 in
      let minutes := (diff / 60000000) mod 60 in
      (timedelta_days diff = 0 <-> 0 <= diff < 86400000000)
      /\ (timedelta_days diff = 0 -> 0 < hours ->
          result = str hours ++ "h " ++ str minutes ++ "m")
      /\ (timedelta_days diff = 0 -> hours <= 0 -> result = str minutes ++ "m")
      /\ (timedelta_days diff = 1 -> result = "Tomorrow")
      /\ (timedelta_days diff <> 0 -> timedelta_days diff <> 1 ->
          result = month_abbr (month dt) ++ " " ++ pad2 (day dt))).
Proof.
  cbv zeta. split; [reflexivity|]. split; [reflexivity|].
  split.
  { intros Hne Hp. unfold format_reset_time.
    apply String.eqb_neq in Hne. now rewrite Hne, Hp. }
  intros dt Hne Hp.
  assert (E : format_reset_time fromisoformat now_in (Some iso_time) =
    let diff := diff_us dt (now_in (tzinfo dt)) in
    if timedelta_days diff =? 0 then
      let hours := timedelta_seconds diff / 3600 in
      let mins := (timedelta_seconds diff mod 3600) / 60 in
      if hours >? 0 then str hours ++ "h " ++ str mins ++ "m"
      else str mins ++ "m"
    else if timedelta_days diff =? 1 then "Tomorrow"
    else strftime_b_d dt).
  { unfold format_reset_time. apply String.eqb_neq in Hne.
    now rewrite Hne, Hp. }
  rewrite E. cbv zeta. clear E.
  set (diff := diff_us dt (now_in (tzinfo dt))).
  split; [apply timedelta_days_0|].
  split; [|split; [|split]].
  - intros H0 Hh. rewrite H0. cbn [Z.eqb].
    apply timedelta_days_0 in H0.
    destruct (timedelta_hours_minutes diff H0) as [-> ->].
    assert (G : (diff / 3600000000 >? 0) = true) by (apply Z.gtb_lt; lia).
    now rewrite G.
  - intros H0 Hh. rewrite H0. cbn [Z.eqb].
    apply timedelta_days_0 in H0.
    destruct (timedelta_hours_minutes diff H0) as [-> ->].
    assert (G : (diff / 3600000000 >? 0) = false).
    { rewrite Z.gtb_ltb. apply Z.ltb_ge. lia. }
    now rewrite G.
  - intros H1. now rewrite H1.
  - intros H0 H1. apply Z.eqb_neq in H0, H1. now rewrite H0, H1.
Qed.

Lemma format_reset_time_rules_witness :
  format_reset_time parse_timestamp (clock_at two_o_clock)
    (Some "2025-03-05T15:30:00+00:00") = "1h 30m".
Proof.
  destruct (format_reset_time_rules parse_timestamp (clock_at two_o_clock)
              "2025-03-05T15:30:00+00:00") as (_ & _ & _ & H).
  destruct (H (mkdatetime 2025 3 5 15 30 0 0 (Some 0))) as (_ & Hhm & _).
  - discriminate.
  - vm_compute. reflexivity.
  - rewrite Hhm; [vm_compute; reflexivity | vm_compute; reflexivity
                 | vm_compute; reflexivity].
Defined.

(** C10. A timestamp that parses and lies in the past by no more than 24
    hours has -1 as the days of its difference from now, and is rendered as
    the abbreviated month and the two-digit day of the timestamp: not as
    ["Tomorrow"] and not as hours or minutes. *)
Theorem past_reset_time_is_a_date
    (fromisoformat : string -> option datetime) (now_in : option Z -> datetime)
    (iso_time : string) (dt : datetime) :
  iso_time <> "" ->
  fromisoformat (replace "+00:00" "+0000" (strip_fraction iso_time)) = Some dt ->
  - 86400000000 <= diff_us dt (now_in (tzinfo dt)) < 0 ->
  let result := format_reset_time fromisoformat now_in (Some iso_time) in
  timedelta_days (diff_us dt (now_in (tzinfo dt))) = -1
  /\ result = month_abbr (month dt) ++ " " ++ pad2 (day dt)
  /\ result <> "Tomorrow"
  /\ (forall h m, result <> str h ++ "h " ++ str m ++ "m"
                  /\ result <> str m ++ "m").
Proof.
  intros Hne Hp Hd. cbv zeta.
  assert (Hdays : timedelta_days (diff_us dt (now_in (tzinfo dt))) = -1)
    by now apply timedelta_days_past.
  assert (E : format_reset_time fromisoformat now_in (Some iso_time)
              = strftime_b_d dt).
  { unfold format_reset_time. apply String.eqb_neq in Hne.
    rewrite Hne, Hp. cbv zeta. now rewrite Hdays. }
  rewrite E. split; [exact Hdays|]. split; [reflexivity|].
  split; [apply (date_is_not_relative dt 0 0)|].
  intros h m. destruct (date_is_not_relative dt h m) as (_ & H1 & H2).
  now split.
Qed.

Lemma past_reset_time_is_a_date_witness :
  format_reset_time parse_timestamp (clock_at two_o_clock)
    (Some "2025-03-05T13:00:00+00:00") = "Mar 05".
Proof.
  destruct (past_reset_time_is_a_date parse_timestamp (clock_at two_o_clock)
              "2025-03-05T13:00:00+00:00"
              (mkdatetime 2025 3 5 13 0 0 0 (Some 0))) as (_ & H & _).
  - discriminate.
  - vm_compute. reflexivity.
  - vm_compute. split; [discriminate | reflexivity].
  - rewrite H. reflexivity.
Defined.

(** * Further properties of the aggregation *)

Section KeyFacts.

Lemma keys_total_tokens (key_usage : list Bucket.t) :
  Usage.tokens (sum_usage (map ApiKeyUsage.usage (keys_unsorted key_usage)))
  = (sumZ (map key_input_tokens (all_rows key_usage)),
     sumZ (map row_output_tokens (all_rows key_usage)),
     sumZ (map key_input_tokens (all_rows key_usage))
     + sumZ (map row_output_tokens (all_rows key_usage))).
Proof.
  unfold keys_unsorted. rewrite map_map.
  rewrite (sum_totals_tokens _ _ (fun e => eq_refl)).
  unfold key_totals. rewrite accumulate_all_rows.
  destruct (sum_accumulate_rows row_key_id key_input_tokens
              row_output_tokens (all_rows key_usage) []) as [-> ->].
  reflexivity.
Qed.

Lemma keys_unsorted_perm (ku ku' : list Bucket.t) :
  Permutation (all_rows ku) (all_rows ku') ->
  Permutation (keys_unsorted ku) (keys_unsorted ku').
Proof.
  intros H. rewrite !keys_unsorted_closed_form.
  transitivity
    (map (fun id => ApiKeyUsage.mk id (hint_of id) (key_figures (all_rows ku) id))
       (first_seen (map row_key_id (all_rows ku')))).
  - apply Permutation_map, first_seen_perm, Permutation_map, H.
  - apply Permutation_refl'. apply map_ext. intros id.
    unfold key_figures.
    now rewrite !(sum_of_perm _ _ _ _ _ H).
Qed.

End KeyFacts.

(** X1. The summaries by key have distinct keys, their figures add up to the sums
    over all rows of the key report, and a reordering of the rows gives the
    same summaries, in the same sequence when no two of them have the same
    [total_tokens]. *)
Theorem key_summaries_add_up
    (model_usage key_usage : list Bucket.t) (cost_data : list CostBucket.t) :
  let r := _combine_data model_usage key_usage cost_data in
  let rows := all_rows key_usage in
  NoDup (map ApiKeyUsage.key_id (Report.by_key r))
  /\ Usage.tokens (sum_usage (map ApiKeyUsage.usage (Report.by_key r)))
       = (sumZ (map key_input_tokens rows),
          sumZ (map row_output_tokens rows),
          sumZ (map key_input_tokens rows) + sumZ (map row_output_tokens rows))
  /\ (forall key_usage',
      Permutation (all_rows key_usage) (all_rows key_usage') ->
      let r' := _combine_data model_usage key_usage' cost_data in
      Permutation (Report.by_key r') (Report.by_key r)
      /\ ((forall a b,
            In a (Report.by_key r) -> In b (Report.by_key r) ->
            Usage.total_tokens (ApiKeyUsage.usage a)
              = Usage.total_tokens (ApiKeyUsage.usage b) ->
            a = b) ->
          Report.by_key r' = Report.by_key r)).
Proof.
  cbv zeta. unfold _combine_data. cbn [Report.by_key].
  set (tot := fun x : ApiKeyUsage.t => Usage.total_tokens (ApiKeyUsage.usage x)).
  assert (Hp : Permutation (sort_desc tot (keys_unsorted key_usage))
                 (keys_unsorted key_usage)) by apply sort_desc_perm.
  split.
  { apply (Permutation_NoDup (Permutation_map _ (Permutation_sym Hp))).
    rewrite keys_unsorted_closed_form, map_map. simpl. rewrite map_id.
    apply first_seen_NoDup. }
  split.
  { rewrite <- keys_total_tokens.
    apply sum_usage_tokens_perm, Permutation_map, Hp. }
  intros ku' H.
  assert (Hpp : Permutation (sort_desc tot (keys_unsorted ku'))
                  (sort_desc tot (keys_unsorted key_usage))).
  { rewrite !sort_desc_perm. symmetry. now apply keys_unsorted_perm. }
  split; [exact Hpp|].
  intros Hinj. symmetry.
  apply (sorted_desc_unique tot); try apply sort_desc_sorted.
  - now symmetry.
  - exact Hinj.
Qed.

Lemma key_summaries_add_up_witness :
  all_rows credential_rows_swapped <> all_rows credential_rows
  /\ Permutation
       (Report.by_key (_combine_data [] credential_rows_swapped []))
       (Report.by_key (_combine_data [] credential_rows [])).
Proof.
  split; [discriminate|].
  destruct (key_summaries_add_up [] credential_rows []) as (_ & _ & H).
  apply (H credential_rows_swapped). simpl. apply perm_swap.
Defined.

(** X2. The report depends on the rows only, not on how they are cut into
    buckets: buckets without ["results"] and empty buckets count for nothing,
    and so does the day a row is filed under. *)
Theorem report_ignores_bucket_boundaries
    (model_usage model_usage' key_usage key_usage' : list Bucket.t)
    (cost_data cost_data' : list CostBucket.t) :
  all_rows model_usage = all_rows model_usage' ->
  all_rows key_usage = all_rows key_usage' ->
  all_cost_rows cost_data = all_cost_rows cost_data' ->
  _combine_data model_usage key_usage cost_data
    = _combine_data model_usage' key_usage' cost_data'.
Proof.
  intros Hm Hk Hc. unfold _combine_data, models_unsorted, keys_unsorted.
  unfold model_totals, key_totals, total_cost.
  now rewrite !accumulate_all_rows, Hm, Hk, Hc.
Qed.

Lemma report_ignores_bucket_boundaries_witness :
  _combine_data opus_rows [] [] = _combine_data opus_rows_one_bucket [] [].
Proof.
  apply report_ignores_bucket_boundaries; reflexivity.
Defined.

Section Bounds.

Lemma sum_of_bounds (key : Item.t -> string) (f : Item.t -> Z) (k : string)
    (rows : list Item.t) :
  Forall (fun item => 0 <= f item) rows ->
  0 <= sum_of key f k rows <= sumZ (map f rows).
Proof.
  unfold sum_of, rows_of. induction 1 as [|r rows Hr _ IH]; simpl; [lia|].
  destruct (String.eqb (key r) k); simpl; lia.
Qed.

End Bounds.

(** X3. When no row has a negative count, no figure of a summary by model is
    negative and none exceeds the figure of the grand total. *)
Theorem model_summaries_within_total
    (model_usage key_usage : list Bucket.t) (cost_data : list CostBucket.t) :
  Forall (fun item => 0 <= model_input_tokens item /\ 0 <= row_output_tokens item)
    (all_rows model_usage) ->
  let r := _combine_data model_usage key_usage cost_data in
  Forall
    (fun e =>
       0 <= Usage.input_tokens (ModelUsage.usage e)
         <= Usage.input_tokens (Report.total r)
       /\ 0 <= Usage.output_tokens (ModelUsage.usage e)
            <= Usage.output_tokens (Report.total r)
       /\ 0 <= Usage.total_tokens (ModelUsage.usage e)
            <= Usage.total_tokens (Report.total r))
    (Report.by_model r).
Proof.
  intros Hpos. cbv zeta.
  assert (Hin : Forall (fun item => 0 <= model_input_tokens item)
                  (all_rows model_usage))
    by (revert Hpos; apply Forall_impl; tauto).
  assert (Hout : Forall (fun item => 0 <= row_output_tokens item)
                   (all_rows model_usage))
    by (revert Hpos; apply Forall_impl; tauto).
  pose proof (models_total_tokens model_usage) as Ht.
  unfold Usage.tokens in Ht. injection Ht as Hti Hto Htt.
  unfold _combine_data. cbn [Report.by_model Report.total].
  unfold set_cost_usd.
  cbn [Usage.input_tokens Usage.output_tokens Usage.total_tokens].
  rewrite Hti, Hto, Htt.
  apply Forall_sort_desc. rewrite models_unsorted_closed_form.
  apply Forall_forall. intros e He. apply in_map_iff in He.
  destruct He as (name & <- & _).
  cbn [ModelUsage.usage Usage.input_tokens
    Usage.output_tokens Usage.total_tokens model_figures usage_of fst snd].
  pose proof (sum_of_bounds row_friendly_name model_input_tokens name _ Hin).
  pose proof (sum_of_bounds row_friendly_name row_output_tokens name _ Hout).
  lia.
Qed.

Lemma model_summaries_within_total_witness :
  Forall
    (fun e =>
       Usage.total_tokens (ModelUsage.usage e)
         <= Usage.total_tokens (Report.total (_combine_data tied_rows [] [])))
    (Report.by_model (_combine_data tied_rows [] [])).
Proof.
  assert (H : Forall
                (fun item => 0 <= model_input_tokens item
                             /\ 0 <= row_output_tokens item)
                (all_rows tied_rows)).
  { repeat constructor; discriminate. }
  generalize (model_summaries_within_total tied_rows [] [] H).
  apply Forall_impl. intros e (_ & _ & _ & He). exact He.
Defined.

(** * Further properties of [get_usage] *)

(** X4. Once the time window is there, [get_usage] returns and does not raise.
    It returns [None] exactly when one of the two usage reports fails or the
    window of the cost request cannot be computed, whatever the other
    requests give; and a report it returns is built from the buckets of the
    two usage reports and from the buckets of the cost report, a body without
    ["data"] counting as no buckets and a failure of the cost request as no
    cost buckets. *)
Theorem get_usage_all_or_nothing
    (strptime : string -> option datetime) (s : session) (now : datetime)
    (timeframe start_date end_date : string) :
  _get_date_range now timeframe = Some (start_date, end_date) ->
  let window := (start_date, end_date) in
  (get_usage strptime s now timeframe = Returns None <->
   usage_report s "model" window = Raised
   \/ usage_report s "api_key_id" window = Raised
   \/ _fetch_cost_params strptime start_date end_date = None)
  /\ (forall r,
      get_usage strptime s now timeframe = Returns (Some r) <->
      exists model_data key_data params,
        usage_report s "model" window = Body model_data
        /\ usage_report s "api_key_id" window = Body key_data
        /\ _fetch_cost_params strptime start_date end_date = Some params
        /\ r = _combine_data (get model_data []) (get key_data [])
                 match cost_report s params with
                 | Body cost_data => get cost_data []
                 | Raised => []
                 end)
  /\ get_usage strptime s now timeframe <> Raises.
Proof.
  intros Hr. cbv zeta. unfold get_usage, _fetch_cost. rewrite Hr.
  destruct (usage_report s "model" (start_date, end_date)) as [|dm];
    cbn [_fetch_usage].
  { split; [|split].
    - split; [tauto | reflexivity].
    - intros r. split; [discriminate|].
      intros (dm & dk & p & H & _). discriminate H.
    - discriminate. }
  destruct (usage_report s "api_key_id" (start_date, end_date)) as [|dk];
    cbn [_fetch_usage].
  { split; [|split].
    - split; [tauto | reflexivity].
    - intros r. split; [discriminate|].
      intros (dm' & dk & p & _ & H & _). discriminate H.
    - discriminate. }
  destruct (_fetch_cost_params strptime start_date end_date) as [params|].
  - split; [|split].
    + split; [discriminate|]. intros [H|[H|H]]; discriminate H.
    + intros r. split.
      * intros H. injection H as <-. exists dm, dk, params. now repeat split.
      * intros (dm' & dk' & p & Hm & Hk & Hp & ->).
        injection Hm as <-. injection Hk as <-. injection Hp as <-.
        reflexivity.
    + discriminate.
  - split; [|split].
    + split; [tauto | reflexivity].
    + intros r. split; [discriminate|].
      intros (dm' & dk' & p & _ & _ & H & _). discriminate H.
    + discriminate.
Qed.

Lemma get_usage_all_or_nothing_witness :
  get_usage strptime_iso key_report_outage half_past_two "today" = Returns None.
Proof.
  destruct (get_usage_all_or_nothing strptime_iso key_report_outage
              half_past_two "today"
              "2025-03-05T00:00:00Z" "2025-03-05T14:30:00Z") as (H & _).
  - reflexivity.
  - apply H. right. left. reflexivity.
Defined.

(** * Further properties of [format_reset_time] *)

(** X5. A timestamp less than 24 hours ahead is rendered with hours below 24 and
    minutes below 60, the hours left out when there are none; with less than
    a minute to go, and at the instant itself, the rendering is ["0m"]. *)
Theorem relative_reset_time_bounds
    (fromisoformat : string -> option datetime) (now_in : option Z -> datetime)
    (iso_time : string) (dt : datetime) :
  iso_time <> "" ->
  fromisoformat (replace "+00:00" "+0000" (strip_fraction iso_time)) = Some dt ->
  let diff := diff_us dt (now_in (tzinfo dt)) in
  0 <= diff < 86400000000 ->
  let result := format_reset_time fromisoformat now_in (Some iso_time) in
  (exists hours minutes,
      0 <= hours < 24 /\ 0 <= minutes < 60
      /\ hours * 3600000000 + minutes * 60000000 <= diff
           < hours * 3600000000 + (minutes + 1) * 60000000
      /\ result = if 0 <? hours then str hours ++ "h " ++ str minutes ++ "m"
                  else str minutes ++ "m")
  /\ (diff < 60000000 -> result = "0m").
Proof.
  intros Hne Hp. cbv zeta. intros Hd.
  set (diff := diff_us dt (now_in (tzinfo dt))) in *.
  assert (E : format_reset_time fromisoformat now_in (Some iso_time) =
    if diff / 3600000000 >? 0
    then str (diff / 3600000000) ++ "h " ++ str ((diff / 60000000) mod 60) ++ "m"
    else str ((diff / 60000000) mod 60) ++ "m").
  { unfold format_reset_time. apply String.eqb_neq in Hne.
    rewrite Hne, Hp. cbv zeta. fold diff.
    rewrite (proj2 (timedelta_days_0 diff) Hd). cbn [Z.eqb].
    now destruct (timedelta_hours_minutes diff Hd) as [-> ->]. }
  rewrite E. rewrite Z.gtb_ltb. split.
  - exists (diff / 3600000000), ((diff / 60000000) mod 60).
    split; [|split; [|split; [|reflexivity]]].
    + Z.div_mod_to_equations. lia.
    + apply Z.mod_pos_bound. lia.
    + Z.div_mod_to_equations. lia.
  - intros Hlt.
    rewrite (Z.div_small diff 3600000000) by lia.
    rewrite (Z.div_small diff 60000000) by lia.
    reflexivity.
Qed.

Lemma relative_reset_time_bounds_witness :
  format_reset_time parse_timestamp (clock_at two_o_clock)
    (Some "2025-03-05T14:00:59+00:00") = "0m".
Proof.
  destruct (relative_reset_time_bounds parse_timestamp (clock_at two_o_clock)
              "2025-03-05T14:00:59+00:00"
              (mkdatetime 2025 3 5 14 0 59 0 (Some 0))) as (_ & H).
  - discriminate.
  - vm_compute. reflexivity.
  - vm_compute. split; [discriminate | reflexivity].
  - apply H. vm_compute. reflexivity.
Defined.


(** X6. [_friendly_model_name]: an identifier that has ["opus"] in it, in any
    mix of upper and lower case and at any place, is ["Opus"], whatever else
    it has; one with ["sonnet"] is ["Sonnet"] unless it is ["Opus"], and one
    with ["haiku"] is ["Haiku"] unless it is one of the two; every other
    identifier is its own name. Two identifiers that differ in case only
    belong to the same family, and a display name is its own display name. *)
Theorem friendly_model_name_families (model : string) :
  (forall a w b, lower w = "opus" -> _friendly_model_name (a ++ w ++ b) = "Opus")
  /\ (forall a w b,
      lower w = "sonnet" ->
      _friendly_model_name (a ++ w ++ b)
        = if contains "opus" (lower (a ++ w ++ b)) then "Opus" else "Sonnet")
  /\ (forall a w b,
      lower w = "haiku" ->
      _friendly_model_name (a ++ w ++ b)
        = if contains "opus" (lower (a ++ w ++ b)) then "Opus"
          else if contains "sonnet" (lower (a ++ w ++ b)) then "Sonnet"
          else "Haiku")
  /\ (_friendly_model_name model = "Opus" \/ _friendly_model_name model = "Sonnet"
      \/ _friendly_model_name model = "Haiku" \/ _friendly_model_name model = model)
  /\ (forall model',
      lower model = lower model' ->
      _friendly_model_name model = _friendly_model_name model'
      \/ (_friendly_model_name model = model
          /\ _friendly_model_name model' = model'))
  /\ _friendly_model_name (_friendly_model_name model) = _friendly_model_name model.
Proof.
  split; [|split; [|split; [|split; [|split]]]].
  - intros a w b Hw. unfold _friendly_model_name.
    rewrite !lower_app, Hw. now rewrite contains_middle.
  - intros a w b Hw. unfold _friendly_model_name.
    destruct (contains "opus" (lower (a ++ w ++ b))); [reflexivity|].
    rewrite !lower_app, Hw. now rewrite contains_middle.
  - intros a w b Hw. unfold _friendly_model_name.
    destruct (contains "opus" (lower (a ++ w ++ b))); [reflexivity|].
    destruct (contains "sonnet" (lower (a ++ w ++ b))); [reflexivity|].
    rewrite !lower_app, Hw. now rewrite contains_middle.
  - unfold _friendly_model_name.
    destruct (contains "opus" (lower model)); [tauto|].
    destruct (contains "sonnet" (lower model)); [tauto|].
    destruct (contains "haiku" (lower model)); tauto.
  - intros model' E. unfold _friendly_model_name. rewrite <- E.
    destruct (contains "opus" (lower model)); [tauto|].
    destruct (contains "sonnet" (lower model)); [tauto|].
    destruct (contains "haiku" (lower model)); tauto.
  - destruct (contains "opus" (lower model)) eqn:Eo.
    { assert (E : _friendly_model_name model = "Opus")
        by (unfold _friendly_model_name; now rewrite Eo).
      rewrite E. reflexivity. }
    destruct (contains "sonnet" (lower model)) eqn:Es.
    { assert (E : _friendly_model_name model = "Sonnet")
        by (unfold _friendly_model_name; now rewrite Eo, Es).
      rewrite E. reflexivity. }
    destruct (contains "haiku" (lower model)) eqn:Eh.
    { assert (E : _friendly_model_name model = "Haiku")
        by (unfold _friendly_model_name; now rewrite Eo, Es, Eh).
      rewrite E. reflexivity. }
    assert (E : _friendly_model_name model = model)
      by (unfold _friendly_model_name; now rewrite Eo, Es, Eh).
    rewrite E. exact E.
Qed.

Lemma friendly_model_name_families_witness :
  _friendly_model_name ("claude-3-" ++ "OPUS" ++ "-sonnet-haiku") = "Opus"
  /\ _friendly_model_name ("claude-" ++ "Sonnet" ++ "-4") = "Sonnet".
Proof.
  destruct (friendly_model_name_families "x") as (Ho & Hs & _).
  split.
  - apply Ho. reflexivity.
  - rewrite Hs by reflexivity. reflexivity.
Defined.

(** X7. [mask_api_key] never shows more than eight characters of a key: a key of
    up to eight characters is replaced by three stars, and of a longer key
    only the first four and the last four characters are kept, the ones in
    between, at least one, being replaced by three dots. *)
Theorem mask_api_key_hides_the_middle (key : string) :
  (String.length (mask_api_key key) <= 11)%nat
  /\ ((String.length key <= 8)%nat -> mask_api_key key = "***")
  /\ ((8 < String.length key)%nat ->
      exists first hidden last,
        key = first ++ hidden ++ last
        /\ String.length first = 4%nat /\ String.length last = 4%nat
        /\ String.length hidden = (String.length key - 8)%nat
        /\ mask_api_key key = first ++ "..." ++ last).
Proof.
  assert (Hlong : (8 < String.length key)%nat ->
      exists first hidden last,
        key = first ++ hidden ++ last
        /\ String.length first = 4%nat /\ String.length last = 4%nat
        /\ String.length hidden = (String.length key - 8)%nat
        /\ mask_api_key key = first ++ "..." ++ last).
  { intros H. unfold mask_api_key.
    assert (E : (String.length key <=? 8)%nat = false) by (apply Nat.leb_gt; lia).
    rewrite E.
    destruct (last_chars_suffix 4 key) as (front & Hk & Hl); [lia|].
    assert (Hf : String.length front = (String.length key - 4)%nat).
    { apply (f_equal String.length) in Hk. rewrite length_app, Hl in Hk. lia. }
    destruct (substring_tail front 4 (String.length front - 4)) as (Hs & Hh);
      [lia|].
    exists (first_chars 4 key), (substring 4 (String.length front - 4) front),
      (last_chars 4 key).
    assert (Ef : first_chars 4 key = first_chars 4 front).
    { rewrite Hk at 1. apply first_chars_app. lia. }
    split; [|split; [|split; [|split]]].
    - rewrite Ef. unfold first_chars.
      rewrite Hk at 1. rewrite Hs at 1.
      generalize (substring 0 4 front) as x. intros x.
      generalize (substring 4 (String.length front - 4) front) as y. intros y.
      induction x as [|c x IH]; simpl; [reflexivity | now rewrite IH].
    - apply length_first_chars. lia.
    - exact Hl.
    - rewrite Hh. lia.
    - reflexivity. }
  split; [|split; [|exact Hlong]].
  - destruct (Nat.le_gt_cases (String.length key) 8) as [H|H].
    + unfold mask_api_key. apply Nat.leb_le in H. rewrite H. simpl. lia.
    + destruct (Hlong H) as (f & h & l & _ & Hf & Hl & _ & ->).
      rewrite !length_app, Hf, Hl. simpl. lia.
  - intros H. unfold mask_api_key. apply Nat.leb_le in H. now rewrite H.
Qed.

Lemma mask_api_key_hides_the_middle_witness :
  mask_api_key "sk-ant-admin01-abcdefgh" = "sk-a...efgh"
  /\ mask_api_key "12345678" = "***".
Proof.
  destruct (mask_api_key_hides_the_middle "sk-ant-admin01-abcdefgh")
    as (_ & _ & Hlong).
  destruct (mask_api_key_hides_the_middle "12345678") as (_ & Hshort & _).
  split.
  - destruct Hlong as (f & h & l & _ & _ & _ & _ & E); [simpl; lia|].
    reflexivity.
  - apply Hshort. simpl. lia.
Defined.

(** * Cleaning a timestamp *)

Section StripFacts.

Lemma strip_dropping_head (s : string) :
  starts_with_digit (strip_fraction_from true s) = false.
Proof.
  induction s as [|c s IH]; [reflexivity|].
  cbn [strip_fraction_from]. destruct (is_digit c) eqn:Ed; cbn [andb].
  - exact IH.
  - destruct (Ascii.eqb c "." && starts_with_digit s); [exact IH|].
    simpl. exact Ed.
Qed.

Lemma strip_keeping_head (s : string) :
  starts_with_digit s = false ->
  starts_with_digit (strip_fraction_from false s) = false.
Proof.
  destruct s as [|c s]; [reflexivity|]. intros H.
  cbn [strip_fraction_from andb].
  destruct (Ascii.eqb c "." && starts_with_digit s).
  - apply strip_dropping_head.
  - exact H.
Qed.

Lemma strip_has_no_fraction (dropping : bool) (s : string) :
  has_fraction (strip_fraction_from dropping s) = false.
Proof.
  revert dropping. induction s as [|c s IH]; intros dropping; [reflexivity|].
  cbn [strip_fraction_from].
  destruct (dropping && is_digit c); [apply IH|].
  destruct (Ascii.eqb c ".") eqn:Ec; cbn [andb].
  - destruct (starts_with_digit s) eqn:Es; [apply IH|].
    cbn [has_fraction]. rewrite Ec, IH, strip_keeping_head by exact Es.
    reflexivity.
  - cbn [has_fraction]. now rewrite Ec, IH.
Qed.

Lemma strip_without_fraction (s : string) :
  has_fraction s = false -> strip_fraction_from false s = s.
Proof.
  induction s as [|c s IH]; [reflexivity|].
  cbn [has_fraction strip_fraction_from andb]. intros H.
  apply orb_false_iff in H. destruct H as [H1 H2].
  rewrite H1, IH by exact H2. reflexivity.
Qed.

Lemma strip_length (dropping : bool) (s : string) :
  (String.length (strip_fraction_from dropping s) <= String.length s)%nat.
Proof.
  revert dropping. induction s as [|c s IH]; intros dropping; [reflexivity|].
  cbn [strip_fraction_from].
  destruct (dropping && is_digit c); [simpl; specialize (IH true); lia|].
  destruct (Ascii.eqb c "." && starts_with_digit s).
  - simpl. specialize (IH true). lia.
  - simpl. specialize (IH false). lia.
Qed.

Lemma has_fraction_free_of_dot (s : string) :
  free_of "." s = true -> has_fraction s = false.
Proof.
  induction s as [|c s IH]; [reflexivity|]. simpl.
  intros H. apply andb_true_iff in H. destruct H as [H1 H2].
  apply negb_true_iff in H1. now rewrite H1, IH.
Qed.

(** Up to its first dot a string is copied. *)
Lemma strip_app_free (body rest : string) :
  free_of "." body = true ->
  strip_fraction_from false (body ++ rest)
    = body ++ strip_fraction_from false rest.
Proof.
  induction body as [|c body IH]; [reflexivity|].
  simpl. intros H. apply andb_true_iff in H. destruct H as [H1 H2].
  apply negb_true_iff in H1. rewrite H1, IH by exact H2. reflexivity.
Qed.

(** The digits of a match are dropped up to the first character that is not
    a digit. *)
Lemma strip_digits (digits rest : string) :
  all_digits digits = true ->
  strip_fraction_from true (digits ++ rest) = strip_fraction_from true rest.
Proof.
  induction digits as [|c digits IH]; [reflexivity|].
  simpl. intros H. apply andb_true_iff in H. destruct H as [H1 H2].
  rewrite H1, IH by exact H2. reflexivity.
Qed.

Lemma replace_app_free (old new body rest : string) (c0 : ascii) (old' : string) :
  old = String c0 old' -> free_of c0 body = true ->
  replace_from old new 0 (body ++ rest) = body ++ replace_from old new 0 rest.
Proof.
  intros -> . induction body as [|c body IH]; [reflexivity|].
  simpl. intros H. apply andb_true_iff in H. destruct H as [H1 H2].
  apply negb_true_iff, Ascii.eqb_neq in H1.
  destruct (ascii_dec c0 c) as [E|_]; [now elim H1|].
  now rewrite IH.
Qed.

Lemma before_dot_app_free (body rest : string) :
  free_of "." body = true ->
  before_dot (body ++ rest) = body ++ before_dot rest.
Proof.
  induction body as [|c body IH]; [reflexivity|].
  simpl. intros H. apply andb_true_iff in H. destruct H as [H1 H2].
  apply negb_true_iff in H1. rewrite H1, IH by exact H2. reflexivity.
Qed.

End StripFacts.

(** X8. What [re.sub(r'\.\d+', '', s)] leaves has no dot followed by a digit and
    is not longer than [s]; a string without such a dot is left as it is, so
    that cleaning twice is cleaning once. *)
Theorem strip_fraction_removes_every_fraction (s : string) :
  has_fraction (strip_fraction s) = false
  /\ (String.length (strip_fraction s) <= String.length s)%nat
  /\ (has_fraction s = false -> strip_fraction s = s)
  /\ strip_fraction (strip_fraction s) = strip_fraction s.
Proof.
  unfold strip_fraction.
  split; [apply strip_has_no_fraction|].
  split; [apply strip_length|].
  split; [apply strip_without_fraction|].
  apply strip_without_fraction, strip_has_no_fraction.
Qed.

Lemma strip_fraction_removes_every_fraction_witness :
  strip_fraction "2025-03-05T15:30:00+00:00" = "2025-03-05T15:30:00+00:00".
Proof.
  destruct (strip_fraction_removes_every_fraction "2025-03-05T15:30:00+00:00")
    as (_ & _ & H & _).
  apply H. reflexivity.
Defined.

(** X9. What the two formatters hand to the parser. For a timestamp with
    fractional seconds and the offset [+00:00] both hand over the seconds
    followed by [+0000]; for one without fractional seconds
    [format_reset_time] does the same, while [fmt_reset] appends a second
    [+0000]. The part before the fraction is any text without dot or plus. *)
Theorem cleaned_timestamps (body digits : string) :
  free_of "." body = true -> free_of "+" body = true ->
  digits <> "" -> all_digits digits = true ->
  replace "+00:00" "+0000" (strip_fraction (body ++ "." ++ digits ++ "+00:00"))
    = body ++ "+0000"
  /\ before_dot (replace "+00:00" "+0000" (body ++ "." ++ digits ++ "+00:00"))
       ++ "+0000"
     = body ++ "+0000"
  /\ replace "+00:00" "+0000" (strip_fraction (body ++ "+00:00"))
     = body ++ "+0000"
  /\ before_dot (replace "+00:00" "+0000" (body ++ "+00:00")) ++ "+0000"
     = body ++ "+0000+0000".
Proof.
  intros Hdot Hplus Hne Hdig.
  assert (Happ : forall x y z : string, (x ++ y) ++ z = x ++ y ++ z).
  { intros x y z. induction x as [|c x IH]; simpl; [reflexivity|].
    now rewrite IH. }
  unfold replace, strip_fraction.
  split; [|split; [|split]].
  - rewrite strip_app_free by exact Hdot.
    destruct digits as [|d ds]; [now elim Hne|].
    simpl in Hdig. apply andb_true_iff in Hdig. destruct Hdig as [Hd Hds].
    change ("." ++ String d ds ++ "+00:00")
      with (String "." (String d (ds ++ "+00:00"))).
    cbn [strip_fraction_from andb starts_with_digit]. 
    change (Ascii.eqb "." ".") with true. rewrite Hd. cbn [andb].
    rewrite strip_digits by exact Hds.
    change (strip_fraction_from true "+00:00") with "+00:00".
    rewrite (replace_app_free "+00:00" "+0000" body "+00:00" "+" "00:00")
      by (reflexivity || exact Hplus).
    reflexivity.
  - rewrite (replace_app_free "+00:00" "+0000" body _ "+" "00:00")
      by (reflexivity || exact Hplus).
    rewrite before_dot_app_free by exact Hdot.
    change ("." ++ digits ++ "+00:00") with (String "." (digits ++ "+00:00")).
    cbn [replace_from]. cbn [prefix]. 
    destruct (ascii_dec "+" ".") as [E|_]; [discriminate E|].
    cbn [before_dot]. change (Ascii.eqb "." ".") with true. cbn iota.
    rewrite Happ. now destruct body.
  - rewrite strip_app_free by exact Hdot.
    change (strip_fraction_from false "+00:00") with "+00:00".
    rewrite (replace_app_free "+00:00" "+0000" body "+00:00" "+" "00:00")
      by (reflexivity || exact Hplus).
    reflexivity.
  - rewrite (replace_app_free "+00:00" "+0000" body "+00:00" "+" "00:00")
      by (reflexivity || exact Hplus).
    change (replace_from "+00:00" "+0000" 0 "+00:00") with "+0000".
    rewrite before_dot_app_free by exact Hdot.
    change (before_dot "+0000") with "+0000".
    now rewrite Happ.
Qed.

Lemma cleaned_timestamps_witness :
  replace "+00:00" "+0000"
    (strip_fraction ("2025-03-05T15:30:00" ++ "." ++ "123456" ++ "+00:00"))
    = "2025-03-05T15:30:00" ++ "+0000".
Proof.
  destruct (cleaned_timestamps "2025-03-05T15:30:00" "123456") as (H & _).
  - reflexivity.
  - reflexivity.
  - discriminate.
  - reflexivity.
  - exact H.
Defined.

(** * The two formatters of a reset time *)

Section TwoFormatters.

Lemma timedelta_seconds_range (us : Z) : 0 <= timedelta_seconds us < 86400.
Proof. unfold timedelta_seconds. Z.div_mod_to_equations. lia. Qed.

Lemma hours_test (us : Z) :
  negb (timedelta_seconds us / 3600 =? 0) = (timedelta_seconds us / 3600 >? 0).
Proof.
  pose proof (timedelta_seconds_range us) as H.
  assert (H0 : 0 <= timedelta_seconds us / 3600)
    by (Z.div_mod_to_equations; lia).
  rewrite Z.gtb_ltb.
  destruct (Z.eqb_spec (timedelta_seconds us / 3600) 0) as [E|E]; simpl.
  - rewrite E. reflexivity.
  - symmetry. apply Z.ltb_lt. lia.
Qed.

End TwoFormatters.

(** X10. [fmt_reset] of [tracker_lite.py] against [format_reset_time]: where both
    parse a timestamp to one and the same instant they give the same string,
    but for an instant one day ahead, which [format_reset_time] calls
    ["Tomorrow"] and [fmt_reset] gives as a date; and for a missing timestamp
    [fmt_reset] gives ["?"] where [format_reset_time] gives ["--"]. *)
Theorem fmt_reset_against_format_reset_time
    (fromisoformat : string -> option datetime) (now_in : option Z -> datetime)
    (iso_time : string) (dt : datetime) :
  iso_time <> "" ->
  fromisoformat (replace "+00:00" "+0000" (strip_fraction iso_time)) = Some dt ->
  fromisoformat (before_dot (replace "+00:00" "+0000" iso_time) ++ "+0000")
    = Some dt ->
  let days := timedelta_days (diff_us dt (now_in (tzinfo dt))) in
  (days <> 1 ->
   fmt_reset fromisoformat now_in (Some iso_time)
     = format_reset_time fromisoformat now_in (Some iso_time))
  /\ (days = 1 ->
      format_reset_time fromisoformat now_in (Some iso_time) = "Tomorrow"
      /\ fmt_reset fromisoformat now_in (Some iso_time)
           = month_abbr (month dt) ++ " " ++ pad2 (day dt))
  /\ fmt_reset fromisoformat now_in None = "?"
  /\ format_reset_time fromisoformat now_in None = "--"
  /\ (fromisoformat "+0000" = None ->
      fmt_reset fromisoformat now_in (Some "") = "?"
      /\ format_reset_time fromisoformat now_in (Some "") = "--").
Proof.
  intros Hne Hp Hq. cbv zeta.
  assert (Ef : fmt_reset fromisoformat now_in (Some iso_time) =
    let diff := diff_us dt (now_in (tzinfo dt)) in
    if timedelta_days diff =? 0 then
      if timedelta_seconds diff / 3600 >? 0
      then str (timedelta_seconds diff / 3600) ++ "h "
           ++ str ((timedelta_seconds diff mod 3600) / 60) ++ "m"
      else str ((timedelta_seconds diff mod 3600) / 60) ++ "m"
    else strftime_b_d dt).
  { unfold fmt_reset. rewrite Hq. cbv zeta. now rewrite hours_test. }
  assert (Eg : format_reset_time fromisoformat now_in (Some iso_time) =
    let diff := diff_us dt (now_in (tzinfo dt)) in
    if timedelta_days diff =? 0 then
      if timedelta_seconds diff / 3600 >? 0
      then str (timedelta_seconds diff / 3600) ++ "h "
           ++ str ((timedelta_seconds diff mod 3600) / 60) ++ "m"
      else str ((timedelta_seconds diff mod 3600) / 60) ++ "m"
    else if timedelta_days diff =? 1 then "Tomorrow"
    else strftime_b_d dt).
  { unfold format_reset_time. apply String.eqb_neq in Hne.
    now rewrite Hne, Hp. }
  rewrite Ef, Eg. cbv zeta.
  split; [|split; [|split; [|split]]].
  - intros H1. apply Z.eqb_neq in H1. now rewrite H1.
  - intros H1. rewrite H1. split; reflexivity.
  - reflexivity.
  - reflexivity.
  - intros H0. split; [|reflexivity].
    unfold fmt_reset. 
    change (before_dot (replace "+00:00" "+0000" "") ++ "+0000") with "+0000".
    now rewrite H0.
Qed.

Lemma fmt_reset_against_format_reset_time_witness :
  format_reset_time parse_timestamp (clock_at two_o_clock)
    (Some "2025-03-06T14:00:00.5+00:00") = "Tomorrow"
  /\ fmt_reset parse_timestamp (clock_at two_o_clock)
       (Some "2025-03-06T14:00:00.5+00:00") = "Mar 06".
Proof.
  destruct (fmt_reset_against_format_reset_time parse_timestamp
              (clock_at two_o_clock) "2025-03-06T14:00:00.5+00:00"
              (mkdatetime 2025 3 6 14 0 0 0 (Some 0))) as (_ & H & _).
  - discriminate.
  - vm_compute. reflexivity.
  - vm_compute. reflexivity.
  - destruct H as [H1 H2]; [vm_compute; reflexivity|].
    split; [exact H1 | rewrite H2; reflexivity].
Defined.

(** * From the time window to the cost request *)

Section RoundTrip.

(** A naive value without microseconds with the date and time of [d]: what
    is left of [d] after it is written and read back. *)
Lemma strptime_strftime_iso (d : datetime) :
  valid d = true ->
  strptime_iso (strftime_iso d)
    = Some (mkdatetime (year d) (month d) (day d) (hour d) (minute d)
              (second d) 0 None).
Proof.
  intros Hv.
  assert (Hv' : valid (mkdatetime (year d) (month d) (day d) (hour d)
                         (minute d) (second d) 0 None) = true).
  { apply valid_spec. apply valid_spec in Hv. simpl. repeat split; try tauto; lia. }
  apply valid_spec in Hv.
  destruct Hv as ((Hy & Hm & Hd) & Hh & Hmi & Hs & _).
  pose proof (days_in_month_pos (year d) (month d) Hm).
  unfold strptime_iso, strftime_iso.
  cbn [pad4 pad2 append String.length substring Nat.eqb andb].
  change (String.eqb "Z" "Z") with true. cbn [andb].
  unfold parse_timestamp.
  cbn [String.length substring Nat.ltb Nat.leb Nat.sub].
  change (String.eqb "-" "-") with true.
  change (String.eqb "T" "T") with true.
  change (String.eqb ":" ":") with true.
  cbn [andb negb].
  change (String (digit (year d / 1000))
            (String (digit (year d / 100))
               (String (digit (year d / 10)) (String (digit (year d)) ""))))
    with (pad4 (year d)).
  change (String (digit (month d / 10)) (String (digit (month d)) ""))
    with (pad2 (month d)).
  change (String (digit (day d / 10)) (String (digit (day d)) ""))
    with (pad2 (day d)).
  change (String (digit (hour d / 10)) (String (digit (hour d)) ""))
    with (pad2 (hour d)).
  change (String (digit (minute d / 10)) (String (digit (minute d)) ""))
    with (pad2 (minute d)).
  change (String (digit (second d / 10)) (String (digit (second d)) ""))
    with (pad2 (second d)).
  rewrite number_pad4 by lia. rewrite !number_pad2 by lia.
  cbn [parse_offset]. now rewrite Hv'.
Qed.

End RoundTrip.

Section WindowFacts.

Variable now : datetime.
Hypothesis now_valid : valid now = true.
Hypothesis now_year : 2 <= year now.

(** Whatever the timeframe, the window starts at a midnight no later than
    today and no earlier than 29 days ago, and ends now. *)
Lemma date_range_defined (timeframe : string) :
  exists start,
    date_range now timeframe = Some (start, now)
    /\ is_midnight start /\ valid start = true
    /\ toordinal now - 29 <= toordinal start <= toordinal now.
Proof.
  unfold date_range.
  destruct (String.eqb timeframe "today").
  { exists (replace_hmsu now 0 0 0 0).
    split; [reflexivity|]. split; [repeat split|].
    split; [now apply today_start_valid|].
    change (toordinal (replace_hmsu now 0 0 0 0)) with (toordinal now). lia. }
  destruct (String.eqb timeframe "7days").
  { destruct (days_back now now_valid 6) as (start & E & Hm & Ho & Hv); [lia..|].
    exists start. rewrite E. repeat split; try apply Hm; try assumption; lia. }
  destruct (String.eqb timeframe "30days").
  { destruct (days_back now now_valid 29) as (start & E & Hm & Ho & Hv); [lia..|].
    exists start. rewrite E. repeat split; try apply Hm; try assumption; lia. }
  exists (replace_hmsu now 0 0 0 0).
  split; [reflexivity|]. split; [repeat split|].
  split; [now apply today_start_valid|].
  change (toordinal (replace_hmsu now 0 0 0 0)) with (toordinal now). lia.
Qed.

End WindowFacts.

(** X11. [get_usage] from the clock to the cost request: the bounds that
    [_get_date_range] writes are read back by [_fetch_cost] without error, the
    cost report is asked for the window from the very start of the usage
    window to the midnight that follows now, and a report comes back whenever
    the two usage reports answer. The clock is between the years 1001 and
    9999, the last day of 9999 left out. *)
Theorem cost_request_follows_usage_window
    (now : datetime) (timeframe : string) (s : session) :
  valid now = true -> 1001 <= year now ->
  ~ (year now = 9999 /\ month now = 12 /\ day now = 31) ->
  exists start end_day,
    _get_date_range now timeframe = Some (strftime_iso start, strftime_iso now)
    /\ is_midnight start /\ toordinal start <= toordinal now
    /\ is_midnight end_day /\ toordinal end_day = toordinal now + 1
    /\ _fetch_cost_params strptime_iso (strftime_iso start) (strftime_iso now)
         = Some (strftime_iso start, strftime_iso end_day)
    /\ (forall model_data key_data,
        usage_report s "model" (strftime_iso start, strftime_iso now)
          = Body model_data ->
        usage_report s "api_key_id" (strftime_iso start, strftime_iso now)
          = Body key_data ->
        get_usage strptime_iso s now timeframe
          = Returns
              (Some (_combine_data (get model_data []) (get key_data [])
                       (_fetch_cost_request
                          (cost_report s
                             (strftime_iso start, strftime_iso end_day)))))).
Proof.
  intros Hv Hy Hlast.
  destruct (date_range_defined now Hv ltac:(lia) timeframe)
    as (start & Er & Hmid & Hvs & Hos).
  set (now' := mkdatetime (year now) (month now) (day now) (hour now)
                 (minute now) (second now) 0 None).
  assert (Hv' : valid now' = true).
  { apply valid_spec. apply valid_spec in Hv. simpl.
    repeat split; try tauto; lia. }
  destruct (next_day_defined now' Hv' Hlast) as [next Hn].
  destruct (next_day_ordinal now' next Hv' Hn)
    as (Ho & Hvn & _ & _ & _ & Hu & _).
  exists start, (replace_hms next 0 0 0).
  assert (Eg : _get_date_range now timeframe
               = Some (strftime_iso start, strftime_iso now)).
  { unfold _get_date_range. now rewrite Er. }
  assert (Ep : _fetch_cost_params strptime_iso (strftime_iso start)
                 (strftime_iso now)
               = Some (strftime_iso start, strftime_iso (replace_hms next 0 0 0))).
  { unfold _fetch_cost_params.
    rewrite (strptime_strftime_iso start Hvs), (strptime_strftime_iso now Hv).
    fold now'. unfold cost_window. rewrite Hn.
    destruct Hmid as (Hh & Hm & Hs & _).
    unfold strftime_iso, replace_hms. cbn [year month day hour minute second].
    now rewrite Hh, Hm, Hs. }
  split; [exact Eg|]. split; [exact Hmid|]. split; [lia|].
  split; [repeat split; exact Hu|].
  split; [exact Ho|]. split; [exact Ep|].
  intros dm dk Hm Hk. unfold get_usage, _fetch_cost.
  now rewrite Eg, Hm, Hk, Ep.
Qed.

Lemma cost_request_follows_usage_window_witness :
  get_usage strptime_iso quiet_session half_past_two "30days"
    = Returns (Some (_combine_data [] [] [])).
Proof.
  destruct (cost_request_follows_usage_window half_past_two "30days"
              quiet_session) as (start & end_day & _ & _ & _ & _ & _ & _ & H).
  - reflexivity.
  - simpl. lia.
  - simpl. lia.
  - rewrite (H None None); reflexivity.
Defined.

(** * The configuration *)

Section DictFacts.

Lemma dict_get_set (k k' : string) (v : json) (d : dict) :
  dict_get k (dict_set k' v d)
    = if String.eqb k' k then Some v else dict_get k d.
Proof.
  induction d as [|[k0 v0] d IH]; simpl.
  - reflexivity.
  - destruct (String.eqb k0 k') eqn:E0; simpl.
    + apply String.eqb_eq in E0. subst k0.
      now destruct (String.eqb k' k).
    + destruct (String.eqb k0 k) eqn:E1; [|exact IH].
      apply String.eqb_eq in E1. subst k0.
      now rewrite String.eqb_sym, E0.
Qed.

Lemma dict_get_None (k : string) (d : dict) :
  ~ In k (map fst d) -> dict_get k d = None.
Proof.
  induction d as [|[k0 v0] d IH]; simpl; [reflexivity|]. intros H.
  destruct (String.eqb k0 k) eqn:E.
  - apply String.eqb_eq in E. tauto.
  - apply IH. tauto.
Qed.

(** In [{**a, **b}] a key has its value in [b], or else its value in [a]. *)
Lemma dict_get_merge (k : string) (a b : dict) :
  NoDup (map fst b) ->
  dict_get k (dict_merge a b)
    = match dict_get k b with
      | Some v => Some v
      | None => dict_get k a
      end.
Proof.
  unfold dict_merge. revert a.
  induction b as [|[k' v'] b IH]; intros a Hb; simpl; [reflexivity|].
  inversion Hb as [|? ? Hn Hb']; subst.
  rewrite IH by exact Hb'. rewrite dict_get_set.
  destruct (String.eqb k' k) eqn:E.
  - apply String.eqb_eq in E. subst k'.
    now rewrite (dict_get_None k b Hn).
  - reflexivity.
Qed.

Lemma keys_dict_set (k : string) (v : json) (d : dict) :
  map fst (dict_set k v d)
    = if seen k (map fst d) then map fst d else (map fst d ++ [k])%list.
Proof.
  induction d as [|[k' v'] d IH]; simpl; [reflexivity|].
  rewrite (String.eqb_sym k k').
  destruct (String.eqb k' k) eqn:E; simpl; [reflexivity|].
  rewrite IH. now destruct (seen k (map fst d)).
Qed.

Lemma NoDup_dict_merge (a b : dict) :
  NoDup (map fst a) -> NoDup (map fst (dict_merge a b)).
Proof.
  unfold dict_merge. revert a.
  induction b as [|[k v] b IH]; intros a Ha; simpl; [exact Ha|].
  apply IH. rewrite keys_dict_set. now apply NoDup_note.
Qed.

Lemma NoDup_DEFAULT_CONFIG : NoDup (map fst DEFAULT_CONFIG).
Proof. repeat constructor; simpl; intuition discriminate. Qed.

End DictFacts.

(** X12. [load_config]: a key has the value the file gives it, or else its
    default; without a file, with one that cannot be read or parsed, and with
    one that is not an object, it has its default. So the three defaults are
    always there, and no key is there twice. *)
Theorem load_config_overrides_defaults (file : config_file) (k : string) :
  well_formed file ->
  dict_get k (load_config file)
    = match dict_get k (config_of file) with
      | Some v => Some v
      | None => dict_get k DEFAULT_CONFIG
      end
  /\ (dict_get k DEFAULT_CONFIG <> None -> dict_get k (load_config file) <> None)
  /\ NoDup (map fst (load_config file))
  /\ load_config Missing = DEFAULT_CONFIG
  /\ load_config Unreadable = DEFAULT_CONFIG.
Proof.
  intros Hw.
  assert (E : dict_get k (load_config file)
              = match dict_get k (config_of file) with
                | Some v => Some v
                | None => dict_get k DEFAULT_CONFIG
                end).
  { destruct file as [| |[]]; try reflexivity.
    simpl in Hw. simpl. now apply dict_get_merge. }
  split; [exact E|]. split; [|split; [|split; reflexivity]].
  - rewrite E. destruct (dict_get k (config_of file)); [discriminate | tauto].
  - destruct file as [| |[]]; try exact NoDup_DEFAULT_CONFIG.
    simpl. apply NoDup_dict_merge, NoDup_DEFAULT_CONFIG.
Qed.

Lemma load_config_overrides_defaults_witness :
  dict_get "refresh_interval_minutes" (load_config ten_minutes) = Some (JInt 10)
  /\ dict_get "default_timeframe" (load_config ten_minutes)
     = Some (JStr "today").
Proof.
  assert (Hw : well_formed ten_minutes).
  { simpl. repeat constructor; simpl; intuition discriminate. }
  split.
  - destruct (load_config_overrides_defaults ten_minutes
                "refresh_interval_minutes" Hw) as (H & _).
    rewrite H. reflexivity.
  - destruct (load_config_overrides_defaults ten_minutes
                "default_timeframe" Hw) as (H & _).
    rewrite H. reflexivity.
Defined.

(** X13. [get_refresh_interval] is 300 seconds without a usable file and with a
    file that does not set the interval, and 60 times the minutes of a file
    that sets them to an integer; a [null] there makes it raise. The default
    of its own [get] is never used, for [load_config] has the key. *)
Theorem refresh_interval_in_seconds (file : config_file) :
  well_formed file ->
  (dict_get "refresh_interval_minutes" (config_of file) = None ->
   get_refresh_interval file = Returns (JInt 300))
  /\ (forall n,
      dict_get "refresh_interval_minutes" (config_of file) = Some (JInt n) ->
      get_refresh_interval file = Returns (JInt (n * 60)))
  /\ (dict_get "refresh_interval_minutes" (config_of file) = Some JNull ->
      get_refresh_interval file = Raises)
  /\ dict_get "refresh_interval_minutes" (load_config file) <> None.
Proof.
  intros Hw.
  assert (E : dict_get "refresh_interval_minutes" (load_config file)
              = match dict_get "refresh_interval_minutes" (config_of file) with
                | Some v => Some v
                | None => Some (JInt 5)
                end).
  { destruct file as [| |[]]; try reflexivity.
    simpl in Hw. simpl. now rewrite dict_get_merge by exact Hw. }
  unfold get_refresh_interval. rewrite E.
  split; [|split; [|split]].
  - intros ->. reflexivity.
  - intros n ->. reflexivity.
  - intros ->. reflexivity.
  - now destruct (dict_get "refresh_interval_minutes" (config_of file)).
Qed.

Lemma refresh_interval_in_seconds_witness :
  get_refresh_interval ten_minutes = Returns (JInt 600)
  /\ get_refresh_interval Unreadable = Returns (JInt 300).
Proof.
  split.
  - destruct (refresh_interval_in_seconds ten_minutes) as (_ & H & _).
    + simpl. repeat constructor; simpl; intuition discriminate.
    + apply (H 10). reflexivity.
  - destruct (refresh_interval_in_seconds Unreadable) as (H & _).
    + exact I.
    + apply H. reflexivity.
Defined.

(** X14. [get_api_key]: a key in the keychain wins over the environment, and the
    environment over the file; an empty string in the keychain or in the
    environment counts as no key, so what comes from these two is never
    empty; and there is no key at all exactly when the keychain and the
    environment have none and the file gives none, the defaults having no
    key of their own. *)
Theorem api_key_precedence
    (keychain env : option string) (file : config_file) :
  well_formed file ->
  (forall k, keychain = Some k -> k <> "" ->
             get_api_key keychain env file = Some (JStr k))
  /\ (forall k, truthy keychain = false -> env = Some k -> k <> "" ->
                get_api_key keychain env file = Some (JStr k))
  /\ (truthy keychain = false -> truthy env = false ->
      get_api_key keychain env file
        = match dict_get "admin_api_key" (config_of file) with
          | Some JNull => None
          | other => other
          end)
  /\ (get_api_key keychain env file = None <->
      truthy keychain = false /\ truthy env = false
      /\ (dict_get "admin_api_key" (config_of file) = None
          \/ dict_get "admin_api_key" (config_of file) = Some JNull)).
Proof.
  intros Hw.
  assert (E : dict_get "admin_api_key" (load_config file)
              = dict_get "admin_api_key" (config_of file)).
  { destruct file as [| |[]]; try reflexivity.
    simpl in Hw. simpl. rewrite dict_get_merge by exact Hw.
    now destruct (dict_get "admin_api_key" l). }
  unfold get_api_key. rewrite E.
  assert (Hfile :
    match dict_get "admin_api_key" (config_of file) with
    | Some JNull => None
    | other => other
    end = None <->
    dict_get "admin_api_key" (config_of file) = None
    \/ dict_get "admin_api_key" (config_of file) = Some JNull).
  { destruct (dict_get "admin_api_key" (config_of file)) as [[]|];
      split; try tauto; try discriminate; intros [H|H]; discriminate H. }
  split; [|split; [|split]].
  - intros k -> Hk. apply String.eqb_neq in Hk. simpl. now rewrite Hk.
  - intros k -> -> Hk. apply String.eqb_neq in Hk. simpl. now rewrite Hk.
  - intros -> ->. reflexivity.
  - destruct (truthy keychain) eqn:Ek.
    + split.
      * destruct keychain; [discriminate | discriminate Ek].
      * intros (H & _). discriminate H.
    + destruct (truthy env) eqn:Ee.
      * split.
        -- destruct env; [discriminate | discriminate Ee].
        -- intros (_ & H & _). discriminate H.
      * rewrite Hfile. tauto.
Qed.

Lemma api_key_precedence_witness :
  get_api_key (Some "") (Some "from-env") ten_minutes = Some (JStr "from-env")
  /\ get_api_key None (Some "") ten_minutes = Some (JStr "key-of-the-file").
Proof.
  assert (Hw : well_formed ten_minutes).
  { simpl. repeat constructor; simpl; intuition discriminate. }
  split.
  - destruct (api_key_precedence (Some "") (Some "from-env") ten_minutes Hw)
      as (_ & H & _).
    apply H; [reflexivity | reflexivity | discriminate].
  - destruct (api_key_precedence None (Some "") ten_minutes Hw)
      as (_ & _ & H & _).
    rewrite H; reflexivity.
Defined.

(** * The lengths of the windows *)

Section WindowLengths.

Variable now : datetime.
Hypothesis now_valid : valid now = true.
Hypothesis now_year : 2 <= year now.

Lemma date_range_ordinal (timeframe : string) :
  exists start,
    date_range now timeframe = Some (start, now)
    /\ is_midnight start /\ valid start = true
    /\ toordinal start = toordinal now - days_back_of timeframe.
Proof.
  unfold date_range, days_back_of.
  destruct (String.eqb timeframe "today") eqn:Et.
  { apply String.eqb_eq in Et. subst timeframe.
    exists (replace_hmsu now 0 0 0 0).
    split; [reflexivity|]. split; [repeat split|].
    split; [now apply today_start_valid|].
    change (toordinal (replace_hmsu now 0 0 0 0)) with (toordinal now).
    simpl. lia. }
  destruct (String.eqb timeframe "7days").
  { destruct (days_back now now_valid 6) as (start & E & Hm & Ho & Hv); [lia..|].
    exists start. rewrite E. repeat split; try apply Hm; assumption. }
  destruct (String.eqb timeframe "30days").
  { destruct (days_back now now_valid 29) as (start & E & Hm & Ho & Hv); [lia..|].
    exists start. rewrite E. repeat split; try apply Hm; assumption. }
  exists (replace_hmsu now 0 0 0 0).
  split; [reflexivity|]. split; [repeat split|].
  split; [now apply today_start_valid|].
  change (toordinal (replace_hmsu now 0 0 0 0)) with (toordinal now). lia.
Qed.

End WindowLengths.

(** X15. The usage window ends now and starts at a midnight 0, 6 or 29 days before
    today, so its length is that many days and the time of day, and it never
    starts after it ends; the cost window made of its bounds, read back to the
    second, is one day more than that many days, a whole number of days: 1, 7
    or 30. *)
Theorem window_lengths (now : datetime) (timeframe : string) :
  valid now = true -> 2 <= year now ->
  ~ (year now = 9999 /\ month now = 12 /\ day now = 31) ->
  exists start start_day end_day,
    date_range now timeframe = Some (start, now)
    /\ wall_us now - wall_us start
       = days_back_of timeframe * 86400000000 + time_of_day_us now
    /\ wall_us start <= wall_us now
    /\ cost_window (reread start) (reread now) = Some (start_day, end_day)
    /\ wall_us start_day = wall_us start
    /\ wall_us end_day - wall_us start_day
       = (days_back_of timeframe + 1) * 86400000000
    /\ (days_back_of timeframe = 0 \/ days_back_of timeframe = 6
        \/ days_back_of timeframe = 29).
Proof.
  intros Hv Hy Hlast.
  destruct (date_range_ordinal now Hv Hy timeframe)
    as (start & Er & (Hh & Hm & Hs & Hu) & Hvs & Ho).
  assert (Hv' : valid (reread now) = true).
  { apply valid_spec. apply valid_spec in Hv. simpl.
    repeat split; try tauto; lia. }
  destruct (next_day_defined (reread now) Hv' Hlast) as [next Hn].
  destruct (next_day_ordinal (reread now) next Hv' Hn)
    as (Hon & _ & _ & _ & _ & Hun & _).
  exists start, (replace_hms (reread start) 0 0 0), (replace_hms next 0 0 0).
  assert (Hday : wall_us now - wall_us start
                 = days_back_of timeframe * 86400000000 + time_of_day_us now).
  { unfold wall_us, time_of_day_us. rewrite Ho, Hh, Hm, Hs, Hu. lia. }
  split; [exact Er|]. split; [exact Hday|].
  split.
  { apply valid_spec in Hv. unfold time_of_day_us in Hday.
    assert (0 <= days_back_of timeframe).
    { unfold days_back_of. destruct (String.eqb timeframe "7days"); [lia|].
      destruct (String.eqb timeframe "30days"); lia. }
    lia. }
  split; [unfold cost_window; now rewrite Hn|].
  split.
  { unfold wall_us.
    change (toordinal (replace_hms (reread start) 0 0 0)) with (toordinal start).
    simpl. rewrite Hh, Hm, Hs, Hu. reflexivity. }
  split.
  { unfold wall_us.
    change (toordinal (replace_hms (reread start) 0 0 0)) with (toordinal start).
    change (toordinal (replace_hms next 0 0 0)) with (toordinal next).
    change (toordinal (reread now)) with (toordinal now) in Hon.
    simpl. rewrite Hon, Ho, Hun. simpl. lia. }
  unfold days_back_of. destruct (String.eqb timeframe "7days"); [tauto|].
  destruct (String.eqb timeframe "30days"); tauto.
Qed.

Lemma window_lengths_witness :
  exists start start_day end_day,
    date_range half_past_two "7days" = Some (start, half_past_two)
    /\ cost_window (reread start) (reread half_past_two)
       = Some (start_day, end_day)
    /\ wall_us end_day - wall_us start_day = 7 * 86400000000.
Proof.
  destruct (window_lengths half_past_two "7days")
    as (start & sd & ed & H1 & _ & _ & H2 & _ & H3 & _).
  - reflexivity.
  - simpl. lia.
  - simpl. lia.
  - exists start, sd, ed. repeat split; assumption.
Defined.

(** X16. [format_reset_time] by the distance of the timestamp: from 24 up to 48
    hours ahead the result is ["Tomorrow"]; from 48 hours ahead on, and for
    every timestamp in the past, it is the date of the timestamp. *)
Theorem reset_time_by_distance
    (fromisoformat : string -> option datetime) (now_in : option Z -> datetime)
    (iso_time : string) (dt : datetime) :
  iso_time <> "" ->
  fromisoformat (replace "+00:00" "+0000" (strip_fraction iso_time)) = Some dt ->
  let diff := diff_us dt (now_in (tzinfo dt)) in
  let result := format_reset_time fromisoformat now_in (Some iso_time) in
  (86400000000 <= diff < 172800000000 -> result = "Tomorrow")
  /\ (diff < 0 \/ 172800000000 <= diff ->
      result = month_abbr (month dt) ++ " " ++ pad2 (day dt)).
Proof.
  intros Hne Hp. cbv zeta.
  set (diff := diff_us dt (now_in (tzinfo dt))).
  assert (E : format_reset_time fromisoformat now_in (Some iso_time) =
    if timedelta_days diff =? 0 then
      let hours := timedelta_seconds diff / 3600 in
      let mins := (timedelta_seconds diff mod 3600) / 60 in
      if hours >? 0 then str hours ++ "h " ++ str mins ++ "m"
      else str mins ++ "m"
    else if timedelta_days diff =? 1 then "Tomorrow"
    else strftime_b_d dt).
  { unfold format_reset_time. apply String.eqb_neq in Hne.
    now rewrite Hne, Hp. }
  rewrite E. split.
  - intros H. rewrite (proj2 (timedelta_days_1 diff) H). reflexivity.
  - intros H.
    assert (H0 : timedelta_days diff <> 0) by (rewrite timedelta_days_0; lia).
    assert (H1 : timedelta_days diff <> 1) by (rewrite timedelta_days_1; lia).
    apply Z.eqb_neq in H0, H1. now rewrite H0, H1.
Qed.

Lemma reset_time_by_distance_witness :
  format_reset_time parse_timestamp (clock_at two_o_clock)
    (Some "2025-03-07T13:59:59+00:00") = "Tomorrow"
  /\ format_reset_time parse_timestamp (clock_at two_o_clock)
       (Some "2025-03-07T14:00:00+00:00") = "Mar 07".
Proof.
  split.
  - destruct (reset_time_by_distance parse_timestamp (clock_at two_o_clock)
                "2025-03-07T13:59:59+00:00"
                (mkdatetime 2025 3 7 13 59 59 0 (Some 0))) as (H & _).
    + discriminate.
    + vm_compute. reflexivity.
    + apply H. vm_compute. split; [discriminate | reflexivity].
  - destruct (reset_time_by_distance parse_timestamp (clock_at two_o_clock)
                "2025-03-07T14:00:00+00:00"
                (mkdatetime 2025 3 7 14 0 0 0 (Some 0))) as (_ & H).
    + discriminate.
    + vm_compute. reflexivity.
    + rewrite H; [reflexivity|]. right. vm_compute. discriminate.
Defined.

(** * The cost request within [get_usage] *)

Section CostParams.

(** What [_get_date_range] writes, [_fetch_cost] reads back: inside
    [get_usage] the code before the [try] block of [_fetch_cost] does not
    raise. *)
Lemma cost_params_defined (now : datetime) (timeframe : string) :
  valid now = true -> 2 <= year now ->
  ~ (year now = 9999 /\ month now = 12 /\ day now = 31) ->
  exists start end_day,
    _get_date_range now timeframe = Some (strftime_iso start, strftime_iso now)
    /\ _fetch_cost_params strptime_iso (strftime_iso start) (strftime_iso now)
       = Some (strftime_iso start, strftime_iso end_day).
Proof.
  intros Hv Hy Hlast.
  destruct (date_range_defined now Hv Hy timeframe)
    as (start & Er & (Hh & Hm & Hs & _) & Hvs & _).
  assert (Hv' : valid (reread now) = true).
  { apply valid_spec. apply valid_spec in Hv. simpl.
    repeat split; try tauto; lia. }
  destruct (next_day_defined (reread now) Hv' Hlast) as [next Hn].
  exists start, (replace_hms next 0 0 0). split.
  - unfold _get_date_range. now rewrite Er.
  - unfold _fetch_cost_params.
    rewrite (strptime_strftime_iso start Hvs), (strptime_strftime_iso now Hv).
    fold (reread now). unfold cost_window. rewrite Hn.
    unfold strftime_iso, replace_hms. cbn [year month day hour minute second].
    now rewrite Hh, Hm, Hs.
Qed.

End CostParams.

(** C6. A cost request that fails gives the empty sequence instead of an
    error, where one that succeeds gives the buckets of its body; and
    [get_usage] still returns a report: the bounds it hands to [_fetch_cost]
    are the ones [_get_date_range] wrote, which are read back without error
    (for a clock between the years 1001 and 9999, the last day of 9999 left
    out). The report built from the empty sequence has a grand total whose
    cost is [0.0] and whose token fields are the sums over the rows of the
    model report. Whatever the cost data, the cost of the grand total is the
    sum, from [0.0] and in the order of the rows, of the amounts of all rows
    of all buckets, a missing amount counting as [0]; they change nothing
    else: the token fields and the summaries by model and by key are the
    same, and every summary carries the cost [0.0]. *)
Theorem cost_failure_keeps_usage (model_usage key_usage : list Bucket.t) :
  let r := _combine_data model_usage key_usage (_fetch_cost_request Raised) in
  let rows := all_rows model_usage in
  _fetch_cost_request Raised = []
  /\ (forall data, _fetch_cost_request (Body data) = get data [])
  /\ (forall strptime s now timeframe start_date end_date params,
      _get_date_range now timeframe = Some (start_date, end_date) ->
      _fetch_usage (usage_report s "model" (start_date, end_date))
        = Some model_usage ->
      _fetch_usage (usage_report s "api_key_id" (start_date, end_date))
        = Some key_usage ->
      _fetch_cost_params strptime start_date end_date = Some params ->
      cost_report s params = Raised ->
      _fetch_cost strptime (cost_report s) start_date end_date = Some []
      /\ get_usage strptime s now timeframe = Returns (Some r))
  /\ (forall s now timeframe,
      valid now = true -> 1001 <= year now ->
      ~ (year now = 9999 /\ month now = 12 /\ day now = 31) ->
      (forall window, usage_report s "model" window = Body (Some model_usage)) ->
      (forall window,
          usage_report s "api_key_id" window = Body (Some key_usage)) ->
      (forall params, cost_report s params = Raised) ->
      get_usage strptime_iso s now timeframe = Returns (Some r))
  /\ Usage.cost_usd (Report.total r) = 0%float
  /\ Usage.tokens (Report.total r)
       = (sumZ (map model_input_tokens rows),
          sumZ (map row_output_tokens rows),
          sumZ (map model_input_tokens rows) + sumZ (map row_output_tokens rows))
  /\ (forall cost_data,
      let r' := _combine_data model_usage key_usage cost_data in
      Usage.cost_usd (Report.total r')
        = fold_left
            (fun acc item => (acc + get (CostItem.amount item) 0)%float)
            (flat_map (fun bucket => get (CostBucket.results bucket) [])
               cost_data)
            0%float
      /\ Usage.tokens (Report.total r') = Usage.tokens (Report.total r)
      /\ Report.by_model r' = Report.by_model r
      /\ Report.by_key r' = Report.by_key r
      /\ Forall (fun e => Usage.cost_usd (ModelUsage.usage e) = 0%float)
           (Report.by_model r')
      /\ Forall (fun e => Usage.cost_usd (ApiKeyUsage.usage e) = 0%float)
           (Report.by_key r'))
  /\ (forall a b : float,
      Usage.cost_usd
        (Report.total
           (_combine_data model_usage key_usage
              [CostBucket.mk (Some [CostItem.mk (Some a)]);
               CostBucket.mk None;
               CostBucket.mk (Some [CostItem.mk None; CostItem.mk (Some b)])]))
      = (((0 + a) + 0) + b)%float).
Proof.
  cbv zeta. split; [reflexivity|]. split; [reflexivity|].
  split.
  { intros strptime s now tf sd ed params Hr Hm Hk Hp Hc.
    assert (E : _fetch_cost strptime (cost_report s) sd ed = Some []).
    { unfold _fetch_cost. now rewrite Hp, Hc. }
    split; [exact E|].
    unfold get_usage. now rewrite Hr, Hm, Hk, E. }
  split.
  { intros s now tf Hv Hy Hlast Hm Hk Hc.
    destruct (cost_params_defined now tf Hv ltac:(lia) Hlast)
      as (start & end_day & Er & Ep).
    unfold get_usage, _fetch_cost.
    rewrite Er, Hm, Hk, Ep, Hc. reflexivity. }
  split; [reflexivity|].
  split; [apply (models_total_tokens model_usage)|].
  split.
  { intros cost_data. unfold _combine_data.
    cbn [Report.total Report.by_model Report.by_key].
    repeat split.
    - apply Forall_sort_desc.
      generalize (models_unsorted_usage model_usage). apply Forall_impl.
      intros e [v ->]. reflexivity.
    - apply Forall_sort_desc.
      generalize (keys_unsorted_usage key_usage). apply Forall_impl.
      intros e [v ->]. reflexivity. }
  intros a b. reflexivity.
Qed.

Lemma cost_failure_keeps_usage_witness :
  get_usage strptime_iso cost_outage half_past_two "today"
    = Returns (Some (_combine_data opus_rows credential_rows []))
  /\ get_usage strptime_iso cost_outage half_past_two "7days"
     = Returns (Some (_combine_data opus_rows credential_rows [])).
Proof.
  destruct (cost_failure_keeps_usage opus_rows credential_rows)
    as (_ & _ & H & Hall & _).
  split.
  - apply (H strptime_iso cost_outage half_past_two "today"
             "2025-03-05T00:00:00Z" "2025-03-05T14:30:00Z"
             ("2025-03-05T00:00:00Z", "2025-03-06T00:00:00Z"));
      vm_compute; reflexivity.
  - apply Hall.
    + reflexivity.
    + simpl. lia.
    + simpl. lia.
    + intros window. reflexivity.
    + intros window. reflexivity.
    + intros params. reflexivity.
Defined.
